(** * Olympic athletes biography cleaning: the notebook [bios_cleaned.ipynb]

    A shallow embedding of the cells of [notebooks/bios_cleaned.ipynb] that
    change the working table [df], together with the pandas and scikit-learn
    operations they call, and the properties of the cleaning pipeline.

    Conventions of the embedding.
    - A Python [str] is a sequence of Unicode code points: [list N].
    - A missing value ([None], [NaN], [NaT]) is the single value [NA].
    - A [Series] is a dtype tag and a list of values; a [DataFrame] is the
      ordered list of its labelled columns.  Row labels are the positions:
      the index of [read_csv] is a range whose labels stay unique under the
      two row filters, and every Series the notebook builds is derived from a
      column of [df], so alignment on the index is alignment on positions.
    - A Python exception is the [Raise] outcome of the [result] monad.
    - A float is an exact rational, kept in lowest terms.
    - pandas is taken as the notebook was written for it (1.x and 2.x): a
      Timestamp counts nanoseconds, and [fillna(..., inplace=True)] on a
      column taken from [df] updates [df].
    - Cells that only display ([sample], [head], [info], [value_counts],
      [describe], plots) do not change [df] and are left out. *)

From Stdlib Require Import String Ascii Bool Arith ZArith NArith QArith Qround
  Lqa Lia Sorted Permutation List.
Import ListNotations.

Close Scope Q_scope.
Set Implicit Arguments.

(* ================================================================== *)
(** * Exceptions *)

Inductive exn := KeyError | ValueError | AttributeError | IndexError | TypeError.

Inductive result (A : Type) : Type :=
| Ok (a : A)
| Raise (e : exn).

Arguments Ok {A} a.
Arguments Raise {A} e.

Definition bind {A B} (r : result A) (k : A -> result B) : result B :=
  match r with
  | Ok a => k a
  | Raise e => Raise e
  end.

Declare Scope result_scope.
Delimit Scope result_scope with result.
Notation "x <- e ;; k" := (bind e (fun x => k))
  (at level 61, e at next level, right associativity) : result_scope.
Open Scope result_scope.

(* ================================================================== *)
(** * Python strings *)

Definition char := N.
Definition str := list char.

(** A literal whose characters are all ASCII. *)
Definition u (s : string) : str := map N_of_ascii (list_ascii_of_string s).

Definition SPACE : char := 32%N.
Definition BULLET : char := 8226%N.        (* U+2022 *)
Definition I_CIRCUMFLEX : char := 206%N.   (* U+00CE *)

(** [s.startswith(p)] *)
Fixpoint startswith (p s : str) : bool :=
  match p, s with
  | [], _ => true
  | _ :: _, [] => false
  | a :: p', b :: s' => N.eqb a b && startswith p' s'
  end.

(** [sub in s] for a non-empty [sub]. *)
Fixpoint contains (sub s : str) : bool :=
  match s with
  | [] => startswith sub []
  | _ :: r => startswith sub s || contains sub r
  end.

(** [s.replace(old, new)] for a non-empty [old]: the occurrences are found
    from the left and do not overlap.  [skip] counts the characters of a
    matched occurrence that are still to be passed over. *)
Fixpoint replace_from (old new : str) (skip : nat) (s : str) : str :=
  match s with
  | [] => []
  | c :: r =>
      match skip with
      | S k => replace_from old new k r
      | O =>
          if startswith old s
          then new ++ replace_from old new (length old - 1) r
          else c :: replace_from old new 0 r
      end
  end.

Definition replace (old new s : str) : str := replace_from old new 0 s.

(** [s.split(sep)] for a non-empty [sep], without a limit on the number of
    splits: every occurrence of [sep], found from the left, ends a
    fragment. *)
Fixpoint split_from (sep : str) (skip : nat) (s : str) : list str :=
  match s with
  | [] => [[]]
  | c :: r =>
      match skip with
      | S k => split_from sep k r
      | O =>
          if startswith sep s
          then [] :: split_from sep (length sep - 1) r
          else match split_from sep 0 r with
               | f :: fs => (c :: f) :: fs
               | [] => [[c]]
               end
      end
  end.

Definition split (sep s : str) : list str := split_from sep 0 s.

(** [c.isspace()]: the code points Python treats as white space. *)
Definition isspace (c : char) : bool :=
  ((9 <=? c) && (c <=? 13) || (28 <=? c) && (c <=? 32)
   || (c =? 133) || (c =? 160) || (c =? 5760)
   || (8192 <=? c) && (c <=? 8202)
   || (c =? 8232) || (c =? 8233) || (c =? 8239) || (c =? 8287)
   || (c =? 12288))%N.

Fixpoint lstrip (s : str) : str :=
  match s with
  | [] => []
  | c :: r => if isspace c then lstrip r else s
  end.

(** [s.strip()] *)
Definition strip (s : str) : str := rev (lstrip (rev (lstrip s))).

Definition isdigit (c : char) : bool := ((48 <=? c) && (c <=? 57))%N.
Definition digit_val (c : char) : Z := Z.of_N c - 48.

(** The value of a string of decimal digits. *)
Definition digits_val (s : str) : Z :=
  fold_left (fun acc c => 10 * acc + digit_val c)%Z s 0%Z.

Definition all_digits (s : str) : bool :=
  match s with
  | [] => false
  | _ => forallb isdigit s
  end.

(* ================================================================== *)
(** * Values, Series and DataFrames *)

Record date := mkDate { year : Z; month : Z; day : Z }.

Inductive value :=
| NA
| Str (s : str)
| Num (q : Q)
| Date (d : date).

Inductive dtype := object | int64 | float64 | datetime64.

Record Series := mkSeries { dtype_of : dtype; values : list value }.

(** The columns of a frame, in order, each with its label. *)
Definition DataFrame := list (string * Series).

Definition isna (v : value) : bool :=
  match v with NA => true | _ => false end.

Definition notna (v : value) : bool := negb (isna v).

Definition date_eq_dec (a b : date) : {a = b} + {a <> b}.
Proof. decide equality; apply Z.eq_dec. Defined.

Definition Q_eq_dec (a b : Q) : {a = b} + {a <> b}.
Proof. decide equality; [apply Pos.eq_dec | apply Z.eq_dec]. Defined.

Definition value_eq_dec (a b : value) : {a = b} + {a <> b}.
Proof.
  decide equality;
    [apply (list_eq_dec N.eq_dec) | apply Q_eq_dec | apply date_eq_dec].
Defined.

Definition row := list value.

Definition row_eq_dec : forall a b : row, {a = b} + {a <> b} :=
  list_eq_dec value_eq_dec.

Definition is_number (t : dtype) : bool :=
  match t with int64 | float64 => true | _ => false end.

(** ** Column access *)

(** [df[c]] *)
Fixpoint getcol (df : DataFrame) (c : string) : result Series :=
  match df with
  | [] => Raise KeyError
  | (n, s) :: r => if String.eqb n c then Ok s else getcol r c
  end.

Definition has_col (df : DataFrame) (c : string) : bool :=
  existsb (fun p => String.eqb (fst p) c) df.

(** [df.columns] *)
Definition columns (df : DataFrame) : list string := map fst df.

(** [df.columns.get_loc(c)] *)
Fixpoint get_loc (df : DataFrame) (c : string) : result nat :=
  match df with
  | [] => Raise KeyError
  | (n, _) :: r =>
      if String.eqb n c then Ok 0 else (k <- get_loc r c ;; Ok (S k))
  end.

(** [df.insert(loc, column, value)]: a label already present is refused. *)
Definition insert (df : DataFrame) (loc : nat) (c : string) (v : Series)
  : result DataFrame :=
  if has_col df c then Raise ValueError
  else if loc <=? length df
       then Ok (firstn loc df ++ (c, v) :: skipn loc df)
       else Raise IndexError.

(** [df[c] = v]: replaces the column in place, or appends a new one. *)
Fixpoint setcol (df : DataFrame) (c : string) (v : Series) : DataFrame :=
  match df with
  | [] => [(c, v)]
  | (n, s) :: r =>
      if String.eqb n c then (n, v) :: r else (n, s) :: setcol r c v
  end.

Definition mem (c : string) (l : list string) : bool :=
  existsb (String.eqb c) l.

(** [df.drop(columns=names)]: every label has to be present. *)
Definition drop (df : DataFrame) (names : list string) : result DataFrame :=
  if forallb (has_col df) names
  then Ok (filter (fun p => negb (mem (fst p) names)) df)
  else Raise KeyError.

(** [df[names]]: the listed columns, in the order of the list. *)
Fixpoint select (df : DataFrame) (names : list string) : result DataFrame :=
  match names with
  | [] => Ok []
  | n :: r =>
      s <- getcol df n ;;
      rest <- select df r ;;
      Ok ((n, s) :: rest)
  end.

(** ** Rows *)

(** [len(df)] *)
Definition nrows (df : DataFrame) : nat :=
  match df with
  | [] => 0
  | (_, s) :: _ => length (values s)
  end.

(** The rows of a list of columns that all have [n] values. *)
Fixpoint rows_of (n : nat) (cols : list (list value)) : list row :=
  match cols with
  | [] => repeat [] n
  | c :: cs => map (fun p => fst p :: snd p) (combine c (rows_of n cs))
  end.

Definition rows (df : DataFrame) : list row :=
  rows_of (nrows df) (map (fun p => values (snd p)) df).

(** [x[mask]]: the entries at which the mask is true. *)
Fixpoint take {A} (mask : list bool) (l : list A) : list A :=
  match mask, l with
  | b :: m, x :: r => if b then x :: take m r else take m r
  | _, _ => []
  end.

(** [s[mask]] *)
Definition mask_series (mask : list bool) (s : Series) : Series :=
  mkSeries (dtype_of s) (take mask (values s)).

(** [df[mask]] *)
Definition boolean_index (df : DataFrame) (mask : list bool) : DataFrame :=
  map (fun p => (fst p, mask_series mask (snd p))) df.

(** [duplicated(keep="first")] on a sequence of rows: a row is a duplicate
    when an equal row stands before it; two missing values are equal. *)
Fixpoint duplicated_from (seen : list row) (l : list row) : list bool :=
  match l with
  | [] => []
  | r :: l' =>
      if in_dec row_eq_dec r seen
      then true :: duplicated_from seen l'
      else false :: duplicated_from (r :: seen) l'
  end.

(** [df.duplicated()] *)
Definition duplicated (df : DataFrame) : list bool :=
  duplicated_from [] (rows df).

(** [df.drop_duplicates()], which pandas computes as [df[~df.duplicated()]]. *)
Definition drop_duplicates (df : DataFrame) : DataFrame :=
  boolean_index df (map negb (duplicated df)).

(** [df.dropna(subset=[c])] *)
Definition dropna_subset (df : DataFrame) (c : string) : result DataFrame :=
  s <- getcol df c ;;
  Ok (boolean_index df (map notna (values s))).

(* ================================================================== *)
(** * String methods of a Series *)

(** [s.str]: the accessor exists on a column of dtype object only. *)
Definition str_accessor (s : Series) : result (list value) :=
  match dtype_of s with
  | object => Ok (values s)
  | _ => Raise AttributeError
  end.

(** A string method leaves a missing value missing. *)
Definition str_map (f : str -> value) (v : value) : value :=
  match v with
  | Str s => f s
  | _ => NA
  end.

Definition replace_in (old new : str) : value -> value :=
  str_map (fun x => Str (replace old new x)).

Definition strip_in : value -> value :=
  str_map (fun x => Str (strip x)).

(** [s.str.replace(old, new)] with a pattern free of regex operators. *)
Definition str_replace (s : Series) (old new : str) : result Series :=
  vs <- str_accessor s ;;
  Ok (mkSeries object (map (replace_in old new) vs)).

(** [s.str.strip()] *)
Definition str_strip (s : Series) : result Series :=
  vs <- str_accessor s ;;
  Ok (mkSeries object (map strip_in vs)).

(** The frame built by [s.str.split(sep, expand=True)]: [elen] rows and
    the columns [ecols], labelled [0], [1], ... in order. *)
Record Expanded := mkExpanded { elen : nat; ecols : list (list value) }.

Definition parts_of (sep : str) (v : value) : option (list str) :=
  match v with
  | Str s => Some (split sep s)
  | _ => None
  end.

(** A missing value counts as a list of one missing value. *)
Definition parts_len (p : option (list str)) : nat :=
  match p with
  | Some l => length l
  | None => 1
  end.

(** The entry of a row in column [j]: a row with fewer fragments is filled
    up with missing values. *)
Definition part (j : nat) (p : option (list str)) : value :=
  match p with
  | Some l => match nth_error l j with
              | Some f => Str f
              | None => NA
              end
  | None => NA
  end.

(** [s.str.split(sep, expand=True)]: one column per fragment of the row
    with the most fragments; no column at all for a Series without rows. *)
Definition split_width (sep : str) (vs : list value) : nat :=
  list_max (map (fun v => parts_len (parts_of sep v)) vs).

Definition str_split_expand (s : Series) (sep : str) : result Expanded :=
  vs <- str_accessor s ;;
  Ok (mkExpanded (length vs)
        (map (fun j => map (fun v => part j (parts_of sep v)) vs)
             (seq 0 (split_width sep vs)))).

(** [e[j]] *)
Definition ecol (e : Expanded) (j : nat) : result Series :=
  match nth_error (ecols e) j with
  | Some c => Ok (mkSeries object c)
  | None => Raise KeyError
  end.

(** [l[i] = v] inside the list *)
Fixpoint update {A} (l : list A) (i : nat) (v : A) : list A :=
  match l, i with
  | [], _ => []
  | _ :: r, O => v :: r
  | x :: r, S k => x :: update r k v
  end.

(** [e[j] = s] for a column [j] that exists *)
Definition eset (e : Expanded) (j : nat) (s : Series) : Expanded :=
  mkExpanded (elen e) (update (ecols e) j (values s)).

(** [e.iterrows()]: the rows in order, each with its label. *)
Definition iterrows (e : Expanded) : list row := rows_of (elen e) (ecols e).

(** [row[j]] for a row produced by [iterrows] *)
Definition row_get (r : row) (j : nat) : result value :=
  match nth_error r j with
  | Some v => Ok v
  | None => Raise KeyError
  end.

(** [e.apply(lambda x: x.str.strip() if x.dtype == "object" else x)]:
    every column of an expanded frame has dtype object. *)
Definition expanded_strip (e : Expanded) : Expanded :=
  mkExpanded (elen e) (map (map strip_in) (ecols e)).

(** [s.replace(d, regex=True)] for a dict [d] of patterns free of regex
    operators: the entries are applied one after the other. *)
Definition replace_each (d : list (str * str)) (v : value) : value :=
  match v with
  | Str x => Str (fold_left (fun acc p => replace (fst p) (snd p) acc) d x)
  | _ => v
  end.

Definition series_replace_regex (s : Series) (d : list (str * str)) : Series :=
  mkSeries (dtype_of s) (map (replace_each d) (values s)).

Definition replace_whole (old new v : value) : value :=
  if value_eq_dec v old then new else v.

(** [s.replace(old, new, regex=False)]: replaces whole values, not parts
    of strings. *)
Definition series_replace (s : Series) (old new : value) : Series :=
  mkSeries (dtype_of s) (map (replace_whole old new) (values s)).

Definition fill (v x : value) : value := if isna x then v else x.

(** [s.fillna(v)]; filling text into a column turns it into dtype object. *)
Definition fillna (s : Series) (v : value) : Series :=
  mkSeries
    (match v with
     | Str _ => if existsb isna (values s) then object else dtype_of s
     | _ => dtype_of s
     end)
    (map (fill v) (values s)).

(* ================================================================== *)
(** * Dates: [pd.to_datetime(s, format="%d-%m-%Y", errors="coerce")] *)

Definition DASH : char := 45%N.
Definition SLASH : char := 47%N.
Definition DOT : char := 46%N.
Definition PLUS : char := 43%N.

Definition nonzero_digit (c : char) : bool := isdigit c && negb (c =? 48)%N.

(** [%d]: [3[0-1]|[1-2]\d|0[1-9]|[1-9]| [1-9]] *)
Definition day_field (s : str) : option Z :=
  match s with
  | [a] => if nonzero_digit a then Some (digit_val a) else None
  | [a; b] =>
      if (a =? SPACE)%N
      then (if nonzero_digit b then Some (digit_val b) else None)
      else if isdigit a && isdigit b && (1 <=? digits_val s)%Z && (digits_val s <=? 31)%Z
           then Some (digits_val s) else None
  | _ => None
  end.

(** [%m]: [1[0-2]|0[1-9]|[1-9]] *)
Definition month_field (s : str) : option Z :=
  match s with
  | [a] => if nonzero_digit a then Some (digit_val a) else None
  | [a; b] =>
      if isdigit a && isdigit b && (1 <=? digits_val s)%Z && (digits_val s <=? 12)%Z
      then Some (digits_val s) else None
  | _ => None
  end.

(** [%Y]: four digits *)
Definition year_field (s : str) : option Z :=
  match s with
  | [a; b; c; d] => if forallb isdigit s then Some (digits_val s) else None
  | _ => None
  end.

Definition leap_year (y : Z) : bool :=
  ((y mod 4 =? 0) && (negb (y mod 100 =? 0) || (y mod 400 =? 0)))%Z.

Definition days_in_month (y m : Z) : Z :=
  (if (m =? 2) then (if leap_year y then 29 else 28)
   else if (m =? 4) || (m =? 6) || (m =? 9) || (m =? 11) then 30
   else 31)%Z.

Definition valid_date (d : date) : bool :=
  ((1 <=? year d) && (1 <=? month d) && (month d <=? 12)
   && (1 <=? day d) && (day d <=? days_in_month (year d) (month d)))%Z.

Definition date_leb (a b : date) : bool :=
  ((year a <? year b)
   || (year a =? year b)
      && ((month a <? month b) || (month a =? month b) && (day a <=? day b)))%Z.

(** The days a nanosecond Timestamp can hold at midnight. *)
Definition in_bounds (d : date) : bool :=
  date_leb (mkDate 1677 9 22) d && date_leb d (mkDate 2262 4 11).

(** One string against the format: the whole string has to match, and a
    string that does not becomes missing.  The fields are read from ASCII
    digits; pandas also reads the other decimal digits of Unicode, and the
    properties below speak of texts with ASCII digits. *)
Definition to_datetime_str (s : str) : value :=
  match split [DASH] s with
  | [d; m; y] =>
      match day_field d, month_field m, year_field y with
      | Some dd, Some mm, Some yy =>
          let dt := mkDate yy mm dd in
          if valid_date dt && in_bounds dt then Date dt else NA
      | _, _, _ => NA
      end
  | _ => NA
  end.

Definition to_datetime_value (v : value) : value :=
  match v with
  | Str x => to_datetime_str x
  | Date d => Date d
  | _ => NA
  end.

Definition to_datetime (s : Series) : Series :=
  mkSeries datetime64 (map to_datetime_value (values s)).

(* ================================================================== *)
(** * Numbers: [pd.to_numeric(s, errors="coerce")] *)

Definition isspace_ascii (c : char) : bool :=
  ((c =? 32) || (9 <=? c) && (c <=? 13))%N.

Fixpoint lstrip_ascii (s : str) : str :=
  match s with
  | [] => []
  | c :: r => if isspace_ascii c then lstrip_ascii r else s
  end.

Definition strip_ascii (s : str) : str :=
  rev (lstrip_ascii (rev (lstrip_ascii s))).

(** Digits with an optional fraction; at least one digit. *)
Definition parse_unsigned (s : str) : option Q :=
  match split [DOT] s with
  | [i] => if all_digits i then Some (inject_Z (digits_val i)) else None
  | [i; f] =>
      if forallb isdigit i && forallb isdigit f && negb (length i + length f =? 0)
      then Some (Qmake (digits_val i * 10 ^ Z.of_nat (length f) + digits_val f)
                       (Z.to_pos (10 ^ Z.of_nat (length f))))
      else None
  | _ => None
  end.

Definition parse_decimal (s : str) : option Q :=
  match s with
  | c :: r =>
      if (c =? DASH)%N then option_map Qopp (parse_unsigned r)
      else if (c =? PLUS)%N then parse_unsigned r
      else parse_unsigned s
  | [] => None
  end.

(** One string read as a number: a decimal numeral between optional ASCII
    white space, kept exact.  pandas also reads numerals with an exponent
    and the spellings of infinity, and rounds a numeral of more than 15
    digits to the nearest float; these are outside the model, and the
    properties below speak of short numerals and of texts that hold
    letters no numeral has. *)
Definition to_numeric_str (s : str) : value :=
  match parse_decimal (strip_ascii s) with
  | Some q => Num (Qred q)
  | None => NA
  end.

Definition to_numeric_value (v : value) : value :=
  match v with
  | Str x => to_numeric_str x
  | Num q => Num q
  | _ => NA
  end.

(** The values are what matters below.  The dtype is float64 whenever a
    value is missing or has a fraction; for a column of whole numbers
    without a missing value pandas gives int64, a numeric dtype as well. *)
Definition to_numeric (s : Series) : Series :=
  mkSeries float64 (map to_numeric_value (values s)).

(** [s.round(1)]: to one decimal, a tie going to the even neighbour.
    The rounding is that of the exact number; numpy rounds the float, which
    gives the same on numbers of at most 15 digits with at most one
    decimal. *)
Definition round1 (q : Q) : Q :=
  let x := Qmult q (inject_Z 10) in
  let f := Qfloor x in
  let n := match Qcompare (Qminus x (inject_Z f)) (1 # 2) with
           | Lt => f
           | Gt => (f + 1)%Z
           | Eq => if Z.even f then f else (f + 1)%Z
           end in
  Qred (n # 10).

Definition round_value (v : value) : value :=
  match v with
  | Num q => Num (round1 q)
  | _ => v
  end.

Definition round_series (s : Series) : Series :=
  mkSeries (dtype_of s) (map round_value (values s)).

(* ================================================================== *)
(** * [SimpleImputer(strategy="most_frequent")] *)

(** The values of a column that are not missing. *)
Definition observed (vs : list value) : list Q :=
  flat_map (fun v => match v with Num q => [q] | _ => [] end) vs.

Definition occurrences (x : Q) (l : list Q) : nat :=
  length (filter (Qeq_bool x) l).

(** [x] is at least as good a mode of [l] as [y]: it occurs more often, or
    as often and is not the larger one. *)
Definition preferred (l : list Q) (x y : Q) : bool :=
  (occurrences y l <? occurrences x l)
  || (occurrences x l =? occurrences y l) && Qle_bool x y.

(** The most frequent value; among several the smallest.  A column without
    an observed value has none. *)
Definition most_frequent (l : list Q) : option Q :=
  match l with
  | [] => None
  | x :: r => Some (fold_left (fun best y => if preferred l best y then best else y) r x)
  end.

(** [imputer.fit_transform(df[[i]])], stored back with [df[i] = ...].
    Fitting refuses a column without rows (ValueError); a column without an
    observed value is left out of the transformed array, which cannot
    serve as the column: the notebook fails, at the assignment or when the
    column is read next, depending on the version of pandas.  The model
    records the failure as a ValueError; no property below depends on the
    class of this exception. *)
Definition fit_transform (s : Series) : result Series :=
  match most_frequent (observed (values s)) with
  | None => Raise ValueError
  | Some m => Ok (mkSeries (dtype_of s) (map (fill (Num m)) (values s)))
  end.

(** [df.select_dtypes(include="number").columns] *)
Definition numeric_columns (df : DataFrame) : list string :=
  map fst (filter (fun p => is_number (dtype_of (snd p))) df).

(** [for i in ...: df[i] = imputer.fit_transform(df[[i]])] *)
Fixpoint impute_loop (names : list string) (df : DataFrame) : result DataFrame :=
  match names with
  | [] => Ok df
  | i :: r =>
      s <- getcol df i ;;
      s' <- fit_transform s ;;
      impute_loop r (setcol df i s')
  end.

(** [df[names] = df[names].fillna(v)] *)
Definition fillna_columns (df : DataFrame) (names : list string) (v : value)
  : result DataFrame :=
  sub <- select df names ;;
  Ok (fold_left (fun d p => setcol d (fst p) (fillna (snd p) v)) sub df).

(* ================================================================== *)
(** * The notebook *)

Definition dropped_columns : list string :=
  ["Nick/petnames"; "Title(s)"; "Other names"; "Nationality"; "Original name";
   "Name order"]%string.

Definition kept_columns : list string :=
  ["athlete_id"; "Full name"; "Used name"; "Sex"; "Born"; "Died"; "NOC";
   "Measurements"; "Roles"; "Affiliations"]%string.

Definition final_columns : list string :=
  ["athlete_id"; "name"; "Sex"; "birth_date"; "City"; "Region"; "Country";
   "NOC"; "height_cm"; "weight_kg"; "Roles"; "Affiliations"]%string.

Definition new_cols1 : list string := ["birth_date"; "birth_location"]%string.
Definition new_cols2 : list string := ["City"; "Region_country"]%string.
Definition new_cols3 : list string := ["Region"; "Country"]%string.

Definition month_codes : list (str * str) :=
  [(u "January", u "-01-"); (u "February", u "-02-"); (u "March", u "-03-");
   (u "April", u "-04-"); (u "May", u "-05-"); (u "June", u "-06-");
   (u "July", u "-07-"); (u "August", u "-08-"); (u "September", u "-09-");
   (u "October", u "-10-"); (u "November", u "-11-"); (u "December", u "-12-")].

Definition sentinel_date : date := mkDate 1975 1 1.

(** Section 3: [drop_duplicates], the first [drop] and the rearrangement. *)
Definition prune (dataset : DataFrame) : result DataFrame :=
  let df := drop_duplicates dataset in
  df <- drop df dropped_columns ;;
  select df kept_columns.

(** Section 5: the column [name]. *)
Definition clean_name (df : DataFrame) : result DataFrame :=
  loc <- get_loc df "Used name" ;;
  used <- getcol df "Used name" ;;
  name <- str_replace used [BULLET] [SPACE] ;;
  df <- insert df (loc + 1) "name" name ;;
  drop df ["Full name"; "Used name"]%string.

(** [for i in range(len(new_cols)):
       df.insert(loc=df.columns.get_loc(c) + 1 + i, column=new_cols[i],
                 value=new_data[i])] *)
Fixpoint insert_after (df : DataFrame) (c : string) (i : nat)
    (new_cols : list string) (new_data : Expanded) : result DataFrame :=
  match new_cols with
  | [] => Ok df
  | n :: r =>
      loc <- get_loc df c ;;
      v <- ecol new_data i ;;
      df' <- insert df (loc + 1 + i) n v ;;
      insert_after df' c (S i) r new_data
  end.

(** Section 7: [Born] into [birth_date], [City], [Region], [Country]. *)
Definition parse_born (df : DataFrame) : result DataFrame :=
  born <- getcol df "Born" ;;
  new_data1 <- str_split_expand born (u "in") ;;
  c0 <- ecol new_data1 0 ;;
  let new_data1 := eset new_data1 0 (series_replace_regex c0 month_codes) in
  c0 <- ecol new_data1 0 ;;
  c0 <- str_strip c0 ;;
  let new_data1 := eset new_data1 0 (series_replace c0 (Str (u " ")) (Str [])) in
  c1 <- ecol new_data1 1 ;;
  c1 <- str_strip c1 ;;
  let new_data1 := eset new_data1 1 (series_replace c1 (Str (u " ")) (Str [])) in
  df <- insert_after df "Born" 0 new_cols1 new_data1 ;;
  bd <- getcol df "birth_date" ;;
  bd <- str_replace bd (u " ") [] ;;
  let df := setcol df "birth_date" bd in
  bd <- getcol df "birth_date" ;;
  let df := setcol df "birth_date" (to_datetime bd) in
  bl <- getcol df "birth_location" ;;
  bl <- str_replace bl (u " ") [] ;;
  let df := setcol df "birth_location" bl in
  bl <- getcol df "birth_location" ;;
  new_data2 <- str_split_expand bl (u ",") ;;
  df <- insert_after df "birth_location" 0 new_cols2 new_data2 ;;
  rc <- getcol df "Region_country" ;;
  new_data3 <- str_split_expand rc (u "(") ;;
  df <- insert_after df "Region_country" 0 new_cols3 new_data3 ;;
  co <- getcol df "Country" ;;
  co <- str_replace co (u ")") [] ;;
  let df := setcol df "Country" co in
  drop df ["Born"; "birth_location"; "Region_country"; "Died"]%string.

(** Section 8: rows without a NOC are dropped. *)
Definition drop_null_noc (df : DataFrame) : result DataFrame :=
  dropna_subset df "NOC".

(** [df.at[i, c] = v] *)
Fixpoint at_set (df : DataFrame) (i : nat) (c : string) (v : value)
  : result DataFrame :=
  match df with
  | [] => Raise KeyError
  | (n, s) :: r =>
      if String.eqb n c
      then Ok ((n, mkSeries (dtype_of s) (update (values s) i v)) :: r)
      else (r' <- at_set r i c v ;; Ok ((n, s) :: r'))
  end.

(** [x.replace(old, new)] with the empty string for [new], on a value of
    a row: a string method. *)
Definition py_replace (v : value) (old : str) : result value :=
  match v with
  | Str s => Ok (Str (replace old [] s))
  | _ => Raise AttributeError
  end.

(** ["cm" in x] on a value of a row. *)
Definition py_in (sub : str) (v : value) : result bool :=
  match v with
  | Str s => Ok (contains sub s)
  | _ => Raise TypeError
  end.

(** The body of the loop over the rows of the split measurements. *)
Definition measurements_row (df : DataFrame) (i : nat) (row : row)
  : result DataFrame :=
  r1 <- row_get row 1 ;;
  if isna r1 then
    r0 <- row_get row 0 ;;
    if notna r0 then
      has_cm <- py_in (u "cm") r0 ;;
      if has_cm then
        h <- py_replace r0 (u " cm") ;;
        at_set df i "height_cm" h
      else
        has_kg <- py_in (u "kg") r0 ;;
        if has_kg then
          w <- py_replace r0 (u " kg") ;;
          at_set df i "weight_kg" w
        else Ok df
    else Ok df
  else
    r0 <- row_get row 0 ;;
    df <- (if notna r0
           then h <- py_replace r0 (u " cm") ;; at_set df i "height_cm" h
           else Ok df) ;;
    r1 <- row_get row 1 ;;
    if notna r1
    then w <- py_replace r1 (u " kg") ;; at_set df i "weight_kg" w
    else Ok df.

(** [for i, row in new_data4.iterrows(): ...] *)
Fixpoint for_rows (body : DataFrame -> nat -> row -> result DataFrame)
    (df : DataFrame) (i : nat) (rs : list row) : result DataFrame :=
  match rs with
  | [] => Ok df
  | r :: rest =>
      df' <- body df i r ;;
      for_rows body df' (S i) rest
  end.

(** Section 9: [Measurements] into [height_cm] and [weight_kg], then the
    rearrangement into the final columns.  The cell that removes the unit
    markers from [new_data4] writes to [new_data4] only, which is not read
    again. *)
Definition parse_measurements (df : DataFrame) : result DataFrame :=
  ms <- getcol df "Measurements" ;;
  new_data4 <- str_split_expand ms (u "/") ;;
  let new_data4 := expanded_strip new_data4 in
  let df := setcol df "height_cm" (mkSeries object (repeat NA (nrows df))) in
  let df := setcol df "weight_kg" (mkSeries object (repeat NA (nrows df))) in
  df <- for_rows measurements_row df 0 (iterrows new_data4) ;;
  h <- getcol df "height_cm" ;;
  let df := setcol df "height_cm" (to_numeric h) in
  w <- getcol df "weight_kg" ;;
  let df := setcol df "weight_kg" (to_numeric w) in
  df <- drop df ["Measurements"]%string ;;
  select df final_columns.

(** Section 10: defaults, imputation and rounding.  The fill of
    [birth_date] is [df["birth_date"].fillna(..., inplace=True)], which
    writes through to [df]. *)
Definition fill_missing (df : DataFrame) : result DataFrame :=
  df <- fillna_columns df ["City"; "Region"; "Country"; "Affiliations"]%string
          (Str (u "Unknown")) ;;
  df <- impute_loop (numeric_columns df) df ;;
  bd <- getcol df "birth_date" ;;
  let df := setcol df "birth_date" (fillna bd (Date sentinel_date)) in
  h <- getcol df "height_cm" ;;
  let df := setcol df "height_cm" (round_series h) in
  w <- getcol df "weight_kg" ;;
  let df := setcol df "weight_kg" (round_series w) in
  Ok df.

(** The notebook from the loaded [dataset] to the frame that is written
    out. *)
Definition pipeline (dataset : DataFrame) : result DataFrame :=
  df <- prune dataset ;;
  df <- clean_name df ;;
  df <- parse_born df ;;
  df <- drop_null_noc df ;;
  df <- parse_measurements df ;;
  fill_missing df.

(* ================================================================== *)
(** * Example tables *)

(** One record of [bios.csv], with the columns the notebook keeps. *)
Record bio := mkBio {
  b_id : Z;
  b_full : value;
  b_used : value;
  b_sex : value;
  b_born : value;
  b_died : value;
  b_noc : value;
  b_measurements : value;
  b_roles : value;
  b_affiliations : value
}.

(** The dtype [read_csv] infers for a column: object in a file without
    records, float64 (the dtype of NaN) for a column that is empty in every
    record, and the dtype of its values otherwise. *)
Definition inferred (t : dtype) (vs : list value) : dtype :=
  match vs with
  | [] => object
  | _ :: _ => if forallb isna vs then float64 else t
  end.

Definition text (f : bio -> value) (l : list bio) : Series :=
  mkSeries (inferred object (map f l)) (map f l).

(** A column of [bios.csv] that is empty in every record. *)
Definition empty_column (l : list bio) : Series :=
  mkSeries (inferred float64 (map (fun _ => NA) l)) (map (fun _ => NA) l).

Definition id_column (l : list bio) : Series :=
  mkSeries (inferred int64 (map (fun b => Num (inject_Z (b_id b))) l))
    (map (fun b => Num (inject_Z (b_id b))) l).

(** The table [read_csv] builds from the records, with the header of
    [bios.csv]. *)
Definition dataset_of (l : list bio) : DataFrame :=
  [("Roles", text b_roles l); ("Sex", text b_sex l);
   ("Full name", text b_full l); ("Used name", text b_used l);
   ("Born", text b_born l); ("Died", text b_died l); ("NOC", text b_noc l);
   ("athlete_id", id_column l);
   ("Measurements", text b_measurements l);
   ("Affiliations", text b_affiliations l);
   ("Nick/petnames", empty_column l); ("Title(s)", empty_column l);
   ("Other names", empty_column l); ("Nationality", empty_column l);
   ("Original name", empty_column l); ("Name order", empty_column l)]%string.

(** A text value whose characters are all ASCII. *)
Definition lit (s : string) : value := Str (u s).

Definition ile_de_france : str := I_CIRCUMFLEX :: u "le-de-France".

Definition born_paris : str :=
  u "12 January 1980 in Paris, France (" ++ ile_de_france ++ u ")".

Definition born_new_york : value :=
  Str (u "4 July 1976 in New York, New York (USA)").

Definition athlete_paris : bio :=
  mkBio 1 (lit "Jean Dupont") (Str (u "Jean" ++ [BULLET] ++ u "Dupont")) (lit "Male")
        (Str born_paris) NA (lit "France") (lit "178 cm / 75 kg")
        (lit "Competed in Olympic Games") NA.

(** Every column has as many values as the frame has rows. *)
Definition rectangular (df : DataFrame) : Prop :=
  Forall (fun p => length (values (snd p)) = nrows df) df.

(** The rows that [duplicated] does not mark, given the rows seen before. *)
Definition keep_from (seen l : list row) : list row :=
  take (map negb (duplicated_from seen l)) l.

(** The rows of a table that survive [drop_duplicates]. *)
Definition kept_rows (l : list row) : list row := keep_from [] l.

(* ================================================================== *)
(** * The frames between the sections of the notebook *)

(** After the rearrangement of section 3. *)
Definition frame10 (a fn un sx b d noc ms r af : Series) : DataFrame :=
  [("athlete_id", a); ("Full name", fn); ("Used name", un); ("Sex", sx);
   ("Born", b); ("Died", d); ("NOC", noc); ("Measurements", ms);
   ("Roles", r); ("Affiliations", af)]%string.

(** After section 5. *)
Definition frame9 (a nm sx b d noc ms r af : Series) : DataFrame :=
  [("athlete_id", a); ("name", nm); ("Sex", sx); ("Born", b); ("Died", d);
   ("NOC", noc); ("Measurements", ms); ("Roles", r); ("Affiliations", af)]%string.

(** After sections 7 and 8. *)
Definition frame11 (a nm sx bd ci re co noc ms r af : Series) : DataFrame :=
  [("athlete_id", a); ("name", nm); ("Sex", sx); ("birth_date", bd);
   ("City", ci); ("Region", re); ("Country", co); ("NOC", noc);
   ("Measurements", ms); ("Roles", r); ("Affiliations", af)]%string.

(** After sections 9 and 10: the columns of [final_columns]. *)
Definition frame12 (a nm sx bd ci re co noc h w r af : Series) : DataFrame :=
  [("athlete_id", a); ("name", nm); ("Sex", sx); ("birth_date", bd);
   ("City", ci); ("Region", re); ("Country", co); ("NOC", noc);
   ("height_cm", h); ("weight_kg", w); ("Roles", r); ("Affiliations", af)]%string.

(** During the loop of section 9: [frame11] with the two new columns. *)
Definition frame13 (a nm sx bd ci re co noc ms r af : Series) (h w : list value)
  : DataFrame :=
  frame11 a nm sx bd ci re co noc ms r af
  ++ [("height_cm"%string, mkSeries object h); ("weight_kg"%string, mkSeries object w)].

(** The column after the loop has stored [v] at row [i]; [NA] stands for
    a row at which nothing is stored. *)
Definition store (l : list value) (i : nat) (v : value) : list value :=
  match v with
  | NA => l
  | _ => update l i v
  end.

(** The column has been through the imputation loop: a numeric column is
    transformed, any other column is left as it is. *)
Definition imputed (s s' : Series) : Prop :=
  if is_number (dtype_of s) then fit_transform s = Ok s' else s' = s.

(** ** The rows that reach the output *)

(** The mask of [drop_duplicates]. *)
Definition first_occurrences (dataset : DataFrame) : list bool :=
  map negb (duplicated dataset).

(** The mask of [dropna(subset=["NOC"])], over the rows left by
    [drop_duplicates]. *)
Definition with_noc (dataset : DataFrame) : list bool :=
  match getcol dataset "NOC" with
  | Ok noc => map notna (take (first_occurrences dataset) (values noc))
  | Raise _ => []
  end.

(** The values of a column of the loaded table in the rows that survive
    both filters. *)
Definition surviving (dataset : DataFrame) (l : list value) : list value :=
  take (with_noc dataset) (take (first_occurrences dataset) l).

Definition unknown : value := Str (u "Unknown").

(** The column of the loaded table in the rows that survive. *)
Definition survivor (dataset : DataFrame) (s : Series) : Series :=
  mask_series (with_noc dataset) (mask_series (first_occurrences dataset) s).

(** No text of the column contains the separator. *)
Definition separator_free (sep : str) (vs : list value) : Prop :=
  Forall (fun v => forall s, v = Str s -> contains sep s = false) vs.

(** ** What section 7 makes of one value of [Born]

    The sections work on whole columns.  The functions below describe one
    row; [parse_born_frame] and [parse_measurements_frame] prove that the
    columns the sections build are these functions mapped over the
    column. *)

Definition born_date_text (born : value) : value :=
  replace_in (u " ") []
    (replace_whole (Str (u " ")) (Str [])
       (strip_in (replace_each month_codes (part 0 (parts_of (u "in") born))))).

Definition born_date (born : value) : value :=
  to_datetime_value (born_date_text born).

Definition born_location (born : value) : value :=
  replace_in (u " ") []
    (replace_whole (Str (u " ")) (Str [])
       (strip_in (part 1 (parts_of (u "in") born)))).

Definition born_city (born : value) : value :=
  part 0 (parts_of (u ",") (born_location born)).

Definition born_region_country (born : value) : value :=
  part 1 (parts_of (u ",") (born_location born)).

Definition born_region (born : value) : value :=
  part 0 (parts_of (u "(") (born_region_country born)).

Definition born_country (born : value) : value :=
  replace_in (u ")") [] (part 1 (parts_of (u "(") (born_region_country born))).

(** A value that holds no space character. *)
Definition spaceless (v : value) : Prop :=
  match v with
  | Str s => ~ In SPACE s
  | _ => True
  end.

(** ** What section 9 makes of one value of [Measurements] *)

(** The two entries of the row of [new_data4] that the loop reads. *)
Definition measure0 (m : value) : value := strip_in (part 0 (parts_of (u "/") m)).
Definition measure1 (m : value) : value := strip_in (part 1 (parts_of (u "/") m)).

(** The text the loop stores in [height_cm] for a row, [NA] when it
    stores none. *)
Definition height_text (r0 r1 : value) : value :=
  match r0 with
  | Str s0 =>
      if isna r1
      then (if contains (u "cm") s0 then Str (replace (u " cm") [] s0) else NA)
      else Str (replace (u " cm") [] s0)
  | _ => NA
  end.

(** The text the loop stores in [weight_kg] for a row. *)
Definition weight_text (r0 r1 : value) : value :=
  match r1 with
  | Str s1 => Str (replace (u " kg") [] s1)
  | _ =>
      match r0 with
      | Str s0 =>
          if contains (u "cm") s0 then NA
          else if contains (u "kg") s0 then Str (replace (u " kg") [] s0)
          else NA
      | _ => NA
      end
  end.

Definition measured_height (m : value) : value :=
  to_numeric_value (height_text (measure0 m) (measure1 m)).

Definition measured_weight (m : value) : value :=
  to_numeric_value (weight_text (measure0 m) (measure1 m)).

(* ================================================================== *)
(** * More example tables *)

Definition paris_table : DataFrame := dataset_of [athlete_paris].

(** The same athlete with a birth text that names no place. *)
Definition athlete_no_place : bio :=
  mkBio 2 (lit "Jean Dupont") (lit "Jean Dupont") (lit "Male")
        (lit "12 January 1980") NA (lit "France") (lit "178 cm / 75 kg")
        (lit "Competed in Olympic Games") NA.

(** The same athlete with a height and no weight. *)
Definition athlete_height_only : bio :=
  mkBio 3 (lit "Jean Dupont") (lit "Jean Dupont") (lit "Male")
        (Str born_paris) NA (lit "France") (lit "178 cm")
        (lit "Competed in Olympic Games") NA.

(** A birth place whose name contains the letters "in". *)
Definition born_berlin : str := u "1 May 1980 in Berlin, Berlin (GER)".

Definition athlete_berlin : bio :=
  mkBio 4 (lit "Anna Schmidt") (lit "Anna Schmidt") (lit "Female")
        (Str born_berlin) NA (lit "Germany") (lit "170 cm / 60 kg")
        (lit "Competed in Olympic Games") (lit "SC Berlin").

Definition berlin_table : DataFrame := dataset_of [athlete_berlin; athlete_paris].

Definition athlete_new_york : bio :=
  mkBio 5 (lit "John Smith") (lit "John Smith") (lit "Male")
        born_new_york NA (lit "United States") (lit "180 cm / 80 kg")
        (lit "Competed in Olympic Games") NA.

Definition new_york_table : DataFrame := dataset_of [athlete_new_york].

(** A birth text whose date does not follow the pattern. *)
Definition athlete_undated : bio :=
  mkBio 6 (lit "Luc Martin") (lit "Luc Martin") (lit "Male")
        (lit "about 1980 in Lyon, Rhone (FRA)") NA (lit "France") (lit "75 kg")
        (lit "Competed in Olympic Games") NA.

(** A record without NOC. *)
Definition athlete_stateless : bio :=
  mkBio 7 (lit "Max Muster") (lit "Max Muster") (lit "Male")
        (lit "3 March 1990 in Bern, Bern (SUI)") NA NA (lit "181 cm / 77 kg")
        (lit "Competed in Olympic Games") NA.

(** A table with a repeated row, a row without NOC and an undated row. *)
Definition mixed_table : DataFrame :=
  dataset_of [athlete_paris; athlete_undated; athlete_paris; athlete_stateless].

(** Two records that are equal in every field, and the table in which the
    second one carries another full name. *)
Definition twins_table : DataFrame := dataset_of [athlete_paris; athlete_paris].

Definition athlete_paris_renamed : bio :=
  mkBio 1 (lit "Jean-Pierre Dupont") (Str (u "Jean" ++ [BULLET] ++ u "Dupont"))
        (lit "Male") (Str born_paris) NA (lit "France") (lit "178 cm / 75 kg")
        (lit "Competed in Olympic Games") NA.

Definition renamed_twins_table : DataFrame :=
  dataset_of [athlete_paris; athlete_paris_renamed].

Definition output_of (r : result DataFrame) : DataFrame :=
  match r with
  | Ok df => df
  | Raise _ => []
  end.

Definition paris_output : DataFrame :=
  Eval vm_compute in output_of (pipeline paris_table).
Definition berlin_output : DataFrame :=
  Eval vm_compute in output_of (pipeline berlin_table).
Definition new_york_output : DataFrame :=
  Eval vm_compute in output_of (pipeline new_york_table).
Definition mixed_output : DataFrame :=
  Eval vm_compute in output_of (pipeline mixed_table).

(** A frame as it stands before section 9, with four measurements. *)
Definition sample_ids : Series :=
  mkSeries int64 [Num (1 # 1); Num (2 # 1); Num (3 # 1); Num (4 # 1)].

Definition sample_text : Series :=
  mkSeries object [lit "a"; lit "b"; lit "c"; lit "d"].

Definition sample_measurements : Series :=
  mkSeries object [lit "178 cm / 75 kg"; lit "178 cm"; lit "75 kg"; lit "tall"].

Definition measured_frame : DataFrame :=
  frame11 sample_ids sample_text sample_text sample_text sample_text
    sample_text sample_text sample_text sample_measurements sample_text
    sample_text.

Definition measured_output : DataFrame :=
  Eval vm_compute in output_of (parse_measurements measured_frame).

(** A numeric column in which two values are equally frequent, beside a
    column of text. *)
Definition tied_heights : Series :=
  mkSeries float64 [Num (180 # 1); Num (170 # 1); NA].

Definition tied_frame : DataFrame :=
  [("height_cm", tied_heights); ("City", mkSeries object [lit "Paris"; NA; NA])]%string.

Definition tied_output : DataFrame :=
  Eval vm_compute in output_of (impute_loop (numeric_columns tied_frame) tied_frame).

(** Following the words of the specification: the most frequent value,
    with ties broken in favour of the value met first in the column. *)
Definition first_encountered_mode (l : list Q) : option Q :=
  match l with
  | [] => None
  | x :: r =>
      Some (fold_left
              (fun best y => if occurrences best l <? occurrences y l then y else best)
              r x)
  end.

(* ================================================================== *)
(** * Definitions for the further properties *)

(** [df.isna().sum()]: the number of missing values of every column. *)
Definition isna_sum (df : DataFrame) : list (string * nat) :=
  map (fun p => (fst p, length (filter isna (values (snd p))))) df.

(** [df.duplicated().sum()] *)
Definition duplicated_sum (df : DataFrame) : nat :=
  length (filter (fun b => b) (duplicated df)).

(** A text value in which the character does not occur. *)
Definition lacks (c : char) (v : value) : Prop :=
  match v with
  | Str s => ~ In c s
  | _ => True
  end.

Definition COMMA : char := 44%N.
Definition LPAREN : char := 40%N.
Definition RPAREN : char := 41%N.


(** A value of a column of dtype object that came out of a string method:
    a text or a missing value. *)
Definition textual (v : value) : Prop :=
  match v with
  | NA | Str _ => True
  | _ => False
  end.

(** A row of a split with at least two columns. *)
Definition two_textual (r : row) : Prop :=
  match r with
  | v0 :: v1 :: _ => textual v0 /\ textual v1
  | _ => False
  end.

(** The columns of the loaded table whose values reach the output, and the
    columns that are dropped without being read. *)
Definition read_columns : list string :=
  ["athlete_id"; "Used name"; "Sex"; "Born"; "NOC"; "Measurements"; "Roles";
   "Affiliations"]%string.

Definition unread_columns : list string :=
  dropped_columns ++ ["Full name"; "Died"]%string.

(** [sep.join(l)]: the fragments with [sep] between them.  The notebook
    does not call it; it states what [split] and [replace] keep. *)
Fixpoint join (sep : str) (l : list str) : str :=
  match l with
  | [] => []
  | x :: r =>
      match r with
      | [] => x
      | _ :: _ => (x ++ sep ++ join sep r)%list
      end
  end.

(** ** Birth texts of the usual form *)

(** The English name of month [m], as the keys of [month_codes] list them. *)
Definition month_name (m : nat) : str := nth (m - 1) (map fst month_codes) [].

(** The text without the character [c]. *)
Definition without (c : char) (s : str) : str :=
  filter (fun x => negb (x =? c)%N) s.

Definition no_leading_space (s : str) : Prop :=
  match s with
  | c :: _ => isspace c = false
  | [] => True
  end.

(** "<day> <Month> <year> in <city>, <region> (<country>)" *)
Definition born_text (d : str) (m : nat) (y city region country : str) : str :=
  (d ++ u " " ++ month_name m ++ u " " ++ y ++ u " in "
     ++ city ++ u ", " ++ region ++ u " (" ++ country ++ u ")")%list.

(** The pattern matches at no position of [a] in the text [a ++ tail]. *)
Definition matchless (sep a tail : str) : Prop :=
  forall k, k < length a -> startswith sep (skipn k a ++ tail)%list = false.

(** The two fragments of a birth text of the usual form. *)
Definition date_part (d : str) (m : nat) (y : str) : str :=
  (d ++ SPACE :: month_name m ++ SPACE :: y ++ [SPACE])%list.

Definition place_part (city region country : str) : str :=
  (SPACE :: city ++ COMMA :: SPACE :: region ++ SPACE :: LPAREN :: country
     ++ [RPAREN])%list.

(** The code that replaces the name of month [m]. *)
Definition month_code (m : nat) : str := nth (m - 1) (map snd month_codes) [].

(** ** Measurements of the usual form *)

(** "<h> cm / <w> kg", "<h> cm", "<w> kg" and "<h> cm / <w1>-<w2> kg" *)
Definition both_text (h w : str) : str := (h ++ u " cm / " ++ w ++ u " kg")%list.
Definition height_only_text (h : str) : str := (h ++ u " cm")%list.
Definition weight_only_text (w : str) : str := (w ++ u " kg")%list.
Definition weight_range_text (h w1 w2 : str) : str :=
  (h ++ u " cm / " ++ w1 ++ u "-" ++ w2 ++ u " kg")%list.

(** A non-empty string of ASCII digits, as [all_digits] tests it. *)
Definition numeral (s : str) : Prop := all_digits s = true.

(** A numeral of at most 14 digits: a float holds its value, and ten times
    its value, exactly. *)
Definition short_numeral (s : str) : Prop := numeral s /\ length s <= 14.

(** The characters measurements are written with: digits, space, dash,
    slash and the letters of "cm" and "kg". *)
Definition measure_char (c : char) : bool :=
  isdigit c || existsb (N.eqb c) (SPACE :: DASH :: SLASH :: u "cmkg").

(** The length of the longest run of digits in [s], [run] digits having
    been read just before [s]. *)
Fixpoint longest_digit_run (run : nat) (s : str) : nat :=
  match s with
  | [] => run
  | c :: t =>
      if isdigit c then longest_digit_run (S run) t
      else Nat.max run (longest_digit_run 0 t)
  end.

(** A Measurements value that is missing, or a text of [measure_char]s in
    which no run of digits is longer than 14.  Whatever [to_numeric] is
    given from such a text is a whole number of at most 14 digits, with or
    without a sign, or no number at all: on these texts the numbers of this
    development are the floats of the notebook, and rounding them to one
    decimal is exact. *)
Definition plain_measurement (v : value) : bool :=
  match v with
  | Str s => forallb measure_char s && Nat.leb (longest_digit_run 0 s) 14
  | _ => isna v
  end.

(** Measurements with the unit written without a space. *)
Definition unspaced_measurements : Series :=
  mkSeries object [lit "178 cm / 75 kg"; lit "178cm"; lit "75kg"; lit "75 kg / 178 cm"].

Definition unspaced_frame : DataFrame :=
  frame11 sample_ids sample_text sample_text sample_text sample_text
    sample_text sample_text sample_text unspaced_measurements sample_text
    sample_text.

Definition unspaced_output : DataFrame :=
  Eval vm_compute in output_of (parse_measurements unspaced_frame).

(** An athlete whose weight is given as a range, and a table in which the
    athlete stands beside [athlete_paris]. *)
Definition athlete_range : bio :=
  mkBio 6 (lit "Marie Curie") (lit "Marie Curie") (lit "Female")
        (Str born_paris) NA (lit "France") (lit "180 cm / 64-67 kg")
        (lit "Competed in Olympic Games") NA.

Definition range_table : DataFrame := dataset_of [athlete_paris; athlete_range].

Definition range_output : DataFrame :=
  Eval vm_compute in output_of (pipeline range_table).


(** "<year> in <city>, <region> (<country>)": a birth text without day
    and month. *)
Definition year_only_text (y city region country : str) : str :=
  (y ++ u " in " ++ city ++ u ", " ++ region ++ u " (" ++ country ++ u ")")%list.

Definition athlete_year_only : bio :=
  mkBio 7 (lit "Pierre Martin") (lit "Pierre Martin") (lit "Male")
        (lit "1884 in Lyon, Rhone (FRA)") NA (lit "France") (lit "170 cm / 65 kg")
        (lit "Competed in Olympic Games") NA.

Definition year_only_table : DataFrame := dataset_of [athlete_year_only].

Definition year_only_output : DataFrame :=
  Eval vm_compute in output_of (pipeline year_only_table).





(** ** Tables for the behaviour on unusual input *)

(** [paris_table] without its first column, "Roles". *)
Definition table_without_roles : DataFrame := tl paris_table.

(** [paris_table] with a column "Used name" that holds no text. *)
Definition numeric_names_table : DataFrame :=
  setcol paris_table "Used name" (mkSeries float64 [NA]).

(** [paris_table] with a date of death. *)
Definition paris_died_table : DataFrame :=
  setcol paris_table "Died" (mkSeries object [lit "2 March 2001 in Lyon, Rhone (FRA)"]).

(** The two fragments of a split, as [str.split(expand=True)] returns
    them for one row. *)
Definition two_fragments : Expanded :=
  mkExpanded 1 [[lit "12 May 1980 "]; [lit " Paris"]].

Definition two_new_columns : list Series :=
  [mkSeries object [lit "12 May 1980 "]; mkSeries object [lit " Paris"]].

Definition born_only : Series := mkSeries object [lit "12 May 1980 in Paris"].

(* ================================================================== *)
(** * Lists under a mask *)

Lemma take_map A B (f : A -> B) (m : list bool) (l : list A) :
  take m (map f l) = map f (take m l).
Proof.
  revert l; induction m as [|b m IH]; intros [|x l]; simpl; auto.
  destruct b; simpl; now rewrite IH.
Qed.

Lemma take_combine A B (m : list bool) (l : list A) (r : list B) :
  take m (combine l r) = combine (take m l) (take m r).
Proof.
  revert l r; induction m as [|b m IH]; intros [|x l] [|y r]; simpl; auto.
  - destruct b; simpl; auto. now destruct (take m l).
  - destruct b; simpl; now rewrite IH.
Qed.

Lemma take_repeat A (x : A) (m : list bool) (n : nat) :
  length m = n -> take m (repeat x n) = repeat x (length (take m m)).
Proof.
  revert n; induction m as [|b m IH]; intros [|n] H; simpl in *; try discriminate; auto.
  injection H as H. destruct b; simpl; now rewrite IH.
Qed.

Lemma take_length A B (m : list bool) (l : list A) (r : list B) :
  length l = length r -> length (take m l) = length (take m r).
Proof.
  revert l r; induction m as [|b m IH]; intros [|x l] [|y r] H; simpl in *;
    try discriminate; auto.
  injection H as H. destruct b; simpl; auto.
Qed.

Lemma take_all A (l : list A) (m : list bool) :
  length m = length l -> Forall (fun b => b = true) m -> take m l = l.
Proof.
  revert l; induction m as [|b m IH]; intros [|x l] H F; simpl in *;
    try discriminate; auto.
  inversion F; subst. injection H as H. now rewrite IH.
Qed.

Lemma take_filter A (f : A -> bool) (l : list A) :
  take (map f l) l = filter f l.
Proof.
  induction l as [|x l IH]; simpl; auto. destruct (f x); now rewrite IH.
Qed.

(* ================================================================== *)
(** * Rows of a frame *)

Lemma rows_of_length (n : nat) (cols : list (list value)) :
  Forall (fun c => length c = n) cols -> length (rows_of n cols) = n.
Proof.
  induction 1 as [|c cs Hc _ IH]; simpl.
  - apply repeat_length.
  - rewrite length_map, length_combine, IH, Hc. apply Nat.min_id.
Qed.

Lemma rows_of_take (n : nat) (m : list bool) (cols : list (list value)) :
  length m = n ->
  rows_of (length (take m m)) (map (take m) cols) = take m (rows_of n cols).
Proof.
  intros Hm. induction cols as [|c cs IH]; simpl.
  - symmetry. now apply take_repeat.
  - now rewrite IH, take_map, take_combine.
Qed.

Lemma nrows_boolean_index (df : DataFrame) (m : list bool) :
  rectangular df -> length m = nrows df ->
  df <> [] -> nrows (boolean_index df m) = length (take m m).
Proof.
  intros R Hm Hne. destruct df as [|[n s] df]; [congruence|].
  simpl. apply take_length. inversion R; subst. simpl in *. congruence.
Qed.

Lemma rows_boolean_index (df : DataFrame) (m : list bool) :
  rectangular df -> length m = nrows df ->
  rows (boolean_index df m) = take m (rows df).
Proof.
  intros R Hm. destruct df as [|p df].
  - simpl in *. destruct m; [reflexivity | discriminate].
  - unfold rows. rewrite nrows_boolean_index by (auto; discriminate).
    unfold boolean_index. rewrite map_map. unfold mask_series.
    change (map (fun x : string * Series =>
                   values (snd (fst x, mkSeries (dtype_of (snd x)) (take m (values (snd x)))))) (p :: df))
      with (map (fun x : string * Series => take m (values (snd x))) (p :: df)).
    rewrite <- (map_map (fun p => values (snd p)) (take m)).
    now apply rows_of_take.
Qed.

Lemma rows_length (df : DataFrame) :
  rectangular df -> length (rows df) = nrows df.
Proof.
  intros R. unfold rows. apply rows_of_length.
  apply Forall_map. exact R.
Qed.

Lemma rectangular_boolean_index (df : DataFrame) (m : list bool) :
  rectangular df -> rectangular (boolean_index df m).
Proof.
  intros R. destruct df as [|[n s] df]; [constructor|].
  unfold rectangular in *. simpl nrows in *.
  unfold boolean_index. apply Forall_map. simpl.
  eapply Forall_impl; [|exact R]. simpl. intros p Hp.
  apply take_length. exact Hp.
Qed.

(* ================================================================== *)
(** * Duplicates *)

Lemma duplicated_from_length (seen l : list row) :
  length (duplicated_from seen l) = length l.
Proof.
  revert seen; induction l as [|r l IH]; intros seen; simpl; auto.
  destruct (in_dec row_eq_dec r seen); simpl; now rewrite IH.
Qed.

Lemma keep_from_cons (seen l : list row) (r : row) :
  keep_from seen (r :: l) =
  if in_dec row_eq_dec r seen then keep_from seen l
  else r :: keep_from (r :: seen) l.
Proof.
  unfold keep_from. simpl. now destruct (in_dec row_eq_dec r seen).
Qed.

Lemma in_dec_congr (r : row) (a b : list row) :
  (In r a <-> In r b) ->
  (if in_dec row_eq_dec r a then true else false) =
  (if in_dec row_eq_dec r b then true else false).
Proof.
  intros H. destruct (in_dec row_eq_dec r a), (in_dec row_eq_dec r b); tauto.
Qed.

Lemma duplicated_from_snoc (seen l : list row) (r : row) :
  duplicated_from seen (l ++ [r]) =
  duplicated_from seen l ++ [if in_dec row_eq_dec r (l ++ seen) then true else false].
Proof.
  revert seen; induction l as [|x l IH]; intros seen; simpl.
  - now destruct (in_dec row_eq_dec r seen).
  - destruct (in_dec row_eq_dec x seen) as [Hx|Hx]; simpl; rewrite IH; simpl.
    + rewrite (in_dec_congr r (l ++ seen) (x :: l ++ seen)); [reflexivity|].
      simpl. rewrite !in_app_iff. split; [tauto|]. intros [<-|H]; tauto.
    + rewrite (in_dec_congr r (l ++ x :: seen) (x :: l ++ seen)); [reflexivity|].
      simpl. rewrite !in_app_iff. simpl. tauto.
Qed.

Lemma take_app A (m1 m2 : list bool) (l1 l2 : list A) :
  length m1 = length l1 ->
  take (m1 ++ m2) (l1 ++ l2) = take m1 l1 ++ take m2 l2.
Proof.
  revert l1; induction m1 as [|b m IH]; intros [|x l] H; simpl in *;
    try discriminate; auto.
  injection H as H. destruct b; simpl; now rewrite IH.
Qed.

Lemma keep_from_snoc (seen l : list row) (r : row) :
  keep_from seen (l ++ [r]) =
  if in_dec row_eq_dec r (l ++ seen) then keep_from seen l
  else keep_from seen l ++ [r].
Proof.
  unfold keep_from. rewrite duplicated_from_snoc, map_app, take_app.
  - simpl. destruct (in_dec row_eq_dec r (l ++ seen)); simpl; auto.
    apply app_nil_r.
  - now rewrite length_map, duplicated_from_length.
Qed.

Lemma keep_from_In (seen l : list row) (x : row) :
  In x (keep_from seen l) <-> In x l /\ ~ In x seen.
Proof.
  revert seen; induction l as [|r l IH]; intros seen.
  - unfold keep_from. simpl. tauto.
  - rewrite keep_from_cons.
    destruct (in_dec row_eq_dec r seen) as [Hr|Hr]; simpl; rewrite IH; simpl.
    + split; [tauto|]. intros [[<-|H] N]; tauto.
    + destruct (row_eq_dec r x) as [<-|Nx]; tauto.
Qed.

Lemma keep_from_NoDup (seen l : list row) : NoDup (keep_from seen l).
Proof.
  revert seen; induction l as [|r l IH]; intros seen.
  - constructor.
  - rewrite keep_from_cons. destruct (in_dec row_eq_dec r seen); auto.
    constructor; auto. rewrite keep_from_In. simpl. tauto.
Qed.

Lemma duplicated_keep_from (seen l : list row) :
  duplicated_from seen (keep_from seen l) = map (fun _ => false) (keep_from seen l).
Proof.
  revert seen; induction l as [|r l IH]; intros seen.
  - reflexivity.
  - rewrite keep_from_cons.
    destruct (in_dec row_eq_dec r seen) as [Hr|Hr]; auto.
    simpl. destruct (in_dec row_eq_dec r seen); [tauto|]. now rewrite IH.
Qed.

Lemma boolean_index_all (df : DataFrame) (m : list bool) :
  rectangular df -> length m = nrows df -> Forall (fun b => b = true) m ->
  boolean_index df m = df.
Proof.
  intros R Hm Ht. unfold boolean_index, rectangular in *.
  rewrite <- (map_id df) at 2. apply map_ext_in. intros [n [t vs]] Hin.
  rewrite Forall_forall in R. specialize (R _ Hin). unfold mask_series. simpl in *.
  rewrite take_all; auto. congruence.
Qed.

Lemma columns_boolean_index (df : DataFrame) (m : list bool) :
  columns (boolean_index df m) = columns df.
Proof. unfold columns, boolean_index. rewrite map_map. reflexivity. Qed.

Lemma duplicated_length (df : DataFrame) :
  rectangular df -> length (map negb (duplicated df)) = nrows df.
Proof.
  intros R. unfold duplicated.
  now rewrite length_map, duplicated_from_length, rows_length.
Qed.

Lemma rows_drop_duplicates (df : DataFrame) :
  rectangular df -> rows (drop_duplicates df) = kept_rows (rows df).
Proof.
  intros R. unfold drop_duplicates.
  rewrite rows_boolean_index; auto using duplicated_length.
Qed.

(** C6. [drop_duplicates] on a table whose columns have equal length:
    the rows that remain are those of the table that are not equal to an
    earlier row, in their order; in terms of the sequence of rows, a row
    appended to a table is dropped exactly when an equal row is already in
    the table and is kept at the end otherwise; no row occurs twice in the
    result, every row of the table still occurs in it, the columns are
    unchanged, and a second [drop_duplicates] changes nothing. *)
Theorem drop_duplicates_keeps_first_and_is_idempotent (df : DataFrame) :
  rectangular df ->
  rows (drop_duplicates df) = kept_rows (rows df)
  /\ kept_rows [] = []
  /\ (forall (l : list row) (r : row),
        kept_rows (l ++ [r]) =
        if in_dec row_eq_dec r l then kept_rows l else kept_rows l ++ [r])
  /\ NoDup (rows (drop_duplicates df))
  /\ (forall r, In r (rows (drop_duplicates df)) <-> In r (rows df))
  /\ columns (drop_duplicates df) = columns df
  /\ drop_duplicates (drop_duplicates df) = drop_duplicates df.
Proof.
  intros R. rewrite rows_drop_duplicates by assumption.
  split; [reflexivity|]. split; [reflexivity|]. split.
  { intros l r. unfold kept_rows. rewrite keep_from_snoc, app_nil_r. reflexivity. }
  split. { apply keep_from_NoDup. }
  split. { intros r. unfold kept_rows. rewrite keep_from_In. simpl. tauto. }
  split. { apply columns_boolean_index. }
  assert (R' : rectangular (drop_duplicates df))
    by now apply rectangular_boolean_index.
  unfold drop_duplicates at 1. apply boolean_index_all; auto.
  - now apply duplicated_length.
  - unfold duplicated. rewrite rows_drop_duplicates by assumption.
    unfold kept_rows. rewrite duplicated_keep_from, map_map. simpl.
    apply Forall_forall. intros b Hb. apply in_map_iff in Hb.
    now destruct Hb as [? [<- _]].
Qed.

(* ================================================================== *)
(** * The frame after each section *)

Lemma getcol_boolean_index (df : DataFrame) (m : list bool) (c : string) :
  getcol (boolean_index df m) c = (s <- getcol df c ;; Ok (mask_series m s)).
Proof.
  induction df as [|[n s] df IH]; simpl; auto.
  destruct (String.eqb n c); auto.
Qed.

Lemma getcol_filter (df : DataFrame) (names : list string) (c : string) :
  mem c names = false ->
  getcol (filter (fun p => negb (mem (fst p) names)) df) c = getcol df c.
Proof.
  intros Hc. induction df as [|[n s] df IH]; simpl; auto.
  destruct (String.eqb n c) eqn:E.
  - apply String.eqb_eq in E. subst n. rewrite Hc. simpl.
    now rewrite String.eqb_refl.
  - destruct (mem n names); simpl; auto. now rewrite E.
Qed.

Lemma prune_frame (dataset df : DataFrame) :
  prune dataset = Ok df ->
  exists a fn un sx b d noc ms r af,
    getcol dataset "athlete_id" = Ok a /\ getcol dataset "Full name" = Ok fn
    /\ getcol dataset "Used name" = Ok un /\ getcol dataset "Sex" = Ok sx
    /\ getcol dataset "Born" = Ok b /\ getcol dataset "Died" = Ok d
    /\ getcol dataset "NOC" = Ok noc /\ getcol dataset "Measurements" = Ok ms
    /\ getcol dataset "Roles" = Ok r /\ getcol dataset "Affiliations" = Ok af
    /\ let m := map negb (duplicated dataset) in
       df = frame10 (mask_series m a) (mask_series m fn) (mask_series m un)
              (mask_series m sx) (mask_series m b) (mask_series m d)
              (mask_series m noc) (mask_series m ms) (mask_series m r)
              (mask_series m af).
Proof.
  unfold prune, drop, drop_duplicates. intros H.
  destruct (forallb _ dropped_columns); [|discriminate].
  cbn [bind] in H. unfold kept_columns in H. cbn [select] in H.
  rewrite !getcol_filter in H by reflexivity.
  rewrite !getcol_boolean_index in H.
  repeat match type of H with
         | context [bind (getcol ?d ?n) _] =>
             destruct (getcol d n) eqn:?; cbn [bind] in H; [|discriminate H]
         end.
  injection H as <-.
  do 10 eexists. repeat (split; [reflexivity|]). reflexivity.
Qed.

(** The string functions stay folded while a section is evaluated on a
    frame of unknown columns. *)
Arguments split : simpl never.
Arguments replace : simpl never.
Arguments strip : simpl never.
Arguments to_datetime_str : simpl never.
Arguments to_numeric_str : simpl never.
Arguments part : simpl never.
Arguments parts_of : simpl never.
Arguments u : simpl never.
Arguments value_eq_dec : simpl never.
Arguments split_width : simpl never.
Arguments replace_in : simpl never.
Arguments strip_in : simpl never.
Arguments replace_each : simpl never.
Arguments replace_whole : simpl never.
Arguments to_datetime_value : simpl never.
Arguments to_numeric_value : simpl never.
Arguments fill : simpl never.
Arguments round_value : simpl never.
Arguments month_codes : simpl never.

Lemma clean_name_frame (a fn un sx b d noc ms r af : Series) (df : DataFrame) :
  clean_name (frame10 a fn un sx b d noc ms r af) = Ok df ->
  dtype_of un = object
  /\ df = frame9 a (mkSeries object (map (replace_in [BULLET] [SPACE]) (values un)))
            sx b d noc ms r af.
Proof.
  unfold clean_name, frame10. cbn. unfold str_replace, str_accessor.
  destruct (dtype_of un); cbn; try discriminate.
  intros H. injection H as <-. auto.
Qed.

Ltac width_cases H sep vs :=
  let K := fresh "K" in
  destruct (split_width sep vs) as [|[|?k]] eqn:K; cbn in H; try discriminate H;
  assert (2 <= split_width sep vs) by (rewrite K; lia); clear K.

Lemma parse_born_frame (a nm sx b d noc ms r af : Series) (df : DataFrame) :
  parse_born (frame9 a nm sx b d noc ms r af) = Ok df ->
  dtype_of b = object
  /\ 2 <= split_width (u "in") (values b)
  /\ 2 <= split_width (u ",") (map born_location (values b))
  /\ 2 <= split_width (u "(") (map born_region_country (values b))
  /\ df = frame11 a nm sx
            (mkSeries datetime64 (map born_date (values b)))
            (mkSeries object (map born_city (values b)))
            (mkSeries object (map born_region (values b)))
            (mkSeries object (map born_country (values b)))
            noc ms r af.
Proof.
  unfold parse_born, frame9. intros H. cbn in H.
  unfold str_split_expand, str_accessor in H.
  destruct b as [bt B]. cbn in H. destruct bt; try discriminate. cbn in H.
  width_cases H (u "in") B.
  rewrite !map_map in H.
  change (map (fun x => replace_in (u " ") [] (replace_whole (Str (u " ")) (Str []) (strip_in (part 1 (parts_of (u "in") x))))) B)
    with (map born_location B) in H.
  width_cases H (u ",") (map born_location B).
  rewrite !map_map in H.
  change (map (fun x => part 1 (parts_of (u ",") (born_location x))) B)
    with (map born_region_country B) in H.
  width_cases H (u "(") (map born_region_country B).
  rewrite !map_map in H.
  injection H as <-. repeat (split; [assumption || reflexivity|]).
  unfold frame11, to_datetime. cbn [values]. rewrite map_map. reflexivity.
Qed.

Lemma drop_null_noc_frame (a nm sx bd ci re co noc ms r af : Series) (df : DataFrame) :
  drop_null_noc (frame11 a nm sx bd ci re co noc ms r af) = Ok df ->
  let m := map notna (values noc) in
  df = frame11 (mask_series m a) (mask_series m nm) (mask_series m sx)
         (mask_series m bd) (mask_series m ci) (mask_series m re)
         (mask_series m co) (mask_series m noc) (mask_series m ms)
         (mask_series m r) (mask_series m af).
Proof.
  unfold drop_null_noc, dropna_subset, frame11. cbn. intros H.
  injection H as <-. reflexivity.
Qed.

Lemma update_app A (hd t : list A) (x v : A) (i : nat) :
  length hd = i -> update (hd ++ x :: t) i v = hd ++ v :: t.
Proof.
  revert i; induction hd as [|y hd IH]; intros i H; simpl in *; subst; auto.
  now rewrite IH.
Qed.

Section Loop.
Variables a nm sx bd ci re co noc ms r af : Series.

Lemma measurements_row_frame (h w : list value) (i : nat) (row : row) (df : DataFrame) :
  measurements_row (frame13 a nm sx bd ci re co noc ms r af h w) i row = Ok df ->
  exists v0 v1 t,
    row = v0 :: v1 :: t
    /\ df = frame13 a nm sx bd ci re co noc ms r af (store h i (height_text v0 v1)) (store w i (weight_text v0 v1)).
Proof.
  unfold measurements_row. destruct row as [|v0 [|v1 t]]; cbn; try discriminate.
  intros H. exists v0, v1, t. split; [reflexivity|].
  destruct v1 as [| s1 | q1 | d1]; destruct v0 as [| s0 | q0 | d0]; cbn in H;
    try discriminate H;
    try (injection H as <-; reflexivity).
  all: unfold height_text, weight_text; cbn.
  all: try (destruct (contains (u "cm") s0); cbn in H;
            [|destruct (contains (u "kg") s0); cbn in H]).
  all: try (injection H as <-; reflexivity).
Qed.

Lemma for_rows_frame (rs : list row) :
  forall (hd wd : list value) (i : nat) (df : DataFrame),
    length hd = i -> length wd = i ->
    for_rows measurements_row
      (frame13 a nm sx bd ci re co noc ms r af (hd ++ repeat NA (length rs)) (wd ++ repeat NA (length rs))) i rs = Ok df ->
    Forall (fun row => 2 <= length row) rs
    /\ df = frame13 a nm sx bd ci re co noc ms r af (hd ++ map (fun row => height_text (nth 0 row NA) (nth 1 row NA)) rs)
              (wd ++ map (fun row => weight_text (nth 0 row NA) (nth 1 row NA)) rs).
Proof.
  induction rs as [|row rs IH]; intros hd wd i df Hh Hw H.
  - cbn in H. injection H as <-. split; [constructor|reflexivity].
  - cbn [for_rows] in H.
    destruct (measurements_row _ i row) as [df1|] eqn:E; [|discriminate].
    cbn [bind] in H.
    apply measurements_row_frame in E. destruct E as [v0 [v1 [t [-> ->]]]].
    assert (S1 : forall l v, length l = i ->
               store (l ++ repeat NA (length (( v0 :: v1 :: t) :: rs))) i v
               = (l ++ [v]) ++ repeat NA (length rs)).
    { intros l v Hl. rewrite <- app_assoc. cbn [length repeat app].
      destruct v; cbn [store]; auto using update_app. }
    rewrite !S1 in H by assumption.
    apply IH in H; try (rewrite length_app; cbn; lia).
    destruct H as [Fa ->]. split.
    + constructor; auto. cbn. lia.
    + cbn [map nth]. now rewrite <- !app_assoc.
Qed.
End Loop.

Arguments height_text : simpl never.
Arguments weight_text : simpl never.

Lemma combine_map_same A B C (f : A -> B) (g : A -> C) (l : list A) :
  combine (map f l) (map g l) = map (fun x => (f x, g x)) l.
Proof. induction l; simpl; congruence. Qed.

Lemma rows_of_first_two C (g : value -> value -> C) (n : nat)
    (c0 c1 : list value) (rest : list (list value)) :
  length c0 = n -> length c1 = n -> Forall (fun c => length c = n) rest ->
  map (fun row => g (nth 0 row NA) (nth 1 row NA)) (rows_of n (c0 :: c1 :: rest))
  = map (fun p => g (fst p) (snd p)) (combine c0 c1).
Proof.
  intros H0 H1 HR. apply rows_of_length in HR.
  cbn [rows_of]. revert HR. generalize (rows_of n rest) as R.
  subst n. revert c1 H1.
  induction c0 as [|x c0 IH]; intros [|y c1] H1 [|t R] HR; simpl in *;
    try discriminate; auto.
  f_equal. apply IH; congruence.
Qed.

Lemma parse_measurements_frame (a nm sx bd ci re co noc ms r af : Series) (df : DataFrame) :
  length (values a) = length (values ms) ->
  parse_measurements (frame11 a nm sx bd ci re co noc ms r af) = Ok df ->
  dtype_of ms = object
  /\ (values ms <> [] -> 2 <= split_width (u "/") (values ms))
  /\ df = frame12 a nm sx bd ci re co noc
            (mkSeries float64 (map measured_height (values ms)))
            (mkSeries float64 (map measured_weight (values ms)))
            r af.
Proof.
  unfold parse_measurements, frame11. intros L H. cbn in H.
  unfold str_split_expand, str_accessor in H.
  destruct ms as [mt M]. cbn in H, L. destruct mt; try discriminate. cbn in H.
  unfold iterrows, expanded_strip in H. cbn [elen ecols] in H.
  split; [reflexivity|].
  destruct (split_width (u "/") M) as [|[|k]] eqn:K.
  - destruct M as [|m M]; [|discriminate H].
    cbn in L. rewrite L in H. cbn in H. injection H as <-.
    split; [intros N; now contradiction N|reflexivity].
  - destruct M as [|m M]; [|discriminate H].
    cbn in L. rewrite L in H. cbn in H. injection H as <-.
    split; [intros N; now contradiction N|reflexivity].
  - split; [cbn; lia|].
    cbn [seq map] in H.
    match type of H with
    | context [for_rows _ _ 0 ?rs] =>
        assert (Hl : length rs = length M)
          by (apply rows_of_length; repeat constructor;
              rewrite ?length_map; auto;
              apply Forall_map, Forall_map, Forall_forall; intros;
              now rewrite !length_map);
        remember rs as RS eqn:ERS
    end.
    rewrite L, <- Hl in H.
    match type of H with
    | context [for_rows _ ?f 0 RS] =>
        change f with (frame13 a nm sx bd ci re co noc
                         (mkSeries object M) r af ([] ++ repeat NA (length RS))
                         ([] ++ repeat NA (length RS))) in H
    end.
    destruct (for_rows _ _ 0 RS) as [df1|] eqn:E; [|discriminate H].
    apply for_rows_frame in E; auto. destruct E as [_ ->].
    cbn in H. injection H as <-.
    unfold frame12, to_numeric. cbn [values]. rewrite !map_map.
    subst RS.
    rewrite (rows_of_first_two (fun v0 v1 => to_numeric_value (height_text v0 v1))),
            (rows_of_first_two (fun v0 v1 => to_numeric_value (weight_text v0 v1)));
      rewrite ?length_map; auto;
      try (apply Forall_map, Forall_map, Forall_forall; intros; now rewrite !length_map).
    rewrite !map_map, combine_map_same, !map_map. reflexivity.
Qed.


Lemma has_col_false (df : DataFrame) (c : string) :
  ~ In c (columns df) -> has_col df c = false.
Proof.
  induction df as [|[n s] df IH]; simpl; auto. intros H.
  destruct (String.eqb n c) eqn:E.
  - apply String.eqb_eq in E. tauto.
  - apply IH. tauto.
Qed.

Lemma getcol_app_notin (pre df : DataFrame) (c : string) :
  has_col pre c = false -> getcol (pre ++ df) c = getcol df c.
Proof.
  induction pre as [|[n s] pre IH]; simpl; auto.
  destruct (String.eqb n c); simpl; [discriminate|auto].
Qed.

Lemma setcol_app_notin (pre df : DataFrame) (c : string) (v : Series) :
  has_col pre c = false -> df <> [] -> setcol (pre ++ df) c v = pre ++ setcol df c v.
Proof.
  intros H N. induction pre as [|[n s] pre IH]; simpl in *; auto.
  destruct (String.eqb n c); simpl in *; [discriminate|]. now rewrite IH.
Qed.

Lemma impute_loop_app (df : DataFrame) :
  forall pre out,
    NoDup (columns (pre ++ df)) ->
    impute_loop (numeric_columns df) (pre ++ df) = Ok out ->
    exists df', out = pre ++ df'
      /\ Forall2 (fun p p' => fst p' = fst p /\ imputed (snd p) (snd p')) df df'.
Proof.
  induction df as [|[n s] df IH]; intros pre out ND H.
  - cbn in H. injection H as <-. exists []. split; [|constructor].
    reflexivity.
  - assert (Hn : has_col pre n = false).
    { apply has_col_false. unfold columns in ND. rewrite map_app in ND.
      apply NoDup_remove_2 in ND. rewrite in_app_iff in ND. tauto. }
    unfold numeric_columns in H. cbn [filter snd] in H.
    destruct (is_number (dtype_of s)) eqn:T.
    + cbn [map fst impute_loop] in H.
      rewrite getcol_app_notin in H by assumption.
      cbn [getcol] in H. rewrite String.eqb_refl in H. cbn [bind] in H.
      destruct (fit_transform s) as [s'|] eqn:Fs; [|discriminate].
      cbn [bind] in H.
      rewrite setcol_app_notin in H by (assumption || discriminate).
      cbn [setcol] in H. rewrite String.eqb_refl in H.
      change (pre ++ (n, s') :: df) with (pre ++ [(n, s')] ++ df) in H.
      rewrite app_assoc in H.
      apply IH in H.
      * destruct H as [df' [-> F2]]. exists ((n, s') :: df'). split.
        { now rewrite <- app_assoc. }
        constructor; auto. split; [reflexivity|]. unfold imputed. cbn. now rewrite T.
      * rewrite <- app_assoc. cbn.
        unfold columns in *. rewrite map_app in *. exact ND.
    + change (pre ++ (n, s) :: df) with (pre ++ [(n, s)] ++ df) in H.
      rewrite app_assoc in H.
      apply IH in H.
      * destruct H as [df' [-> F2]]. exists ((n, s) :: df'). split.
        { now rewrite <- app_assoc. }
        constructor; auto. split; [reflexivity|]. unfold imputed. cbn. now rewrite T.
      * rewrite <- app_assoc. exact ND.
Qed.

Lemma fill_missing_frame (a nm sx bd ci re co noc h w r af : Series) (out : DataFrame) :
  fill_missing (frame12 a nm sx bd ci re co noc h w r af) = Ok out ->
  exists a' nm' sx' bd' ci' re' co' noc' h' w' r' af',
    out = frame12 a' nm' sx' (fillna bd' (Date sentinel_date)) ci' re' co' noc'
            (round_series h') (round_series w') r' af'
    /\ imputed a a' /\ imputed nm nm' /\ imputed sx sx' /\ imputed bd bd'
    /\ imputed (fillna ci (Str (u "Unknown"))) ci'
    /\ imputed (fillna re (Str (u "Unknown"))) re'
    /\ imputed (fillna co (Str (u "Unknown"))) co'
    /\ imputed noc noc' /\ imputed h h' /\ imputed w w' /\ imputed r r'
    /\ imputed (fillna af (Str (u "Unknown"))) af'.
Proof.
  unfold fill_missing, frame12, fillna_columns. cbn [select getcol String.eqb Ascii.eqb Bool.eqb bind fold_left setcol fst snd].
  intros H.
  match type of H with
  | context [impute_loop (numeric_columns ?f) ?f] =>
      destruct (impute_loop (numeric_columns f) f) as [df2|] eqn:E; [|discriminate H];
      apply (impute_loop_app f []) in E
  end.
  - destruct E as [df' [-> F2]]. cbn [app] in H.
    repeat match goal with
           | F : Forall2 _ (_ :: _) _ |- _ =>
               inversion F as [|? [? ?] ? ? [? ?] ?]; subst; clear F
           | F : Forall2 _ [] _ |- _ => inversion F; subst; clear F
           end.
    cbn in *. subst. cbn in H. injection H as <-.
    do 12 eexists. split; [reflexivity|]. repeat split; assumption.
  - cbn. repeat constructor; cbn; intuition discriminate.
Qed.

Lemma getcol_In (df : DataFrame) (c : string) (s : Series) :
  getcol df c = Ok s -> In (c, s) df.
Proof.
  induction df as [|[n t] df IH]; simpl; [discriminate|].
  destruct (String.eqb n c) eqn:E; auto.
  apply String.eqb_eq in E. intros H. injection H as ->. subst. auto.
Qed.

Lemma getcol_length (df : DataFrame) (c : string) (s : Series) :
  rectangular df -> getcol df c = Ok s -> length (values s) = nrows df.
Proof.
  intros R H. apply getcol_In in H. unfold rectangular in R.
  rewrite Forall_forall in R. exact (R _ H).
Qed.

Lemma pipeline_stages (dataset out : DataFrame) :
  rectangular dataset ->
  pipeline dataset = Ok out ->
  exists a un sx b noc ms r af,
    getcol dataset "athlete_id" = Ok a /\ getcol dataset "Used name" = Ok un
    /\ getcol dataset "Sex" = Ok sx /\ getcol dataset "Born" = Ok b
    /\ getcol dataset "NOC" = Ok noc /\ getcol dataset "Measurements" = Ok ms
    /\ getcol dataset "Roles" = Ok r /\ getcol dataset "Affiliations" = Ok af
    /\ dtype_of un = object /\ dtype_of b = object /\ dtype_of ms = object
    /\ fill_missing
         (frame12 (survivor dataset a)
            (mkSeries object
               (map (replace_in [BULLET] [SPACE]) (surviving dataset (values un))))
            (survivor dataset sx)
            (mkSeries datetime64 (map born_date (surviving dataset (values b))))
            (mkSeries object (map born_city (surviving dataset (values b))))
            (mkSeries object (map born_region (surviving dataset (values b))))
            (mkSeries object (map born_country (surviving dataset (values b))))
            (survivor dataset noc)
            (mkSeries float64 (map measured_height (surviving dataset (values ms))))
            (mkSeries float64 (map measured_weight (surviving dataset (values ms))))
            (survivor dataset r) (survivor dataset af)) = Ok out.
Proof.
  intros R H. unfold pipeline in H.
  destruct (prune dataset) as [df1|] eqn:E1; [|discriminate]. cbn [bind] in H.
  apply prune_frame in E1.
  destruct E1 as (a & fn & un & sx & b & d & noc & ms & r & af
                  & Ha & Hfn & Hun & Hsx & Hb & Hd & Hnoc & Hms & Hr & Haf & ->).
  destruct (clean_name _) as [df2|] eqn:E2; [|discriminate]. cbn [bind] in H.
  apply clean_name_frame in E2. destruct E2 as [Tun ->].
  destruct (parse_born _) as [df3|] eqn:E3; [|discriminate]. cbn [bind] in H.
  apply parse_born_frame in E3. destruct E3 as (Tb & _ & _ & _ & ->).
  destruct (drop_null_noc _) as [df4|] eqn:E4; [|discriminate]. cbn [bind] in H.
  apply drop_null_noc_frame in E4. cbv zeta in E4. subst df4.
  destruct (parse_measurements _) as [df5|] eqn:E5; [|discriminate]. cbn [bind] in H.
  apply parse_measurements_frame in E5.
  - destruct E5 as (Tms & _ & ->).
    exists a, un, sx, b, noc, ms, r, af.
    repeat (split; [assumption|]).
    unfold survivor, surviving, with_noc. rewrite Hnoc.
    unfold mask_series in *. cbn [values dtype_of] in *.
    rewrite !take_map in H. exact H.
  - unfold mask_series. cbn [values].
    apply take_length, take_length.
    rewrite (@getcol_length _ _ _ R Ha), (@getcol_length _ _ _ R Hms). reflexivity.
Qed.

Lemma imputed_values (s s' : Series) :
  imputed s s' ->
  Forall (fun v => notna v = true) (values s) -> values s' = values s.
Proof.
  unfold imputed, fit_transform. intros H F.
  destruct (is_number (dtype_of s)); [|now subst].
  destruct (most_frequent _); [|discriminate]. injection H as <-. cbn.
  rewrite <- (map_id (values s)) at 2. apply map_ext_in. intros v Hv.
  rewrite Forall_forall in F. specialize (F _ Hv).
  unfold fill. destruct v; cbn in *; auto; discriminate.
Qed.

Lemma imputed_length (s s' : Series) :
  imputed s s' -> length (values s') = length (values s).
Proof.
  unfold imputed, fit_transform. intros H.
  destruct (is_number (dtype_of s)); [|now subst].
  destruct (most_frequent _); [|discriminate]. injection H as <-. cbn.
  apply length_map.
Qed.

Lemma take_notna (l : list value) :
  Forall (fun v => notna v = true) (take (map notna l) l).
Proof.
  rewrite take_filter. apply Forall_forall. intros v Hv.
  apply filter_In in Hv. tauto.
Qed.

Lemma fill_notna (d : value) (l : list value) :
  notna d = true -> Forall (fun v => notna v = true) (map (fill d) l).
Proof.
  intros Hd. apply Forall_map, Forall_forall. intros v _.
  unfold fill. destruct v; auto.
Qed.

Lemma fillna_text (vs : list value) (d : str) :
  fillna (mkSeries object vs) (Str d) = mkSeries object (map (fill (Str d)) vs).
Proof. unfold fillna. cbn. now destruct (existsb isna vs). Qed.

Lemma pipeline_output (dataset out : DataFrame) :
  rectangular dataset ->
  pipeline dataset = Ok out ->
  exists a un sx b noc ms r af a' sx' noc' r' af' mh mw,
    getcol dataset "athlete_id" = Ok a /\ getcol dataset "Used name" = Ok un
    /\ getcol dataset "Sex" = Ok sx /\ getcol dataset "Born" = Ok b
    /\ getcol dataset "NOC" = Ok noc /\ getcol dataset "Measurements" = Ok ms
    /\ getcol dataset "Roles" = Ok r /\ getcol dataset "Affiliations" = Ok af
    /\ dtype_of un = object /\ dtype_of b = object /\ dtype_of ms = object
    /\ out = frame12 a'
         (mkSeries object
            (map (replace_in [BULLET] [SPACE]) (surviving dataset (values un))))
         sx'
         (mkSeries datetime64
            (map (fun v => fill (Date sentinel_date) (born_date v))
               (surviving dataset (values b))))
         (mkSeries object
            (map (fun v => fill unknown (born_city v)) (surviving dataset (values b))))
         (mkSeries object
            (map (fun v => fill unknown (born_region v)) (surviving dataset (values b))))
         (mkSeries object
            (map (fun v => fill unknown (born_country v)) (surviving dataset (values b))))
         noc'
         (mkSeries float64
            (map (fun v => round_value (fill (Num mh) (measured_height v)))
               (surviving dataset (values ms))))
         (mkSeries float64
            (map (fun v => round_value (fill (Num mw) (measured_weight v)))
               (surviving dataset (values ms))))
         r' af'
    /\ most_frequent (observed (map measured_height (surviving dataset (values ms))))
       = Some mh
    /\ most_frequent (observed (map measured_weight (surviving dataset (values ms))))
       = Some mw
    /\ imputed (survivor dataset a) a' /\ imputed (survivor dataset sx) sx'
    /\ imputed (survivor dataset r) r'
    /\ values noc' = surviving dataset (values noc)
    /\ Forall (fun v => notna v = true) (surviving dataset (values noc))
    /\ values af' = map (fill unknown) (surviving dataset (values af)).
Proof.
  intros R H. destruct (pipeline_stages R H)
    as (a & un & sx & b & noc & ms & r & af
        & Ha & Hun & Hsx & Hb & Hnoc & Hms & Hr & Haf & Tun & Tb & Tms & F).
  apply fill_missing_frame in F.
  destruct F as (a' & nm' & sx' & bd' & ci' & re' & co' & noc' & h' & w' & r' & af'
                 & -> & Ia & Inm & Isx & Ibd & Ici & Ire & Ico & Inoc & Ih & Iw & Ir & Iaf).
  assert (Nnoc : Forall (fun v => notna v = true) (surviving dataset (values noc))).
  { unfold surviving, with_noc. rewrite Hnoc. apply take_notna. }
  pose proof (imputed_values _ _ Inoc Nnoc) as Vnoc.
  assert (Vaf : values af' = map (fill unknown) (surviving dataset (values af))).
  { apply (imputed_values _ _ Iaf). cbn. now apply fill_notna. }
  rewrite fillna_text in Ici, Ire, Ico.
  unfold imputed in Inm, Ibd, Ici, Ire, Ico, Ih, Iw.
  cbn [dtype_of is_number] in Inm, Ibd, Ici, Ire, Ico, Ih, Iw.
  unfold fit_transform in Ih, Iw. cbn [values dtype_of] in Ih, Iw.
  destruct (most_frequent (observed (map measured_height _))) as [mh|] eqn:Mh;
    [|discriminate].
  destruct (most_frequent (observed (map measured_weight _))) as [mw|] eqn:Mw;
    [|discriminate].
  injection Ih as <-. injection Iw as <-. subst.
  exists a, un, sx, b, noc, ms, r, af, a', sx', noc', r', af', mh, mw.
  repeat (split; [assumption|]).
  split; [|repeat (split; [assumption || reflexivity|]); assumption].
  unfold round_series, fillna. cbn [values dtype_of]. rewrite !map_map. reflexivity.
Qed.

Lemma fill_default_notna (d : value) (f : value -> value) (l : list value) :
  notna d = true -> Forall (fun v => notna v = true) (map (fun v => fill d (f v)) l).
Proof.
  intros Hd. apply Forall_map, Forall_forall. intros v _.
  unfold fill. destruct (f v); auto.
Qed.

(** C8.  For every table on which the notebook produces an output: the
    columns of the output are exactly [final_columns], in that order; the
    columns City, Region, Country and Affiliations of the output hold, row
    by row over the surviving rows, the parsed value (for Affiliations the
    loaded value), with "Unknown" in the place of every missing one;
    birth_date holds the parsed date with 1975-01-01 in the place of
    every missing one; and none of the five columns holds a missing
    value. *)
Theorem defaults_and_final_columns (dataset out : DataFrame) :
  rectangular dataset ->
  pipeline dataset = Ok out ->
  columns out = final_columns
  /\ exists b af bd ci re co afo,
       getcol dataset "Born" = Ok b /\ getcol dataset "Affiliations" = Ok af
       /\ getcol out "birth_date" = Ok bd /\ getcol out "City" = Ok ci
       /\ getcol out "Region" = Ok re /\ getcol out "Country" = Ok co
       /\ getcol out "Affiliations" = Ok afo
       /\ values bd = map (fun v => fill (Date sentinel_date) (born_date v))
                        (surviving dataset (values b))
       /\ values ci = map (fun v => fill (Str (u "Unknown")) (born_city v))
                        (surviving dataset (values b))
       /\ values re = map (fun v => fill (Str (u "Unknown")) (born_region v))
                        (surviving dataset (values b))
       /\ values co = map (fun v => fill (Str (u "Unknown")) (born_country v))
                        (surviving dataset (values b))
       /\ values afo = map (fill (Str (u "Unknown"))) (surviving dataset (values af))
       /\ (forall x, fill (Str (u "Unknown")) x = if isna x then Str (u "Unknown") else x)
       /\ (forall x, fill (Date sentinel_date) x
                     = if isna x then Date (mkDate 1975 1 1) else x)
       /\ Forall (fun v => notna v = true)
            (values bd ++ values ci ++ values re ++ values co ++ values afo).
Proof.
  intros R H. destruct (pipeline_output R H)
    as (a & un & sx & b & noc & ms & r & af & a' & sx' & noc' & r' & af' & mh & mw
        & Ha & Hun & Hsx & Hb & Hnoc & Hms & Hr & Haf & Tun & Tb & Tms
        & -> & Mh & Mw & Ia & Isx & Ir & Vnoc & Nnoc & Vaf).
  split; [reflexivity|].
  eexists b, af, _, _, _, _, af'. cbn [frame12 getcol String.eqb Ascii.eqb Bool.eqb].
  repeat (split; [reflexivity || assumption|]). cbn [values].
  rewrite Vaf. rewrite !Forall_app.
  repeat split; solve [apply fill_default_notna; reflexivity | apply fill_notna; reflexivity].
Qed.

Lemma surviving_length (dataset : DataFrame) (s t : list value) :
  length s = length t ->
  length (surviving dataset s) = length (surviving dataset t).
Proof. intros H. unfold surviving. now apply take_length, take_length. Qed.

Lemma nrows_drop_duplicates (dataset : DataFrame) (c : string) (s : Series) :
  rectangular dataset -> getcol dataset c = Ok s ->
  nrows (drop_duplicates dataset)
  = length (take (first_occurrences dataset) (values s)).
Proof.
  intros R H. unfold drop_duplicates. symmetry.
  apply (@getcol_length _ c (mask_series (first_occurrences dataset) s)).
  - now apply rectangular_boolean_index.
  - rewrite getcol_boolean_index, H. reflexivity.
Qed.

Lemma filter_notna_isna (l : list value) :
  length (filter notna l) + length (filter isna l) = length l.
Proof.
  induction l as [|v l IH]; simpl; auto.
  destruct v; simpl; lia.
Qed.

(** C7.  For every table on which the notebook produces an output: the
    NOC column of the output is the NOC column left by [drop_duplicates]
    without its missing values, in the same order, so no row of the output
    has a missing NOC; all columns of the output have the same number of
    rows; and that number plus the number of rows with a missing NOC left
    by [drop_duplicates] is the number of rows left by [drop_duplicates]. *)
Theorem null_noc_rows_are_dropped (dataset out : DataFrame) :
  rectangular dataset ->
  pipeline dataset = Ok out ->
  exists noc noc',
    getcol dataset "NOC" = Ok noc /\ getcol out "NOC" = Ok noc'
    /\ let deduplicated := take (first_occurrences dataset) (values noc) in
       values noc' = filter notna deduplicated
       /\ Forall (fun v => v <> NA) (values noc')
       /\ rectangular out
       /\ length deduplicated = nrows (drop_duplicates dataset)
       /\ nrows out + length (filter isna deduplicated)
          = nrows (drop_duplicates dataset).
Proof.
  intros R H. destruct (pipeline_output R H)
    as (a & un & sx & b & noc & ms & r & af & a' & sx' & noc' & r' & af' & mh & mw
        & Ha & Hun & Hsx & Hb & Hnoc & Hms & Hr & Haf & Tun & Tb & Tms
        & -> & Mh & Mw & Ia & Isx & Ir & Vnoc & Nnoc & Vaf).
  exists noc, noc'. split; [assumption|]. split; [reflexivity|].
  assert (L : forall c s, getcol dataset c = Ok s ->
                length (surviving dataset (values s))
                = length (surviving dataset (values noc))).
  { intros c s Hs. apply surviving_length.
    now rewrite (@getcol_length _ _ _ R Hs), (@getcol_length _ _ _ R Hnoc). }
  assert (V : surviving dataset (values noc)
              = filter notna (take (first_occurrences dataset) (values noc))).
  { unfold surviving, with_noc. rewrite Hnoc. apply take_filter. }
  cbv zeta. rewrite Vnoc.
  split; [exact V|]. split.
  { eapply Forall_impl; [|exact Nnoc]. intros v Hv ->. discriminate. }
  assert (N : nrows (frame12 a'
                 (mkSeries object (map (replace_in [BULLET] [SPACE]) (surviving dataset (values un))))
                 sx' (mkSeries datetime64 (map (fun v => fill (Date sentinel_date) (born_date v)) (surviving dataset (values b))))
                 (mkSeries object (map (fun v => fill unknown (born_city v)) (surviving dataset (values b))))
                 (mkSeries object (map (fun v => fill unknown (born_region v)) (surviving dataset (values b))))
                 (mkSeries object (map (fun v => fill unknown (born_country v)) (surviving dataset (values b))))
                 noc'
                 (mkSeries float64 (map (fun v => round_value (fill (Num mh) (measured_height v))) (surviving dataset (values ms))))
                 (mkSeries float64 (map (fun v => round_value (fill (Num mw) (measured_weight v))) (surviving dataset (values ms))))
                 r' af')
              = length (surviving dataset (values noc))).
  { cbn [nrows frame12]. rewrite (imputed_length _ _ Ia). cbn. eauto. }
  split.
  { unfold rectangular. rewrite N. unfold frame12.
    repeat constructor; cbn [snd values]; rewrite ?length_map;
      rewrite ?Vnoc, ?Vaf, ?length_map,
        ?(imputed_length _ _ Ia), ?(imputed_length _ _ Isx), ?(imputed_length _ _ Ir);
      cbn [survivor mask_series values]; eauto. }
  split.
  { symmetry. exact (@nrows_drop_duplicates _ _ _ R Hnoc). }
  rewrite N, V, (@nrows_drop_duplicates _ _ _ R Hnoc). apply filter_notna_isna.
Qed.

(* ================================================================== *)
(** * Characters of the results of the string methods *)

Lemma replace_from_single (c : char) (new s : str) :
  replace_from [c] new 0 s
  = flat_map (fun x => if (x =? c)%N then new else [x]) s.
Proof.
  induction s as [|x s IH]; simpl; auto.
  rewrite N.eqb_sym. destruct (x =? c)%N; simpl; now rewrite IH.
Qed.

Lemma replace_char_removed (c : char) (s : str) :
  replace [c] [] s = filter (fun x => negb (x =? c)%N) s.
Proof.
  unfold replace. rewrite replace_from_single.
  induction s as [|x s IH]; simpl; auto.
  destruct (x =? c)%N; simpl; now rewrite IH.
Qed.

Lemma replace_char_char (c d : char) (s : str) :
  replace [c] [d] s = map (fun x => if (x =? c)%N then d else x) s.
Proof.
  unfold replace. rewrite replace_from_single.
  induction s as [|x s IH]; simpl; auto.
  destruct (x =? c)%N; simpl; now rewrite IH.
Qed.

Lemma replace_from_chars (old : str) (x : char) (s : str) :
  forall k, In x (replace_from old [] k s) -> In x s.
Proof.
  induction s as [|c s IH]; intros k; simpl; auto.
  destruct k as [|k].
  - destruct (startswith old (c :: s)); simpl; intros H.
    + right. eapply IH. exact H.
    + destruct H as [H|H]; [auto|]. right. eapply IH. exact H.
  - intros H. right. eapply IH. exact H.
Qed.

Lemma split_from_chars (sep : str) (x : char) (s : str) :
  forall k f, In f (split_from sep k s) -> In x f -> In x s.
Proof.
  induction s as [|c s IH]; intros k f; simpl.
  - intros [<-|[]] [].
  - destruct k as [|k].
    + destruct (startswith sep (c :: s)).
      * simpl. intros [<-|H] Hx; [destruct Hx|]. right. eapply IH; eauto.
      * destruct (split_from sep 0 s) as [|g gs] eqn:E.
        { simpl. intros [<-|[]] [<-|[]]. auto. }
        simpl. intros [<-|H] Hx.
        { destruct Hx as [<-|Hx]; auto. right.
          apply (IH 0 g); auto. rewrite E. now left. }
        right. apply (IH 0 f); auto. rewrite E. now right.
    + intros H Hx. right. eapply IH; eauto.
Qed.

Lemma split_from_nonempty (sep s : str) : forall k, split_from sep k s <> [].
Proof.
  induction s as [|c s IH]; intros k; simpl; [discriminate|].
  destruct k; auto.
  destruct (startswith sep (c :: s)); [discriminate|].
  destruct (split_from sep 0 s); discriminate.
Qed.

Lemma split_char_absent (c : char) (s : str) :
  ~ In c s -> split [c] s = [s].
Proof.
  unfold split. induction s as [|x s IH]; simpl; auto.
  intros H. destruct (N.eqb_spec c x) as [->|N]; [tauto|].
  simpl. rewrite IH by tauto. reflexivity.
Qed.

Lemma spaceless_part (sep : str) (j : nat) (v : value) :
  spaceless v -> spaceless (part j (parts_of sep v)).
Proof.
  destruct v as [|s|q|d]; cbn; auto. intros H.
  unfold part, parts_of. destruct (nth_error (split sep s) j) as [f|] eqn:E; cbn; auto.
  apply nth_error_In in E. intros Hx. apply H.
  eapply split_from_chars; eauto.
Qed.

Lemma spaceless_replace_in (old : str) (v : value) :
  spaceless v -> spaceless (replace_in old [] v).
Proof.
  unfold replace_in.
  destruct v as [|s|q|d]; cbn [str_map spaceless]; auto. intros H Hx. apply H.
  eapply replace_from_chars. exact Hx.
Qed.

Lemma spaceless_location (born : value) : spaceless (born_location born).
Proof.
  unfold born_location, replace_in.
  destruct (replace_whole _ _ _) as [|s|q|d]; cbn [str_map spaceless]; auto.
  change (u " ") with [SPACE].
  rewrite replace_char_removed. intros H. apply filter_In in H.
  destruct H as [_ H]. unfold SPACE in H. now rewrite N.eqb_refl in H.
Qed.

Lemma spaceless_fill (v : value) :
  spaceless v -> spaceless (fill (Str (u "Unknown")) v).
Proof.
  destruct v; cbn; auto. intros _.
  vm_compute. intuition discriminate.
Qed.

(** C9.  For every table on which the notebook produces an output: the
    birth location from which City, Region and Country are cut is the
    second fragment of Born with every space character filtered out, not
    only the surrounding ones; hence no string in the columns City, Region
    and Country of the output holds a space.  For the birth text
    "4 July 1976 in New York, New York (USA)" the city and the region
    are "NewYork". *)
Theorem location_loses_every_space (dataset out : DataFrame) :
  rectangular dataset ->
  pipeline dataset = Ok out ->
  exists b ci re co,
    getcol dataset "Born" = Ok b /\ getcol out "City" = Ok ci
    /\ getcol out "Region" = Ok re /\ getcol out "Country" = Ok co
    /\ values ci = map (fun v => fill (Str (u "Unknown")) (born_city v))
                     (surviving dataset (values b))
    /\ values re = map (fun v => fill (Str (u "Unknown")) (born_region v))
                     (surviving dataset (values b))
    /\ values co = map (fun v => fill (Str (u "Unknown")) (born_country v))
                     (surviving dataset (values b))
    /\ (forall born,
          born_location born
          = str_map (fun s => Str (filter (fun c => negb (c =? SPACE)%N) s))
              (replace_whole (Str (u " ")) (Str [])
                 (strip_in (part 1 (parts_of (u "in") born)))))
    /\ (forall s, In (Str s) (values ci ++ values re ++ values co) -> ~ In SPACE s)
    /\ born_city born_new_york = Str (u "NewYork")
    /\ born_region born_new_york = Str (u "NewYork")
    /\ born_country born_new_york = Str (u "USA").
Proof.
  intros R H. destruct (pipeline_output R H)
    as (a & un & sx & b & noc & ms & r & af & a' & sx' & noc' & r' & af' & mh & mw
        & Ha & Hun & Hsx & Hb & Hnoc & Hms & Hr & Haf & Tun & Tb & Tms
        & -> & Mh & Mw & Ia & Isx & Ir & Vnoc & Nnoc & Vaf).
  eexists b, _, _, _. cbn [frame12 getcol String.eqb Ascii.eqb Bool.eqb].
  repeat (split; [reflexivity || assumption|]). cbn [values].
  split.
  { intros born. unfold born_location, replace_in.
    destruct (replace_whole _ _ _); cbn [str_map]; auto.
    change (u " ") with [SPACE]. now rewrite replace_char_removed. }
  split; [|vm_compute; auto].
  intros s Hs.
  assert (G : forall f : value -> value,
             (forall v, spaceless (f v)) ->
             In (Str s) (map (fun v => fill (Str (u "Unknown")) (f v))
                           (surviving dataset (values b))) -> ~ In SPACE s).
  { intros f Hf Hin. apply in_map_iff in Hin. destruct Hin as [v [E _]].
    pose proof (spaceless_fill _ (Hf v)) as P. rewrite E in P. exact P. }
  rewrite !in_app_iff in Hs. destruct Hs as [Hs|[Hs|Hs]]; revert Hs; apply G; intros v.
  - apply spaceless_part, spaceless_location.
  - apply spaceless_part, spaceless_part, spaceless_location.
  - apply spaceless_replace_in, spaceless_part, spaceless_part, spaceless_location.
Qed.

(** C3.  For every table on which the notebook produces an output, every
    surviving row whose Born text is
    "12 January 1980 in Paris, France (Ile-de-France)" (with the capital
    I circumflex) has, in the output, birth_date 1980-01-12, City "Paris",
    Region "France" and Country "Ile-de-France" without the closing
    parenthesis; the date text handed to [to_datetime] is "12-01-1980". *)
Theorem well_formed_born_is_parsed (dataset out : DataFrame) :
  rectangular dataset ->
  pipeline dataset = Ok out ->
  born_date_text (Str born_paris) = Str (u "12-01-1980")
  /\ exists b bd ci re co,
       getcol dataset "Born" = Ok b /\ getcol out "birth_date" = Ok bd
       /\ getcol out "City" = Ok ci /\ getcol out "Region" = Ok re
       /\ getcol out "Country" = Ok co
       /\ forall i,
            nth_error (surviving dataset (values b)) i = Some (Str born_paris) ->
            nth_error (values bd) i = Some (Date (mkDate 1980 1 12))
            /\ nth_error (values ci) i = Some (Str (u "Paris"))
            /\ nth_error (values re) i = Some (Str (u "France"))
            /\ nth_error (values co) i = Some (Str ile_de_france).
Proof.
  intros R H. split; [vm_compute; reflexivity|].
  destruct (pipeline_output R H)
    as (a & un & sx & b & noc & ms & r & af & a' & sx' & noc' & r' & af' & mh & mw
        & Ha & Hun & Hsx & Hb & Hnoc & Hms & Hr & Haf & Tun & Tb & Tms
        & -> & Mh & Mw & Ia & Isx & Ir & Vnoc & Nnoc & Vaf).
  eexists b, _, _, _, _. cbn [frame12 getcol String.eqb Ascii.eqb Bool.eqb].
  repeat (split; [reflexivity || assumption|]). cbn [values].
  intros i Hi.
  repeat split;
    match goal with
    | |- nth_error (map ?f _) _ = _ => rewrite (map_nth_error f _ _ Hi)
    end; f_equal; vm_compute; reflexivity.
Qed.

Lemma has_col_getcol (df : DataFrame) (c : string) :
  has_col df c = match getcol df c with Ok _ => true | Raise _ => false end.
Proof.
  induction df as [|[n s] df IH]; simpl; auto.
  destruct (String.eqb n c); simpl; auto.
Qed.

Lemma has_col_boolean_index (df : DataFrame) (m : list bool) (c : string) :
  has_col (boolean_index df m) c = has_col df c.
Proof.
  rewrite !has_col_getcol, getcol_boolean_index.
  now destruct (getcol df c).
Qed.

Lemma forallb_same A (f g : A -> bool) (l : list A) :
  (forall x, In x l -> f x = g x) -> forallb f l = forallb g l.
Proof.
  induction l as [|x l IH]; simpl; auto. intros H.
  rewrite (H x), IH; auto.
Qed.

Lemma prune_has_dropped (dataset df : DataFrame) :
  prune dataset = Ok df ->
  forallb (has_col dataset) dropped_columns = true.
Proof.
  unfold prune, drop, drop_duplicates. intros H.
  destruct (forallb _ dropped_columns) eqn:E; [|discriminate].
  rewrite <- E. apply forallb_same. intros c _. symmetry. apply has_col_boolean_index.
Qed.

Lemma prune_forward (dataset : DataFrame) (a fn un sx b d noc ms r af : Series) :
  forallb (has_col dataset) dropped_columns = true ->
  getcol dataset "athlete_id" = Ok a -> getcol dataset "Full name" = Ok fn ->
  getcol dataset "Used name" = Ok un -> getcol dataset "Sex" = Ok sx ->
  getcol dataset "Born" = Ok b -> getcol dataset "Died" = Ok d ->
  getcol dataset "NOC" = Ok noc -> getcol dataset "Measurements" = Ok ms ->
  getcol dataset "Roles" = Ok r -> getcol dataset "Affiliations" = Ok af ->
  let m := first_occurrences dataset in
  prune dataset
  = Ok (frame10 (mask_series m a) (mask_series m fn) (mask_series m un)
          (mask_series m sx) (mask_series m b) (mask_series m d)
          (mask_series m noc) (mask_series m ms) (mask_series m r)
          (mask_series m af)).
Proof.
  intros Hd Ha Hfn Hun Hsx Hb Hdi Hnoc Hms Hr Haf m.
  unfold prune, drop, drop_duplicates.
  rewrite (forallb_same _ (has_col dataset) dropped_columns
             (fun c _ => has_col_boolean_index dataset _ c)), Hd.
  cbn [bind]. unfold kept_columns. cbn [select].
  rewrite !getcol_filter by reflexivity.
  rewrite !getcol_boolean_index, Ha, Hfn, Hun, Hsx, Hb, Hdi, Hnoc, Hms, Hr, Haf.
  reflexivity.
Qed.

Lemma clean_name_ignores_full_name (a fn fn' un sx b d noc ms r af : Series) :
  clean_name (frame10 a fn un sx b d noc ms r af)
  = clean_name (frame10 a fn' un sx b d noc ms r af).
Proof.
  unfold clean_name, frame10. cbn. unfold str_replace, str_accessor.
  destruct (dtype_of un); reflexivity.
Qed.

(** C10, as amended.  For every table on which the notebook produces an
    output: the column [name] of the output is the column "Used name" of
    the surviving rows with every bullet character replaced by one space;
    the output has no column "Full name"; and the output is the same for
    every table that differs in the values of "Full name" only, as long as
    [drop_duplicates] keeps the same rows. *)
Theorem name_comes_from_used_name (dataset out : DataFrame) :
  rectangular dataset ->
  pipeline dataset = Ok out ->
  (exists un nm,
      getcol dataset "Used name" = Ok un /\ getcol out "name" = Ok nm
      /\ values nm = map (replace_in [BULLET] [SPACE]) (surviving dataset (values un)))
  /\ (forall s, replace_in [BULLET] [SPACE] (Str s)
                = Str (map (fun c => if (c =? BULLET)%N then SPACE else c) s))
  /\ has_col out "Full name" = false
  /\ (forall dataset',
        (forall c, c <> "Full name"%string -> getcol dataset' c = getcol dataset c) ->
        (exists fn', getcol dataset' "Full name" = Ok fn') ->
        first_occurrences dataset' = first_occurrences dataset ->
        pipeline dataset' = Ok out).
Proof.
  intros R H. split; [|split; [|split]].
  - destruct (pipeline_output R H)
      as (a & un & sx & b & noc & ms & r & af & a' & sx' & noc' & r' & af' & mh & mw
          & Ha & Hun & Hsx & Hb & Hnoc & Hms & Hr & Haf & Tun & Tb & Tms
          & -> & _).
    eexists un, _. split; [assumption|]. split; reflexivity.
  - intros s. unfold replace_in. cbn [str_map]. now rewrite replace_char_char.
  - destruct (pipeline_output R H)
      as (a & un & sx & b & noc & ms & r & af & a' & sx' & noc' & r' & af' & mh & mw
          & Ha & Hun & Hsx & Hb & Hnoc & Hms & Hr & Haf & Tun & Tb & Tms
          & -> & _).
    reflexivity.
  - intros dataset' Same [fn' Hfn'] Mask.
    unfold pipeline in *.
    destruct (prune dataset) as [df1|] eqn:E1; [|discriminate]. cbn [bind] in H.
    pose proof (prune_has_dropped _ E1) as Hd.
    apply prune_frame in E1.
    destruct E1 as (a & fn & un & sx & b & d & noc & ms & r & af
                    & Ha & Hfn & Hun & Hsx & Hb & Hdi & Hnoc & Hms & Hr & Haf & ->).
    rewrite (@prune_forward dataset' a fn' un sx b d noc ms r af);
      try (rewrite Same by discriminate; assumption); try assumption.
    + cbn [bind]. rewrite Mask.
      rewrite (clean_name_ignores_full_name _ _ (mask_series (first_occurrences dataset) fn)).
      exact H.
    + rewrite <- Hd. apply forallb_same. intros c Hc.
      rewrite !has_col_getcol, Same; auto.
      intros ->. revert Hc. vm_compute. intuition discriminate.
Qed.

(* ================================================================== *)
(** * The most frequent value *)

Lemma preferred_iff (l : list Q) (x y : Q) :
  preferred l x y = true <->
  occurrences y l < occurrences x l
  \/ occurrences x l = occurrences y l /\ (x <= y)%Q.
Proof.
  unfold preferred.
  rewrite orb_true_iff, andb_true_iff, Nat.ltb_lt, Nat.eqb_eq, Qle_bool_iff.
  tauto.
Qed.

Lemma preferred_total (l : list Q) (x y : Q) :
  preferred l x y = false -> preferred l y x = true.
Proof.
  intros H. apply preferred_iff.
  destruct (preferred l x y) eqn:E; [discriminate|].
  assert (N : ~ (occurrences y l < occurrences x l
                 \/ occurrences x l = occurrences y l /\ (x <= y)%Q))
    by (rewrite <- preferred_iff, E; discriminate).
  destruct (lt_eq_lt_dec (occurrences x l) (occurrences y l)) as [[L|Eq]|G].
  - now left.
  - right. split; [now symmetry|].
    destruct (Qlt_le_dec y x) as [Hlt|Hle]; [now apply Qlt_le_weak|]. tauto.
  - tauto.
Qed.

Lemma preferred_trans (l : list Q) (x y z : Q) :
  preferred l x y = true -> preferred l y z = true -> preferred l x z = true.
Proof.
  rewrite !preferred_iff. intros [A|[A A']] [B|[B B']]; try (left; lia).
  right. split; [lia|]. eapply Qle_trans; eauto.
Qed.

Lemma fold_preferred (l r : list Q) :
  forall x,
    let m := fold_left (fun best y => if preferred l best y then best else y) r x in
    (m = x \/ In m r)
    /\ preferred l m x = true
    /\ forall y, In y r -> preferred l m y = true.
Proof.
  induction r as [|y r IH]; intros x; cbn.
  - split; [now left|]. split; [|intros ? []].
    apply preferred_iff. right. split; [reflexivity|apply Qle_refl].
  - destruct (preferred l x y) eqn:E.
    + destruct (IH x) as (I & P & A). split; [destruct I; auto|]. split; [assumption|].
      intros z [<-|Hz]; auto. eapply preferred_trans; eauto.
    + destruct (IH y) as (I & P & A). split; [destruct I as [I|I]; auto|]. split.
      * eapply preferred_trans; eauto. now apply preferred_total.
      * intros z [<-|Hz]; auto.
Qed.

Lemma most_frequent_spec (l : list Q) (m : Q) :
  most_frequent l = Some m ->
  In m l
  /\ forall y, In y l ->
       occurrences y l <= occurrences m l
       /\ (occurrences y l = occurrences m l -> (m <= y)%Q).
Proof.
  destruct l as [|x r]; [discriminate|]. unfold most_frequent.
  intros H. injection H as <-.
  destruct (fold_preferred (x :: r) r x) as (I & P & A).
  split; [destruct I as [I|I]; [left; now symmetry|now right]|].
  intros y Hy.
  assert (Q : preferred (x :: r) (fold_left
             (fun best y => if preferred (x :: r) best y then best else y) r x) y = true)
    by (destruct Hy as [<-|Hy]; auto).
  apply preferred_iff in Q. destruct Q as [Q|[Q Q']]; split; try lia; auto.
Qed.

(** C5, as amended.  The imputation loop over a frame with distinct
    labels keeps the labels and their order, leaves every column that is
    not numeric as it is, and transforms every numeric column on its own:
    each missing value becomes the value [m] that occurs most often among
    the observed values of that column, and among the values that occur as
    often as [m], [m] is the smallest. *)
Theorem imputation_fills_with_the_smallest_mode (df out : DataFrame) :
  NoDup (columns df) ->
  impute_loop (numeric_columns df) df = Ok out ->
  Forall2
    (fun p p' =>
       fst p' = fst p
       /\ if is_number (dtype_of (snd p))
          then exists m,
                 let obs := observed (values (snd p)) in
                 values (snd p')
                 = map (fun v => if isna v then Num m else v) (values (snd p))
                 /\ In m obs
                 /\ forall y, In y obs ->
                      occurrences y obs <= occurrences m obs
                      /\ (occurrences y obs = occurrences m obs -> (m <= y)%Q)
          else snd p' = snd p)
    df out.
Proof.
  intros ND H. apply (impute_loop_app df []) in H; [|exact ND].
  destruct H as [df' [-> F]]. cbn [app].
  eapply Forall2_impl; [|exact F]. cbv beta.
  intros [n s] [n' s'] [E I]. split; [exact E|].
  unfold imputed in I. cbn [snd] in *.
  destruct (is_number (dtype_of s)); [|exact I].
  unfold fit_transform in I.
  destruct (most_frequent (observed (values s))) as [m|] eqn:M; [|discriminate].
  injection I as <-. exists m. cbn [values]. split; [reflexivity|].
  now apply most_frequent_spec.
Qed.

Lemma measure_single (s : str) :
  ~ In SLASH s ->
  measure0 (Str s) = Str (strip s) /\ measure1 (Str s) = NA.
Proof.
  intros H. unfold measure0, measure1, parts_of, part.
  change (u "/") with [SLASH]. rewrite split_char_absent by assumption.
  split; reflexivity.
Qed.

Lemma measure_pair (s f0 f1 : str) (rest : list str) :
  split (u "/") s = f0 :: f1 :: rest ->
  measure0 (Str s) = Str (strip f0) /\ measure1 (Str s) = Str (strip f1).
Proof.
  intros H. unfold measure0, measure1, parts_of, part. rewrite H.
  split; reflexivity.
Qed.

(* ================================================================== *)
(** * When the parsing sections raise *)

Lemma split_without_separator (sep s : str) :
  contains sep s = false -> split sep s = [s].
Proof.
  unfold split. induction s as [|c s IH]; cbn [contains split_from]; auto.
  intros H. apply orb_false_iff in H. destruct H as [H1 H2].
  rewrite H1, (IH H2). reflexivity.
Qed.

Lemma split_width_separator_free (sep : str) (vs : list value) :
  separator_free sep vs -> split_width sep vs <= 1.
Proof.
  unfold split_width. induction 1 as [|v vs Hv _ IH]; cbn [map list_max fold_right].
  - lia.
  - apply Nat.max_lub; [|exact IH].
    destruct v as [|s|q|d]; cbn; auto.
    unfold parts_of. cbn [parts_len]. rewrite (split_without_separator _ _ (Hv s eq_refl)).
    cbn. lia.
Qed.

Lemma parse_born_raises_without_in (a nm sx b d noc ms r af : Series) :
  dtype_of b = object ->
  separator_free (u "in") (values b) ->
  parse_born (frame9 a nm sx b d noc ms r af) = Raise KeyError.
Proof.
  intros T F. apply split_width_separator_free in F.
  unfold parse_born, frame9. cbn.
  unfold str_split_expand, str_accessor. rewrite T. cbn.
  destruct (split_width (u "in") (values b)) as [|[|k]]; [reflexivity|reflexivity|lia].
Qed.

Lemma parse_measurements_raises_without_slash
    (a nm sx bd ci re co noc ms r af : Series) :
  dtype_of ms = object ->
  values ms <> [] ->
  separator_free (u "/") (values ms) ->
  parse_measurements (frame11 a nm sx bd ci re co noc ms r af) = Raise KeyError.
Proof.
  intros T N F. apply split_width_separator_free in F.
  unfold parse_measurements, frame11. cbn.
  unfold str_split_expand, str_accessor. rewrite T. cbn.
  unfold iterrows, expanded_strip. cbn [elen ecols].
  destruct (values ms) as [|m M]; [congruence|].
  destruct (split_width (u "/") (m :: M)) as [|[|k]]; [reflexivity|reflexivity|lia].
Qed.

(* ================================================================== *)
(** * The claims on the example tables *)

Open Scope string_scope.

Lemma rectangular_dataset_of (l : list bio) : rectangular (dataset_of l).
Proof.
  unfold rectangular, dataset_of, text, empty_column, id_column.
  repeat constructor; cbn; now rewrite !length_map.
Qed.

(** C1 (the notebook departs from the claim).  On a table whose Born
    texts contain no "in", and on a table whose Measurements texts contain
    no "/", the notebook raises KeyError instead of producing missing
    values: the split frame has one column only, and the column [1] that
    is read next does not exist. *)
Theorem parsing_raises_without_a_delimiter :
  pipeline (dataset_of [athlete_no_place]) = Raise KeyError
  /\ pipeline (dataset_of [athlete_height_only]) = Raise KeyError.
Proof. split; vm_compute; reflexivity. Qed.

(** C2 (the notebook departs from the claim).  The splits cut at every
    occurrence of the delimiter and only the first two fragments are kept:
    "1 May 1980 in Berlin, Berlin (GER)" is cut into four fragments at
    its three "in", the birth location is "Berl", and the output has City
    "Berl" and no region or country for that row. *)
Theorem split_cuts_at_every_occurrence :
  split (u "in") born_berlin
  = [u "1 May 1980 "; u " Berl"; u ", Berl"; u " (GER)"]
  /\ pipeline berlin_table = Ok berlin_output
  /\ getcol berlin_output "City" = Ok (mkSeries object [lit "Berl"; lit "Paris"])
  /\ getcol berlin_output "Region" = Ok (mkSeries object [lit "Unknown"; lit "France"])
  /\ getcol berlin_output "Country"
     = Ok (mkSeries object [lit "Unknown"; Str ile_de_france]).
Proof. repeat split; vm_compute; reflexivity. Qed.

(** The one-row table of [athlete_paris] runs through the notebook and its
    row is parsed as C3 says. *)
Lemma well_formed_born_is_parsed_witness :
  rectangular paris_table /\ pipeline paris_table = Ok paris_output
  /\ exists bd ci re co,
       getcol paris_output "birth_date" = Ok bd /\ getcol paris_output "City" = Ok ci
       /\ getcol paris_output "Region" = Ok re /\ getcol paris_output "Country" = Ok co
       /\ nth_error (values bd) 0 = Some (Date (mkDate 1980 1 12))
       /\ nth_error (values ci) 0 = Some (Str (u "Paris"))
       /\ nth_error (values re) 0 = Some (Str (u "France"))
       /\ nth_error (values co) 0 = Some (Str ile_de_france).
Proof.
  assert (R : rectangular paris_table) by apply rectangular_dataset_of.
  assert (H : pipeline paris_table = Ok paris_output) by (vm_compute; reflexivity).
  split; [exact R|]. split; [exact H|].
  destruct (@well_formed_born_is_parsed _ _ R H)
    as (_ & b & bd & ci & re & co & Hb & Hbd & Hci & Hre & Hco & A).
  exists bd, ci, re, co. repeat (split; [assumption|]).
  apply (A 0). vm_compute in Hb. injection Hb as <-. vm_compute. reflexivity.
Defined.

(** C5 as stated fails: in the column 180, 170, missing, both values
    occur once; the first one met is 180, and the missing value becomes
    170. *)
Lemma ties_do_not_go_to_the_first_encountered_value :
  fit_transform tied_heights
  = Ok (mkSeries float64 [Num (180 # 1); Num (170 # 1); Num (170 # 1)])
  /\ first_encountered_mode (observed (values tied_heights)) = Some (180 # 1)%Q
  /\ ~ (forall s s',
          fit_transform s = Ok s' ->
          exists m,
            first_encountered_mode (observed (values s)) = Some m
            /\ values s' = map (fun v => if isna v then Num m else v) (values s)).
Proof.
  split; [vm_compute; reflexivity|]. split; [vm_compute; reflexivity|].
  intros C.
  destruct (C tied_heights _ eq_refl) as (m & Hm & Hv).
  vm_compute in Hm. injection Hm as <-. vm_compute in Hv. discriminate.
Qed.

(** The imputation loop on [tied_frame]. *)
Lemma imputation_fills_with_the_smallest_mode_witness :
  NoDup (columns tied_frame)
  /\ impute_loop (numeric_columns tied_frame) tied_frame = Ok tied_output
  /\ getcol tied_output "height_cm"
     = Ok (mkSeries float64 [Num (180 # 1); Num (170 # 1); Num (170 # 1)])
  /\ Forall2
       (fun p p' =>
          fst p' = fst p
          /\ if is_number (dtype_of (snd p))
             then exists m,
                    let obs := observed (values (snd p)) in
                    values (snd p')
                    = map (fun v => if isna v then Num m else v) (values (snd p))
                    /\ In m obs
                    /\ forall y, In y obs ->
                         occurrences y obs <= occurrences m obs
                         /\ (occurrences y obs = occurrences m obs -> (m <= y)%Q)
             else snd p' = snd p)
       tied_frame tied_output.
Proof.
  assert (N : NoDup (columns tied_frame))
    by (repeat constructor; cbn; intuition discriminate).
  assert (H : impute_loop (numeric_columns tied_frame) tied_frame = Ok tied_output)
    by (vm_compute; reflexivity).
  split; [exact N|]. split; [exact H|]. split; [vm_compute; reflexivity|].
  exact (@imputation_fills_with_the_smallest_mode _ _ N H).
Defined.

(** [drop_duplicates] on the table of two equal rows. *)
Lemma drop_duplicates_keeps_first_and_is_idempotent_witness :
  rectangular twins_table
  /\ nrows twins_table = 2
  /\ nrows (drop_duplicates twins_table) = 1
  /\ drop_duplicates (drop_duplicates twins_table) = drop_duplicates twins_table.
Proof.
  assert (R : rectangular twins_table) by apply rectangular_dataset_of.
  split; [exact R|]. split; [reflexivity|]. split; [vm_compute; reflexivity|].
  apply (@drop_duplicates_keeps_first_and_is_idempotent _ R).
Defined.

(** The notebook on [mixed_table]: three rows after [drop_duplicates], one
    of them without NOC, two rows in the output. *)
Lemma null_noc_rows_are_dropped_witness :
  rectangular mixed_table /\ pipeline mixed_table = Ok mixed_output
  /\ nrows (drop_duplicates mixed_table) = 3 /\ nrows mixed_output = 2
  /\ exists noc noc',
       getcol mixed_table "NOC" = Ok noc /\ getcol mixed_output "NOC" = Ok noc'
       /\ Forall (fun v => v <> NA) (values noc')
       /\ nrows mixed_output
          + length (filter isna (take (first_occurrences mixed_table) (values noc)))
          = nrows (drop_duplicates mixed_table).
Proof.
  assert (R : rectangular mixed_table) by apply rectangular_dataset_of.
  assert (H : pipeline mixed_table = Ok mixed_output) by (vm_compute; reflexivity).
  split; [exact R|]. split; [exact H|].
  split; [vm_compute; reflexivity|]. split; [reflexivity|].
  destruct (@null_noc_rows_are_dropped _ _ R H) as (noc & noc' & A & B & C & D & _ & _ & E).
  exists noc, noc'. repeat split; assumption.
Defined.

(** The notebook on [mixed_table]: the undated row gets the sentinel date
    and both rows get the affiliation "Unknown". *)
Lemma defaults_and_final_columns_witness :
  rectangular mixed_table /\ pipeline mixed_table = Ok mixed_output
  /\ columns mixed_output = final_columns
  /\ getcol mixed_output "birth_date"
     = Ok (mkSeries datetime64 [Date (mkDate 1980 1 12); Date (mkDate 1975 1 1)])
  /\ getcol mixed_output "Affiliations"
     = Ok (mkSeries object [lit "Unknown"; lit "Unknown"]).
Proof.
  assert (R : rectangular mixed_table) by apply rectangular_dataset_of.
  assert (H : pipeline mixed_table = Ok mixed_output) by (vm_compute; reflexivity).
  split; [exact R|]. split; [exact H|].
  split; [exact (proj1 (@defaults_and_final_columns _ _ R H))|].
  split; vm_compute; reflexivity.
Defined.

(** The notebook on the table of [athlete_new_york]. *)
Lemma location_loses_every_space_witness :
  rectangular new_york_table /\ pipeline new_york_table = Ok new_york_output
  /\ getcol new_york_output "City" = Ok (mkSeries object [lit "NewYork"])
  /\ exists ci re co,
       getcol new_york_output "City" = Ok ci
       /\ getcol new_york_output "Region" = Ok re
       /\ getcol new_york_output "Country" = Ok co
       /\ forall s, In (Str s) (values ci ++ values re ++ values co) -> ~ In SPACE s.
Proof.
  assert (R : rectangular new_york_table) by apply rectangular_dataset_of.
  assert (H : pipeline new_york_table = Ok new_york_output) by (vm_compute; reflexivity).
  split; [exact R|]. split; [exact H|]. split; [vm_compute; reflexivity|].
  destruct (@location_loses_every_space _ _ R H)
    as (b & ci & re & co & _ & Hci & Hre & Hco & _ & _ & _ & _ & A & _).
  exists ci, re, co. repeat split; assumption.
Defined.

(** C10 as stated fails: the two tables are equal once the column
    "Full name" is removed, yet the notebook gives one row for the first
    and two rows for the second. *)
Lemma full_name_changes_the_output :
  drop twins_table ["Full name"] = drop renamed_twins_table ["Full name"]
  /\ nrows (output_of (pipeline twins_table)) = 1
  /\ nrows (output_of (pipeline renamed_twins_table)) = 2
  /\ pipeline twins_table <> pipeline renamed_twins_table.
Proof.
  split; [vm_compute; reflexivity|]. split; [vm_compute; reflexivity|].
  split; [vm_compute; reflexivity|].
  intros E. apply (f_equal (fun r => nrows (output_of r))) in E.
  vm_compute in E. discriminate.
Qed.

(** The notebook on the table of [athlete_paris]: the bullet of the used
    name becomes a space. *)
Lemma name_comes_from_used_name_witness :
  rectangular paris_table /\ pipeline paris_table = Ok paris_output
  /\ getcol paris_output "name" = Ok (mkSeries object [lit "Jean Dupont"])
  /\ exists un nm,
       getcol paris_table "Used name" = Ok un /\ getcol paris_output "name" = Ok nm
       /\ values nm
          = map (replace_in [BULLET] [SPACE]) (surviving paris_table (values un)).
Proof.
  assert (R : rectangular paris_table) by apply rectangular_dataset_of.
  assert (H : pipeline paris_table = Ok paris_output) by (vm_compute; reflexivity).
  split; [exact R|]. split; [exact H|]. split; [vm_compute; reflexivity|].
  exact (proj1 (@name_comes_from_used_name _ _ R H)).
Defined.

(* ================================================================== *)
(** * Further properties of the notebook *)

(** * Rounding *)

Lemma round1_tenth (q : Q) : exists n : Z, round1 q = Qred (n # 10).
Proof. unfold round1. eexists. reflexivity. Qed.

Lemma round1_fixes_tenths (n : Z) : round1 (n # 10) = Qred (n # 10).
Proof.
  unfold round1.
  assert (X : ((n # 10) * inject_Z 10 == inject_Z n)%Q)
    by (unfold Qeq; cbn; lia).
  rewrite (Qfloor_comp _ _ X), Qfloor_Z.
  rewrite (Qcompare_comp _ _ (Qminus_comp _ _ X _ _ (Qeq_refl _)) _ _ (Qeq_refl _)).
  replace (inject_Z n - inject_Z n ?= 1 # 2)%Q with Lt; [reflexivity|].
  symmetry. apply (proj1 (Qlt_alt _ _)). generalize (inject_Z n). intros. lra.
Qed.

Lemma round1_fixes_reduced_tenths (n : Z) :
  round1 (Qred (n # 10)) = Qred (n # 10).
Proof.
  unfold round1 at 1.
  assert (X : (Qred (n # 10) * inject_Z 10 == inject_Z n)%Q)
    by (rewrite Qred_correct; unfold Qeq; cbn; lia).
  rewrite (Qfloor_comp _ _ X), Qfloor_Z.
  rewrite (Qcompare_comp _ _ (Qminus_comp _ _ X _ _ (Qeq_refl _)) _ _ (Qeq_refl _)).
  replace (inject_Z n - inject_Z n ?= 1 # 2)%Q with Lt; [reflexivity|].
  symmetry. apply (proj1 (Qlt_alt _ _)). generalize (inject_Z n). intros. lra.
Qed.

Lemma Qred_integer (n : Z) : Qred (n # 1) = (n # 1)%Q.
Proof.
  unfold Qred.
  pose proof (Z.ggcd_gcd n 1) as G. pose proof (Z.ggcd_correct_divisors n 1) as D.
  destruct (Z.ggcd n 1) as [g [r1 r2]]. cbn [fst snd] in *.
  rewrite Z.gcd_1_r in G. subst g. destruct D as [D1 D2].
  assert (E1 : r1 = n) by lia. assert (E2 : r2 = 1%Z) by lia.
  rewrite E1, E2. reflexivity.
Qed.

Lemma round1_integer (n : Z) : round1 (n # 1) = (n # 1)%Q.
Proof.
  rewrite <- (Qred_integer n) at 2.
  transitivity (Qred (n * 10 # 10)).
  - unfold round1.
    assert (X : ((n # 1) * inject_Z 10 == inject_Z (n * 10))%Q)
      by (unfold Qeq; cbn; lia).
    rewrite (Qfloor_comp _ _ X), Qfloor_Z.
    rewrite (Qcompare_comp _ _ (Qminus_comp _ _ X _ _ (Qeq_refl _)) _ _ (Qeq_refl _)).
    replace (inject_Z (n * 10) - inject_Z (n * 10) ?= 1 # 2)%Q with Lt; [reflexivity|].
    symmetry. apply (proj1 (Qlt_alt _ _)). generalize (inject_Z (n * 10)). intros. lra.
  - apply Qred_complete. unfold Qeq. cbn. lia.
Qed.

(** X28.  Rounding to one decimal, [round1], leaves a number with at most
    one decimal as it is.  For every whole number [k] of at most 14 digits:
    [k] tenths is its own rounding, and so is the whole number [k]. *)
Theorem rounding_keeps_one_decimal (k : Z) :
  (Z.abs k <= 10 ^ 14)%Z ->
  round1 (Qred (k # 10)) = Qred (k # 10) /\ round1 (k # 1) = (k # 1)%Q.
Proof.
  intros _. split; [apply round1_fixes_reduced_tenths|apply round1_integer].
Qed.

Lemma rounding_keeps_one_decimal_witness :
  (Z.abs 1785 <= 10 ^ 14)%Z
  /\ round1 (357 # 2) = (357 # 2)%Q /\ round1 (1785 # 1) = (1785 # 1)%Q.
Proof.
  assert (B : (Z.abs 1785 <= 10 ^ 14)%Z) by (vm_compute; discriminate).
  split; [exact B|]. exact (@rounding_keeps_one_decimal 1785 B).
Defined.

Lemma to_numeric_value_cases (v : value) :
  to_numeric_value v = NA \/ exists q, to_numeric_value v = Num q.
Proof.
  unfold to_numeric_value, to_numeric_str. destruct v as [|s|q|d]; eauto.
  destruct (parse_decimal (strip_ascii s)); eauto.
Qed.


Lemma take_length_le A (m : list bool) (l : list A) : length (take m l) <= length l.
Proof.
  revert l; induction m as [|b m IH]; intros [|x l]; simpl; try lia.
  specialize (IH l). destruct b; simpl; lia.
Qed.

Lemma nrows_pipeline (dataset out : DataFrame) :
  rectangular dataset ->
  pipeline dataset = Ok out ->
  exists noc,
    getcol dataset "NOC" = Ok noc
    /\ nrows out = length (surviving dataset (values noc))
    /\ length (values noc) = nrows dataset.
Proof.
  intros R H. destruct (pipeline_output R H)
    as (a & un & sx & b & noc & ms & r & af & a' & sx' & noc' & r' & af' & mh & mw
        & Ha & Hun & Hsx & Hb & Hnoc & Hms & Hr & Haf & Tun & Tb & Tms
        & -> & Mh & Mw & Ia & Isx & Ir & Vnoc & Nnoc & Vaf).
  exists noc. split; [assumption|]. split.
  - cbn [nrows frame12]. rewrite (imputed_length _ _ Ia). cbn.
    apply surviving_length.
    now rewrite (@getcol_length _ _ _ R Ha), (@getcol_length _ _ _ R Hnoc).
  - exact (@getcol_length _ _ _ R Hnoc).
Qed.

(** X1.  For every table whose Measurements are missing or written with
    digits, spaces, dashes, slashes and the letters of "cm" and "kg", no
    run of digits longer than 14, and on which the notebook produces an
    output: every value in the columns height_cm and weight_kg of the output
    is a number with at most one decimal, a multiple of one tenth; none is
    missing. *)
Theorem output_measures_are_rounded_numbers
    (dataset out : DataFrame) (ms : Series) :
  rectangular dataset ->
  pipeline dataset = Ok out ->
  getcol dataset "Measurements" = Ok ms ->
  forallb plain_measurement (values ms) = true ->
  exists h w,
    getcol out "height_cm" = Ok h /\ getcol out "weight_kg" = Ok w
    /\ Forall (fun v => exists n : Z, v = Num (Qred (n # 10)))
         (values h ++ values w).
Proof.
  intros R H _ _. destruct (pipeline_output R H)
    as (a & un & sx & b & noc & ms0 & r & af & a' & sx' & noc' & r' & af' & mh & mw
        & Ha & Hun & Hsx & Hb & Hnoc & Hms & Hr & Haf & Tun & Tb & Tms
        & -> & Mh & Mw & Ia & Isx & Ir & Vnoc & Nnoc & Vaf).
  eexists _, _. cbn [frame12 getcol String.eqb Ascii.eqb Bool.eqb].
  repeat (split; [reflexivity|]). cbn [values].
  assert (G : forall (m : Q) (f : value -> value),
             (forall v, f v = NA \/ exists q, f v = Num q) ->
             Forall (fun v => exists n : Z, v = Num (Qred (n # 10)))
               (map (fun v => round_value (fill (Num m) (f v)))
                  (surviving dataset (values ms0)))).
  { intros m f C. apply Forall_map, Forall_forall. intros v _.
    destruct (C v) as [E|[q E]]; rewrite E; unfold fill, round_value; cbn [isna].
    - destruct (round1_tenth m) as [n ->]. eauto.
    - destruct (round1_tenth q) as [n ->]. eauto. }
  apply Forall_app. split; apply G; intros v; apply to_numeric_value_cases.
Qed.


(** X3.  For every table on which the notebook produces an output: the
    column name has one value per surviving row, no name holds a bullet
    character, and the name of a row whose Used name is a text is a text of
    the same length: every bullet becomes one space and nothing else
    changes length. *)
Theorem output_names_hold_no_bullet (dataset out : DataFrame) :
  rectangular dataset ->
  pipeline dataset = Ok out ->
  exists un nm,
    getcol dataset "Used name" = Ok un /\ getcol out "name" = Ok nm
    /\ length (values nm) = length (surviving dataset (values un))
    /\ (forall s, In (Str s) (values nm) -> ~ In BULLET s)
    /\ (forall i s,
          nth_error (surviving dataset (values un)) i = Some (Str s) ->
          exists s', nth_error (values nm) i = Some (Str s')
                     /\ length s' = length s).
Proof.
  intros R H. destruct (pipeline_output R H)
    as (a & un & sx & b & noc & ms & r & af & a' & sx' & noc' & r' & af' & mh & mw
        & Ha & Hun & Hsx & Hb & Hnoc & Hms & Hr & Haf & Tun & Tb & Tms
        & -> & _).
  eexists un, _. split; [assumption|]. split; [reflexivity|]. cbn [values].
  split; [apply length_map|]. split.
  - intros s Hs. apply in_map_iff in Hs. destruct Hs as (v & E & _).
    unfold replace_in in E. destruct v as [|t|q|d]; try discriminate.
    cbn [str_map] in E. injection E as <-. rewrite replace_char_char.
    intros Hb'. apply in_map_iff in Hb'. destruct Hb' as (x & Ex & _).
    destruct (N.eqb_spec x BULLET) as [Eb|Nb]; [discriminate|]. congruence.
  - intros i s Hi. rewrite (map_nth_error _ _ _ Hi).
    unfold replace_in. cbn [str_map]. eexists. split; [reflexivity|].
    rewrite replace_char_char. apply length_map.
Qed.

(** X4.  For every table on which the notebook produces an output: the
    output has at most as many rows as [drop_duplicates] leaves, and
    [drop_duplicates] leaves at most as many rows as the loaded table
    has. *)
Theorem output_has_no_more_rows_than_the_input (dataset out : DataFrame) :
  rectangular dataset ->
  pipeline dataset = Ok out ->
  nrows out <= nrows (drop_duplicates dataset)
  /\ nrows (drop_duplicates dataset) <= nrows dataset.
Proof.
  intros R H. destruct (nrows_pipeline R H) as (noc & Hnoc & N & L).
  rewrite N, (@nrows_drop_duplicates _ _ _ R Hnoc), <- L.
  unfold surviving. split; apply take_length_le.
Qed.

(** * Delimiters *)

Lemma split_char_fragments (c : char) (s : str) :
  forall f, In f (split [c] s) -> ~ In c f.
Proof.
  unfold split. induction s as [|x s IH]; intros f; cbn [split_from startswith].
  - intros [<-|[]] [].
  - rewrite andb_true_r. destruct (N.eqb_spec c x) as [->|Nx]; cbn [length Nat.sub].
    + intros [<-|H]; [intros []|]. now apply IH.
    + destruct (split_from [c] 0 s) as [|g gs] eqn:E.
      * intros [<-|[]] [->|[]]. congruence.
      * intros [<-|H].
        { intros [->|Hc]; [congruence|]. apply (IH g); [now left|assumption]. }
        apply IH. now right.
Qed.

Lemma lacks_part (c : char) (sep : str) (j : nat) (v : value) :
  lacks c v -> lacks c (part j (parts_of sep v)).
Proof.
  destruct v as [|s|q|d]; try exact (fun _ => I). cbn [lacks]. intros H.
  unfold part, parts_of. destruct (nth_error (split sep s) j) as [f|] eqn:E; cbn; auto.
  apply nth_error_In in E. intros Hx. apply H.
  eapply split_from_chars; eauto.
Qed.

Lemma lacks_part_separator (c : char) (j : nat) (v : value) :
  lacks c (part j (parts_of [c] v)).
Proof.
  destruct v as [|s|q|d]; try exact I.
  unfold part, parts_of. destruct (nth_error (split [c] s) j) as [f|] eqn:E; cbn; auto.
  apply nth_error_In in E. now apply split_char_fragments in E.
Qed.

Lemma lacks_replace_in (c : char) (old : str) (v : value) :
  lacks c v -> lacks c (replace_in old [] v).
Proof.
  unfold replace_in.
  destruct v as [|s|q|d]; cbn [str_map lacks]; auto. intros H Hx. apply H.
  eapply replace_from_chars. exact Hx.
Qed.

Lemma lacks_removed (c : char) (v : value) : lacks c (replace_in [c] [] v).
Proof.
  unfold replace_in.
  destruct v as [|s|q|d]; cbn [str_map lacks]; auto.
  rewrite replace_char_removed. intros H. apply filter_In in H.
  destruct H as [_ H]. now rewrite N.eqb_refl in H.
Qed.

Lemma lacks_fill_unknown (c : char) (v : value) :
  ~ In c (u "Unknown") -> lacks c v -> lacks c (fill (Str (u "Unknown")) v).
Proof. destruct v; cbn; auto. Qed.

(** X5.  For every table on which the notebook produces an output: no City
    holds a comma, no Region holds a comma or an opening parenthesis, and
    no Country holds a comma, an opening or a closing parenthesis.  The
    characters at which the birth location is cut do not reach the
    output. *)
Theorem delimiters_do_not_reach_the_output (dataset out : DataFrame) :
  rectangular dataset ->
  pipeline dataset = Ok out ->
  exists ci re co,
    getcol out "City" = Ok ci /\ getcol out "Region" = Ok re
    /\ getcol out "Country" = Ok co
    /\ Forall (lacks COMMA) (values ci)
    /\ Forall (fun v => lacks COMMA v /\ lacks LPAREN v) (values re)
    /\ Forall (fun v => lacks COMMA v /\ lacks LPAREN v /\ lacks RPAREN v) (values co).
Proof.
  intros R H. destruct (pipeline_output R H)
    as (a & un & sx & b & noc & ms & r & af & a' & sx' & noc' & r' & af' & mh & mw
        & Ha & Hun & Hsx & Hb & Hnoc & Hms & Hr & Haf & Tun & Tb & Tms
        & -> & _).
  eexists _, _, _. cbn [frame12 getcol String.eqb Ascii.eqb Bool.eqb].
  repeat (split; [reflexivity|]). cbn [values].
  assert (U : forall c, In c [COMMA; LPAREN; RPAREN] -> ~ In c (u "Unknown"))
    by (intros c [<-|[<-|[<-|[]]]]; vm_compute; intuition discriminate).
  assert (RC : forall v, lacks COMMA (born_region_country v))
    by (intros v; apply (lacks_part_separator COMMA)).
  repeat split; apply Forall_map, Forall_forall; intros v _; unfold unknown.
  - apply lacks_fill_unknown; [apply U; simpl; tauto|].
    apply (lacks_part_separator COMMA).
  - split; (apply lacks_fill_unknown; [apply U; simpl; tauto|]).
    + apply lacks_part, RC.
    + apply (lacks_part_separator LPAREN).
  - split; [|split]; (apply lacks_fill_unknown; [apply U; simpl; tauto|]).
    + apply lacks_replace_in, lacks_part, RC.
    + apply lacks_replace_in, (lacks_part_separator LPAREN).
    + apply (lacks_removed RPAREN).
Qed.

(** * Duplicates, once more *)

Lemma drop_duplicates_idempotent (df : DataFrame) :
  rectangular df -> drop_duplicates (drop_duplicates df) = drop_duplicates df.
Proof.
  intros R.
  assert (R' : rectangular (drop_duplicates df))
    by now apply rectangular_boolean_index.
  unfold drop_duplicates at 1. apply boolean_index_all; auto.
  - now apply duplicated_length.
  - unfold duplicated. rewrite rows_drop_duplicates by assumption.
    unfold kept_rows. rewrite duplicated_keep_from, map_map. simpl.
    apply Forall_forall. intros b Hb. apply in_map_iff in Hb.
    now destruct Hb as [? [<- _]].
Qed.

(** X6.  Removing the duplicate rows before the notebook runs changes
    nothing: on a table whose columns have equal length the notebook gives
    the same result, output or exception, for the table and for the table
    without its duplicate rows. *)
Theorem deduplicating_first_changes_nothing (dataset : DataFrame) :
  rectangular dataset ->
  pipeline (drop_duplicates dataset) = pipeline dataset.
Proof.
  intros R. unfold pipeline, prune.
  now rewrite drop_duplicates_idempotent.
Qed.

Lemma count_true_take A (m : list bool) (l : list A) :
  length m = length l ->
  length (take (map negb m) l) + length (filter (fun b => b) m) = length l.
Proof.
  revert l; induction m as [|b m IH]; intros [|x l] H; simpl in *;
    try discriminate; auto.
  injection H as H. specialize (IH l H). destruct b; simpl; lia.
Qed.

(** X7.  On a frame whose columns have equal length, the number that
    [df.duplicated().sum()] shows is the number of rows [drop_duplicates]
    removes, and it is 0 on the frame [drop_duplicates] returns. *)
Theorem duplicated_sum_counts_the_dropped_rows (df : DataFrame) :
  rectangular df ->
  nrows (drop_duplicates df) + duplicated_sum df = nrows df
  /\ duplicated_sum (drop_duplicates df) = 0.
Proof.
  intros R. split.
  - unfold duplicated_sum. destruct df as [|[n s] df]; [reflexivity|].
    unfold drop_duplicates. cbn [nrows boolean_index map fst snd mask_series values].
    apply count_true_take. unfold duplicated.
    rewrite duplicated_from_length, rows_length by assumption. reflexivity.
  - unfold duplicated_sum, duplicated.
    rewrite rows_drop_duplicates by assumption. unfold kept_rows.
    rewrite duplicated_keep_from.
    induction (keep_from [] (rows df)); simpl; auto.
Qed.

(** * Missing columns and wrong dtypes *)

Lemma getcol_raises_key_error (df : DataFrame) (c : string) (e : exn) :
  getcol df c = Raise e -> e = KeyError.
Proof.
  induction df as [|[n s] df IH]; simpl.
  - congruence.
  - destruct (String.eqb n c); [discriminate|exact IH].
Qed.

Lemma select_missing (df : DataFrame) (names : list string) (c : string) :
  In c names -> has_col df c = false -> select df names = Raise KeyError.
Proof.
  intros Hin Hc. induction names as [|n names IH]; [destruct Hin|].
  cbn [select]. destruct (getcol df n) as [s|e] eqn:E; cbn [bind].
  - destruct Hin as [->|Hin].
    + rewrite has_col_getcol, E in Hc. discriminate.
    + now rewrite (IH Hin).
  - now rewrite (getcol_raises_key_error _ _ E).
Qed.

Lemma has_col_filter (df : DataFrame) (names : list string) (c : string) :
  mem c names = false ->
  has_col (filter (fun p => negb (mem (fst p) names)) df) c = has_col df c.
Proof. intros H. now rewrite !has_col_getcol, getcol_filter. Qed.

Lemma prune_missing_column (dataset : DataFrame) (c : string) :
  In c (dropped_columns ++ kept_columns) ->
  has_col dataset c = false ->
  prune dataset = Raise KeyError.
Proof.
  intros Hin Hc.
  unfold prune, drop, drop_duplicates.
  destruct (forallb _ dropped_columns) eqn:F; [|reflexivity].
  cbn [bind]. apply in_app_iff in Hin. destruct Hin as [Hin|Hin].
  - rewrite forallb_forall in F. specialize (F c Hin).
    rewrite has_col_boolean_index in F. congruence.
  - apply (select_missing _ _ c Hin).
    rewrite has_col_filter, has_col_boolean_index; [assumption|].
    revert Hin. unfold kept_columns.
    intros [<-|[<-|[<-|[<-|[<-|[<-|[<-|[<-|[<-|[<-|[]]]]]]]]]]]; reflexivity.
Qed.

(** X8.  If the loaded table lacks one of the six columns that are dropped
    first, or one of the ten columns of the rearrangement, the notebook
    raises KeyError. *)
Theorem missing_column_raises_key_error (dataset : DataFrame) (c : string) :
  In c (dropped_columns ++ kept_columns) ->
  has_col dataset c = false ->
  pipeline dataset = Raise KeyError.
Proof.
  intros Hin Hc. unfold pipeline.
  now rewrite (@prune_missing_column dataset c Hin Hc).
Qed.

Lemma has_col_getcol_ok (df : DataFrame) (c : string) :
  has_col df c = true -> exists s, getcol df c = Ok s.
Proof.
  rewrite has_col_getcol. destruct (getcol df c); [eauto|discriminate].
Qed.

(** X9.  If the loaded table has all sixteen columns and its column
    Used name has a dtype other than object, the notebook raises
    AttributeError: the [.str] accessor exists on a column of text only. *)
Theorem text_columns_must_have_dtype_object (dataset : DataFrame) (un : Series) :
  forallb (has_col dataset) (dropped_columns ++ kept_columns) = true ->
  getcol dataset "Used name" = Ok un ->
  dtype_of un <> object ->
  pipeline dataset = Raise AttributeError.
Proof.
  intros F Hun T. rewrite forallb_app in F. apply andb_true_iff in F.
  destruct F as [Fd Fk].
  rewrite forallb_forall in Fk.
  assert (G : forall c, In c kept_columns -> exists s, getcol dataset c = Ok s)
    by (intros c Hc; apply has_col_getcol_ok, Fk, Hc).
  destruct (G "athlete_id") as [a Ha]; [simpl; tauto|].
  destruct (G "Full name") as [fn Hfn]; [simpl; tauto|].
  destruct (G "Sex") as [sx Hsx]; [simpl; tauto|].
  destruct (G "Born") as [b Hb]; [simpl; tauto|].
  destruct (G "Died") as [d Hd]; [simpl; tauto|].
  destruct (G "NOC") as [noc Hnoc]; [simpl; tauto|].
  destruct (G "Measurements") as [ms Hms]; [simpl; tauto|].
  destruct (G "Roles") as [r Hr]; [simpl; tauto|].
  destruct (G "Affiliations") as [af Haf]; [simpl; tauto|].
  unfold pipeline.
  rewrite (@prune_forward dataset a fn un sx b d noc ms r af) by assumption.
  cbn [bind]. unfold clean_name, frame10. cbn.
  unfold str_replace, str_accessor. cbn [mask_series dtype_of].
  destruct (dtype_of un); try reflexivity. congruence.
Qed.

(** X10.  The notebook cannot be run on its own output: for every table on
    which it produces an output, running it on that output raises KeyError,
    since the columns that are dropped first are gone. *)
Theorem output_cannot_be_cleaned_again (dataset out : DataFrame) :
  rectangular dataset ->
  pipeline dataset = Ok out ->
  pipeline out = Raise KeyError.
Proof.
  intros R H. unfold pipeline.
  enough (P : prune out = Raise KeyError) by now rewrite P.
  apply (@prune_missing_column out "Nick/petnames").
  - simpl. tauto.
  - destruct (pipeline_output R H)
      as (a & un & sx & b & noc & ms & r & af & a' & sx' & noc' & r' & af' & mh & mw
          & _ & _ & _ & _ & _ & _ & _ & _ & _ & _ & _ & -> & _).
    reflexivity.
Qed.

Lemma filter_isna_notna (l : list value) :
  Forall (fun v => notna v = true) l -> length (filter isna l) = 0.
Proof.
  induction 1 as [|v l Hv _ IH]; simpl; auto.
  destruct v; simpl in *; auto; discriminate.
Qed.

(** X11.  For every table on which the notebook produces an output, the
    last [df.isna().sum()] lists the twelve final columns in their order
    and shows 0 for birth_date, City, Region, Country, NOC, height_cm,
    weight_kg and Affiliations; for name it shows the number of surviving
    rows whose Used name is not a text. *)
Theorem final_check_shows_no_missing_value (dataset out : DataFrame) :
  rectangular dataset ->
  pipeline dataset = Ok out ->
  map fst (isna_sum out) = final_columns
  /\ (forall c,
        In c ["birth_date"; "City"; "Region"; "Country"; "NOC"; "height_cm";
              "weight_kg"; "Affiliations"] ->
        In (c, 0) (isna_sum out))
  /\ exists un,
       getcol dataset "Used name" = Ok un
       /\ In ("name",
              length (filter (fun v => match v with Str _ => false | _ => true end)
                        (surviving dataset (values un))))
            (isna_sum out).
Proof.
  intros R H. destruct (pipeline_output R H)
    as (a & un & sx & b & noc & ms & r & af & a' & sx' & noc' & r' & af' & mh & mw
        & Ha & Hun & Hsx & Hb & Hnoc & Hms & Hr & Haf & Tun & Tb & Tms
        & -> & Mh & Mw & Ia & Isx & Ir & Vnoc & Nnoc & Vaf).
  split; [reflexivity|]. split.
  - assert (Z0 : forall (d : value) (f : value -> value) (l : list value),
               notna d = true ->
               length (filter isna (map (fun v => fill d (f v)) l)) = 0)
      by (intros; now apply filter_isna_notna, fill_default_notna).
    assert (Z1 : forall (m : Q) (f : value -> value) (l : list value),
               length (filter isna (map (fun v => round_value (fill (Num m) (f v))) l)) = 0).
    { intros. apply filter_isna_notna, Forall_map, Forall_forall. intros v _.
      unfold fill, round_value. destruct (f v); reflexivity. }
    intros c Hc. unfold isna_sum, frame12. cbn [map fst snd values].
    rewrite Vnoc, Vaf, !Z0, !Z1 by reflexivity.
    rewrite (filter_isna_notna Nnoc).
    try rewrite (@filter_isna_notna (map (fill unknown) _))
      by (apply fill_notna; reflexivity).
    simpl in Hc. simpl. intuition (subst; auto 20).
  - exists un. split; [assumption|].
    unfold isna_sum, frame12. cbn [map fst snd values]. right. left.
    f_equal. clear. induction (surviving dataset (values un)) as [|v l IH]; simpl; auto.
    unfold replace_in at 1. destruct v; simpl; rewrite IH; reflexivity.
Qed.

(** * When the parsing sections return *)

Lemma contains_two_fragments (sep s : str) :
  sep <> [] -> contains sep s = true -> 2 <= length (split sep s).
Proof.
  intros N. unfold split. induction s as [|c s IH]; cbn [contains split_from].
  - destruct sep; [congruence|discriminate].
  - intros H. destruct (startswith sep (c :: s)) eqn:E.
    + cbn [length]. pose proof (@split_from_nonempty sep s (length sep - 1)) as P.
      destruct (split_from sep (length sep - 1) s); [congruence|]. cbn. lia.
    + cbn [orb] in H. specialize (IH H).
      destruct (split_from sep 0 s); cbn in *; lia.
Qed.

Lemma list_max_In (n : nat) (l : list nat) : In n l -> n <= list_max l.
Proof.
  unfold list_max. induction l as [|x l IH]; [intros []|]. cbn [fold_right].
  intros [->|H]; [lia|]. specialize (IH H). lia.
Qed.

Lemma split_width_two (sep : str) (vs : list value) :
  sep <> [] ->
  (2 <= split_width sep vs <->
   exists s, In (Str s) vs /\ contains sep s = true).
Proof.
  intros N. unfold split_width, list_max. split.
  - induction vs as [|v vs IH]; cbn [map fold_right]; [lia|].
    intros H. apply Nat.max_le in H. destruct H as [H|H].
    + destruct v as [|s|q|d]; unfold parts_of, parts_len in H; try lia.
      exists s. split; [now left|].
      destruct (contains sep s) eqn:C; [reflexivity|].
      rewrite (split_without_separator _ _ C) in H. cbn in H. lia.
    + destruct (IH H) as (s & I & C). exists s. split; [now right|assumption].
  - intros (s & I & C).
    apply (Nat.le_trans _ (parts_len (parts_of sep (Str s)))).
    + unfold parts_of, parts_len. now apply contains_two_fragments.
    + apply (@list_max_In _ (map (fun v => parts_len (parts_of sep v)) vs)). apply in_map_iff. exists (Str s). auto.
Qed.

Lemma parse_born_returns (a nm sx b d noc ms r af : Series) :
  dtype_of b = object ->
  2 <= split_width (u "in") (values b) ->
  2 <= split_width (u ",") (map born_location (values b)) ->
  2 <= split_width (u "(") (map born_region_country (values b)) ->
  parse_born (frame9 a nm sx b d noc ms r af)
  = Ok (frame11 a nm sx
          (mkSeries datetime64 (map born_date (values b)))
          (mkSeries object (map born_city (values b)))
          (mkSeries object (map born_region (values b)))
          (mkSeries object (map born_country (values b)))
          noc ms r af).
Proof.
  intros T W1 W2 W3. unfold parse_born, frame9. cbn.
  unfold str_split_expand, str_accessor.
  destruct b as [bt B]. cbn in *. subst bt. cbn.
  destruct (split_width (u "in") B) as [|[|k1]]; try lia. cbn.
  rewrite !map_map.
  change (map (fun x => replace_in (u " ") [] (replace_whole (Str (u " ")) (Str []) (strip_in (part 1 (parts_of (u "in") x))))) B)
    with (map born_location B).
  destruct (split_width (u ",") (map born_location B)) as [|[|k2]]; try lia. cbn.
  rewrite !map_map.
  change (map (fun x => part 1 (parts_of (u ",") (born_location x))) B)
    with (map born_region_country B).
  destruct (split_width (u "(") (map born_region_country B)) as [|[|k3]]; try lia. cbn.
  rewrite !map_map.
  unfold frame11, to_datetime. cbn [values]. rewrite map_map. reflexivity.
Qed.

(** X12.  On a frame as section 5 leaves it, section 7 returns a frame
    exactly when the column Born has dtype object, some Born text contains
    "in", some birth location contains a comma and some text behind the
    first comma contains an opening parenthesis; in every other case it
    raises. *)
Theorem parse_born_returns_exactly_when_every_split_has_two_columns
    (a nm sx b d noc ms r af : Series) :
  (exists df, parse_born (frame9 a nm sx b d noc ms r af) = Ok df)
  <->
  dtype_of b = object
  /\ (exists s, In (Str s) (values b) /\ contains (u "in") s = true)
  /\ (exists s, In (Str s) (map born_location (values b))
                /\ contains (u ",") s = true)
  /\ (exists s, In (Str s) (map born_region_country (values b))
                /\ contains (u "(") s = true).
Proof.
  rewrite <- !split_width_two by discriminate. split.
  - intros [df H]. apply parse_born_frame in H. tauto.
  - intros (T & W1 & W2 & W3). eexists. now apply parse_born_returns.
Qed.

Section LoopReturns.
Variables a nm sx bd ci re co noc ms r af : Series.

Lemma measurements_row_returns (h w : list value) (i : nat) (row : row) :
  two_textual row ->
  exists df, measurements_row (frame13 a nm sx bd ci re co noc ms r af h w) i row = Ok df.
Proof.
  unfold measurements_row. destruct row as [|v0 [|v1 t]]; cbn; try tauto.
  intros [T0 T1].
  destruct v1 as [| s1 | q1 | d1]; destruct v0 as [| s0 | q0 | d0]; cbn in *;
    try tauto; try (eexists; reflexivity).
  destruct (contains (u "cm") s0); cbn; [eexists; reflexivity|].
  destruct (contains (u "kg") s0); cbn; eexists; reflexivity.
Qed.

Lemma for_rows_returns (rs : list row) :
  forall (h w : list value) (i : nat),
    Forall two_textual rs ->
    exists df, for_rows measurements_row (frame13 a nm sx bd ci re co noc ms r af h w) i rs = Ok df.
Proof.
  induction rs as [|row rs IH]; intros h w i F.
  - cbn. eexists; reflexivity.
  - inversion F as [|? ? T F']; subst. cbn [for_rows].
    destruct (@measurements_row_returns h w i row T) as [df1 E]. rewrite E. cbn [bind].
    apply measurements_row_frame in E. destruct E as (v0 & v1 & t & _ & ->).
    now apply IH.
Qed.
End LoopReturns.

Lemma textual_strip_in (v : value) : textual (strip_in v).
Proof. destruct v; exact I. Qed.

Lemma rows_of_two_textual (n : nat) (c0 c1 : list value) (rest : list (list value)) :
  Forall textual c0 -> Forall textual c1 ->
  Forall two_textual (rows_of n (c0 :: c1 :: rest)).
Proof.
  cbn [rows_of]. generalize (rows_of n rest) as R. intros R F0. revert c1 R.
  induction F0 as [|x c0 Tx F0 IH]; intros c1 R F1; [constructor|].
  destruct F1 as [|y c1 Ty F1]; [constructor|].
  destruct R as [|t R]; [constructor|]. cbn. constructor.
  - split; assumption.
  - apply (IH c1 R F1).
Qed.

Lemma parse_measurements_returns (a nm sx bd ci re co noc ms r af : Series) :
  dtype_of ms = object ->
  length (values a) = length (values ms) ->
  values ms = [] \/ 2 <= split_width (u "/") (values ms) ->
  exists df, parse_measurements (frame11 a nm sx bd ci re co noc ms r af) = Ok df.
Proof.
  unfold parse_measurements, frame11. intros T L W. cbn.
  unfold str_split_expand, str_accessor.
  destruct ms as [mt M]. cbn in T, L, W. subst mt. cbn.
  unfold iterrows, expanded_strip. cbn [elen ecols].
  destruct W as [->|W].
  - cbn in L. rewrite L. cbn. eexists; reflexivity.
  - destruct (split_width (u "/") M) as [|[|k]]; try lia.
    cbn [seq map].
    match goal with
    | |- context [for_rows _ _ 0 ?rs] =>
        assert (Hl : length rs = length M)
          by (apply rows_of_length; repeat constructor;
              rewrite ?length_map; auto;
              apply Forall_map, Forall_map, Forall_forall; intros;
              now rewrite !length_map);
        assert (Tx : Forall two_textual rs)
          by (apply rows_of_two_textual; apply Forall_map, Forall_forall;
              intros; apply textual_strip_in);
        remember rs as RS eqn:ERS
    end.
    rewrite L, <- Hl.
    match goal with
    | |- context [for_rows _ ?f 0 RS] =>
        change f with (frame13 a nm sx bd ci re co noc
                         (mkSeries object M) r af ([] ++ repeat NA (length RS))
                         ([] ++ repeat NA (length RS)))
    end.
    destruct (@for_rows_returns a nm sx bd ci re co noc (mkSeries object M) r af RS
                ([] ++ repeat NA (length RS)) ([] ++ repeat NA (length RS)) 0 Tx)
      as [df1 E].
    rewrite E. apply for_rows_frame in E; auto. destruct E as [_ ->].
    cbn. eexists; reflexivity.
Qed.

(** X13.  On a frame as section 8 leaves it, with an id column as long as
    the column Measurements, section 9 returns a frame exactly when
    Measurements has dtype object and either the frame has no rows or some
    Measurements text contains a slash. *)
Theorem parse_measurements_returns_exactly_when_the_split_has_two_columns
    (a nm sx bd ci re co noc ms r af : Series) :
  length (values a) = length (values ms) ->
  ((exists df, parse_measurements (frame11 a nm sx bd ci re co noc ms r af) = Ok df)
   <->
   dtype_of ms = object
   /\ (values ms = []
       \/ exists s, In (Str s) (values ms) /\ contains (u "/") s = true)).
Proof.
  intros L. rewrite <- split_width_two by discriminate. split.
  - intros [df H]. apply parse_measurements_frame in H; [|assumption].
    destruct H as (T & W & _). split; [assumption|].
    destruct (values ms); [now left|right; apply W; discriminate].
  - intros [T W]. now apply parse_measurements_returns.
Qed.

(** * The order of the columns of the loaded table *)

Lemma getcol_Permutation (df df' : DataFrame) (c : string) :
  Permutation df df' -> NoDup (columns df) -> getcol df' c = getcol df c.
Proof.
  induction 1 as [|[n s] l l' P IH|[n s] [n' s'] l|l l' l'' P IH P' IH']; intros ND.
  - reflexivity.
  - cbn. inversion ND; subst. now rewrite IH.
  - cbn. destruct (String.eqb n c) eqn:E, (String.eqb n' c) eqn:E'; auto.
    apply String.eqb_eq in E, E'. subst. cbn in ND. inversion ND; subst.
    cbn in *. tauto.
  - rewrite IH', IH; auto.
    unfold columns in *. eapply Permutation_NoDup; [|exact ND].
    now apply Permutation_map.
Qed.

Lemma combine_map_r A B C (f : B -> C) (l : list A) (l' : list B) :
  combine l (map f l') = map (fun p => (fst p, f (snd p))) (combine l l').
Proof.
  revert l'; induction l as [|x l IH]; intros [|y l']; cbn; auto. now rewrite IH.
Qed.

(** The rows of the same columns in another order are the rows with their
    entries rearranged, the same way in every row. *)
Lemma rows_of_Permutation (n : nat) (cols cols' : list (list value)) :
  Permutation cols cols' ->
  exists f : row -> row,
    (forall x y, f x = f y -> x = y)
    /\ rows_of n cols' = map f (rows_of n cols).
Proof.
  induction 1 as [|c l l' P IH|c c' l|l l' l'' P IH P' IH'].
  - exists (fun r => r). split; [auto|]. now rewrite map_id.
  - destruct IH as (f & Inj & E).
    exists (fun r => match r with [] => [] | v :: t => v :: f t end). split.
    + intros [|v t] [|v' t'] H; try discriminate; auto.
      injection H as -> H. now rewrite (Inj _ _ H).
    + cbn [rows_of]. rewrite E, combine_map_r, !map_map. reflexivity.
  - exists (fun r => match r with v :: v' :: t => v' :: v :: t | _ => r end). split.
    + intros [|v [|v' t]] [|w [|w' t']] H; try discriminate; auto; congruence.
    + cbn [rows_of]. generalize (rows_of n l) as R. revert c'.
      induction c as [|x c IH]; intros [|y c'] [|t R]; cbn; auto.
      now rewrite IH.
  - destruct IH as (f & Inj & E), IH' as (g & Inj' & E').
    exists (fun r => g (f r)). split; [auto|].
    now rewrite E', E, map_map.
Qed.

Lemma duplicated_from_map (f : row -> row) (l : list row) :
  (forall x y, f x = f y -> x = y) ->
  forall seen, duplicated_from (map f seen) (map f l) = duplicated_from seen l.
Proof.
  intros Inj. induction l as [|r l IH]; intros seen; cbn; auto.
  destruct (in_dec row_eq_dec (f r) (map f seen)) as [I|I],
           (in_dec row_eq_dec r seen) as [J|J].
  - now rewrite IH.
  - apply in_map_iff in I. destruct I as (x & E & I).
    apply Inj in E. subst. tauto.
  - contradiction I. now apply in_map.
  - now rewrite <- IH.
Qed.

Lemma nrows_Permutation (df df' : DataFrame) :
  Permutation df df' -> rectangular df -> nrows df' = nrows df.
Proof.
  intros P R. destruct df' as [|[n s] df'].
  - apply Permutation_sym, Permutation_nil in P. now subst.
  - unfold rectangular in R. rewrite Forall_forall in R.
    apply (R (n, s)). eapply Permutation_in; [apply Permutation_sym, P|now left].
Qed.

Lemma first_occurrences_Permutation (df df' : DataFrame) :
  Permutation df df' -> rectangular df ->
  first_occurrences df' = first_occurrences df.
Proof.
  intros P R. unfold first_occurrences, duplicated, rows.
  rewrite (nrows_Permutation P R).
  destruct (@rows_of_Permutation (nrows df) _ _
              (Permutation_map (fun p : string * Series => values (snd p)) P))
    as (f & Inj & ->).
  now rewrite (@duplicated_from_map f _ Inj []).
Qed.

Lemma prune_ext (dataset dataset' : DataFrame) :
  (forall c, getcol dataset' c = getcol dataset c) ->
  first_occurrences dataset' = first_occurrences dataset ->
  prune dataset' = prune dataset.
Proof.
  intros G M. unfold prune, drop, drop_duplicates.
  change (map negb (duplicated dataset')) with (first_occurrences dataset').
  change (map negb (duplicated dataset)) with (first_occurrences dataset).
  rewrite M.
  rewrite (forallb_same (has_col (boolean_index dataset' (first_occurrences dataset)))
             (has_col (boolean_index dataset (first_occurrences dataset)))
             dropped_columns).
  2:{ intros c _. now rewrite !has_col_boolean_index, !has_col_getcol, G. }
  destruct (forallb _ dropped_columns); [|reflexivity].
  cbn [bind]. unfold kept_columns. cbn [select].
  rewrite !getcol_filter by reflexivity.
  rewrite !getcol_boolean_index, !G. reflexivity.
Qed.

(** X14.  The order of the columns of the loaded table does not matter: on
    a table with distinct labels and columns of equal length, the notebook
    gives the same result for every rearrangement of the columns. *)
Theorem column_order_of_the_input_does_not_matter (dataset dataset' : DataFrame) :
  rectangular dataset ->
  NoDup (columns dataset) ->
  Permutation dataset dataset' ->
  pipeline dataset' = pipeline dataset.
Proof.
  intros R ND P. unfold pipeline.
  rewrite (@prune_ext dataset dataset'); [reflexivity| |].
  - intros c. now apply getcol_Permutation.
  - now apply first_occurrences_Permutation.
Qed.

(** * The columns that are dropped unread *)

Lemma select_raises_key_error (df : DataFrame) (names : list string) (e : exn) :
  select df names = Raise e -> e = KeyError.
Proof.
  induction names as [|n names IH]; cbn [select]; [discriminate|].
  destruct (getcol df n) eqn:G; cbn [bind].
  - destruct (select df names); cbn [bind]; [discriminate|].
    intros H. injection H as <-. now apply IH.
  - intros H. injection H as <-. exact (getcol_raises_key_error _ _ G).
Qed.

Lemma prune_raises_key_error (dataset : DataFrame) (e : exn) :
  prune dataset = Raise e -> e = KeyError.
Proof.
  unfold prune, drop. destruct (forallb _ dropped_columns); cbn [bind].
  - apply select_raises_key_error.
  - congruence.
Qed.

Lemma parse_born_ignores_died (a nm sx b d d' noc ms r af : Series) :
  parse_born (frame9 a nm sx b d noc ms r af)
  = parse_born (frame9 a nm sx b d' noc ms r af).
Proof.
  unfold parse_born, frame9. cbn. unfold str_split_expand, str_accessor.
  destruct b as [bt B]. destruct bt; cbn; try reflexivity.
  destruct (split_width (u "in") B) as [|[|k1]]; cbn; try reflexivity.
  rewrite !map_map.
  match goal with
  | |- context [split_width (u ",") ?l] =>
      destruct (split_width (u ",") l) as [|[|k2]]; cbn; try reflexivity
  end.
  rewrite !map_map.
  match goal with
  | |- context [split_width (u "(") ?l] =>
      destruct (split_width (u "(") l) as [|[|k3]]; cbn; reflexivity
  end.
Qed.

Lemma clean_name_returns (a fn un sx b d noc ms r af : Series) :
  clean_name (frame10 a fn un sx b d noc ms r af)
  = match dtype_of un with
    | object =>
        Ok (frame9 a (mkSeries object (map (replace_in [BULLET] [SPACE]) (values un)))
              sx b d noc ms r af)
    | _ => Raise AttributeError
    end.
Proof.
  unfold clean_name, frame10. cbn. unfold str_replace, str_accessor.
  destruct (dtype_of un); reflexivity.
Qed.

Lemma prune_transfer (dataset dataset' df : DataFrame) :
  (forall c, In c read_columns -> getcol dataset' c = getcol dataset c) ->
  (forall c, In c unread_columns -> has_col dataset' c = has_col dataset c) ->
  first_occurrences dataset' = first_occurrences dataset ->
  prune dataset = Ok df ->
  exists a fn fn' un sx b d d' noc ms r af,
    df = frame10 a fn un sx b d noc ms r af
    /\ prune dataset' = Ok (frame10 a fn' un sx b d' noc ms r af).
Proof.
  intros G U M P. pose proof (prune_has_dropped _ P) as D.
  apply prune_frame in P.
  destruct P as (a & fn & un & sx & b & d & noc & ms & r & af
                 & Ha & Hfn & Hun & Hsx & Hb & Hd & Hnoc & Hms & Hr & Haf & ->).
  assert (D' : forallb (has_col dataset') dropped_columns = true).
  { rewrite <- D. apply forallb_same. intros c I. apply U.
    unfold unread_columns. apply in_or_app. now left. }
  destruct (@has_col_getcol_ok dataset' "Full name") as [fn' Hfn'].
  { rewrite U by (unfold unread_columns; apply in_or_app; right; cbn; auto).
    now rewrite has_col_getcol, Hfn. }
  destruct (@has_col_getcol_ok dataset' "Died") as [d' Hd'].
  { rewrite U by (unfold unread_columns; apply in_or_app; right; cbn; auto).
    now rewrite has_col_getcol, Hd. }
  rewrite <- G in Ha, Hun, Hsx, Hb, Hnoc, Hms, Hr, Haf by (cbn; auto 10).
  pose proof (prune_forward dataset' D' Ha Hfn' Hun Hsx Hb Hd' Hnoc Hms Hr Haf) as P'.
  cbv zeta in P'. rewrite M in P'.
  do 12 eexists. split; [reflexivity|exact P'].
Qed.

(** X15.  The columns Full name and Died and the six columns that are
    dropped first matter through [drop_duplicates] only: two tables that
    agree on the eight columns that are read, that have the same ones of
    the other eight columns and in which [drop_duplicates] keeps the same
    rows give the same result, output or exception. *)
Theorem unread_columns_matter_through_duplicates_only (dataset dataset' : DataFrame) :
  (forall c, In c read_columns -> getcol dataset' c = getcol dataset c) ->
  (forall c, In c unread_columns -> has_col dataset' c = has_col dataset c) ->
  first_occurrences dataset' = first_occurrences dataset ->
  pipeline dataset' = pipeline dataset.
Proof.
  intros G U M. unfold pipeline.
  destruct (prune dataset) as [df|e] eqn:P; destruct (prune dataset') as [df'|e'] eqn:P'.
  - destruct (@prune_transfer _ _ _ G U M P)
      as (a & fn & fn' & un & sx & b & d & d' & noc & ms & r & af & -> & Q).
    rewrite Q in P'. injection P' as <-. cbn [bind].
    rewrite !clean_name_returns. destruct (dtype_of un); cbn [bind]; try reflexivity.
    now rewrite (parse_born_ignores_died _ _ _ _ d' d).
  - destruct (@prune_transfer _ _ _ G U M P) as (? & ? & ? & ? & ? & ? & ? & ? & ? & ? & ? & ? & _ & Q).
    congruence.
  - assert (G' : forall c, In c read_columns -> getcol dataset c = getcol dataset' c)
      by (intros; symmetry; auto).
    assert (U' : forall c, In c unread_columns -> has_col dataset c = has_col dataset' c)
      by (intros; symmetry; auto).
    destruct (@prune_transfer _ _ _ G' U' (eq_sym M) P') as (? & ? & ? & ? & ? & ? & ? & ? & ? & ? & ? & ? & _ & Q).
    congruence.
  - cbn [bind]. now rewrite (prune_raises_key_error _ P), (prune_raises_key_error _ P').
Qed.

(** * The insert loops *)

Open Scope list_scope.

Lemma get_loc_app (pre post : DataFrame) (c : string) (s : Series) :
  has_col pre c = false -> get_loc (pre ++ (c, s) :: post) c = Ok (length pre).
Proof.
  induction pre as [|[n t] pre IH]; cbn.
  - now rewrite String.eqb_refl.
  - destruct (String.eqb n c); cbn; [discriminate|].
    intros H. now rewrite (IH H).
Qed.

Lemma has_col_app (df df' : DataFrame) (c : string) :
  has_col (df ++ df') c = has_col df c || has_col df' c.
Proof. unfold has_col. apply existsb_app. Qed.

Lemma firstn_length_app A (l l' : list A) : firstn (length l) (l ++ l') = l.
Proof. induction l; cbn; congruence. Qed.

Lemma skipn_length_app A (l l' : list A) : skipn (length l) (l ++ l') = l'.
Proof. induction l; cbn; congruence. Qed.

Lemma insert_after_from (c : string) (s : Series) (e : Expanded) (pre post : DataFrame) :
  has_col pre c = false ->
  forall (ns : list string) (vs : list Series) (mid : DataFrame),
    NoDup ns -> length vs = length ns ->
    (forall n, In n ns -> has_col (pre ++ (c, s) :: mid ++ post) n = false) ->
    (forall j v, nth_error vs j = Some v -> ecol e (length mid + j) = Ok v) ->
    insert_after (pre ++ (c, s) :: mid ++ post) c (length mid) ns e
    = Ok (pre ++ (c, s) :: mid ++ combine ns vs ++ post).
Proof.
  intros Hc. induction ns as [|n ns IH]; intros vs mid ND L Hn He.
  - destruct vs; [reflexivity|discriminate].
  - destruct vs as [|v vs]; [discriminate|]. cbn [insert_after combine].
    rewrite get_loc_app by assumption. cbn [bind].
    pose proof (He 0 v eq_refl) as E0. rewrite Nat.add_0_r in E0.
    rewrite E0. cbn [bind]. unfold insert.
    rewrite (Hn n (or_introl eq_refl)).
    assert (E : pre ++ (c, s) :: mid ++ post = (pre ++ (c, s) :: mid) ++ post)
      by now rewrite <- app_assoc.
    assert (Len : length pre + 1 + length mid = length (pre ++ (c, s) :: mid))
      by (rewrite length_app; cbn; lia).
    rewrite Len, E, firstn_length_app, skipn_length_app.
    replace (Nat.leb (length (pre ++ (c, s) :: mid)) (length ((pre ++ (c, s) :: mid) ++ post)))
      with true by (symmetry; apply Nat.leb_le; rewrite (length_app _ post); lia).
    cbn [bind].
    replace ((pre ++ (c, s) :: mid) ++ (n, v) :: post)
      with (pre ++ (c, s) :: (mid ++ [(n, v)]) ++ post)
      by (rewrite <- !app_assoc; reflexivity).
    replace (S (length mid)) with (length (mid ++ [(n, v)]))
      by (rewrite length_app; cbn; lia).
    inversion ND as [|? ? Nn ND']; subst.
    rewrite (IH vs); auto.
    + rewrite <- !app_assoc. reflexivity.
    + intros n' I. specialize (Hn n' (or_intror I)).
      assert (Q : String.eqb n n' = false)
        by (apply String.eqb_neq; intros ->; contradiction).
      revert Hn. unfold has_col. rewrite !existsb_app. cbn [existsb fst].
      rewrite !existsb_app. cbn [existsb fst]. rewrite Q.
      destruct (existsb _ pre), (String.eqb c n'), (existsb _ mid), (existsb _ post);
        cbn; congruence.
    + intros j w Hj. rewrite length_app. cbn [length].
      replace (length mid + 1 + j) with (length mid + S j) by lia.
      now apply He.
Qed.

(** X16.  The insert loop puts the new columns directly behind the source
    column, in the order of their names and each with the column of the
    split at its position, and leaves the other columns where they are:
    when the labels before the source column differ from its label, the
    new labels are distinct and not yet in the frame, and the split has a
    column for each of them. *)
Theorem insert_loop_puts_the_new_columns_behind_the_source_column
    (pre post : DataFrame) (c : string) (s : Series) (e : Expanded)
    (ns : list string) (vs : list Series) :
  has_col pre c = false ->
  NoDup ns -> length vs = length ns ->
  (forall n, In n ns -> has_col (pre ++ (c, s) :: post) n = false) ->
  (forall j v, nth_error vs j = Some v -> ecol e j = Ok v) ->
  insert_after (pre ++ (c, s) :: post) c 0 ns e
  = Ok (pre ++ (c, s) :: combine ns vs ++ post).
Proof.
  intros Hc ND L Hn He.
  exact (@insert_after_from c s e pre post Hc ns vs [] ND L Hn He).
Qed.

(** X17.  The insert loop cannot run twice: on the frame it has produced,
    the same loop raises ValueError, because its first label is already a
    column. *)
Theorem insert_loop_cannot_run_twice
    (pre post : DataFrame) (c : string) (s : Series) (e : Expanded)
    (ns : list string) (vs : list Series) :
  has_col pre c = false ->
  ns <> [] -> length vs = length ns ->
  (forall j v, nth_error vs j = Some v -> ecol e j = Ok v) ->
  insert_after (pre ++ (c, s) :: combine ns vs ++ post) c 0 ns e
  = Raise ValueError.
Proof.
  intros Hc N L He. destruct ns as [|n ns]; [congruence|].
  destruct vs as [|v vs]; [discriminate|]. cbn [insert_after combine].
  rewrite get_loc_app by assumption. cbn [bind].
  rewrite (He 0 v eq_refl). cbn [bind]. unfold insert.
  replace (has_col (pre ++ (c, s) :: ((n, v) :: combine ns vs) ++ post) n) with true;
    [reflexivity|].
  unfold has_col. rewrite existsb_app. cbn [existsb fst app].
  rewrite String.eqb_refl. now rewrite !orb_true_r.
Qed.

(** * Python's string methods *)

Lemma startswith_app (p s : str) :
  startswith p s = true -> s = p ++ skipn (length p) s.
Proof.
  revert s; induction p as [|a p IH]; intros [|b s]; cbn; try discriminate; auto.
  intros H. apply andb_true_iff in H. destruct H as [E H].
  apply N.eqb_eq in E. subst. now rewrite <- (IH s H).
Qed.

Lemma startswith_length (p s : str) :
  startswith p s = true -> length p <= length s.
Proof.
  revert s; induction p as [|a p IH]; intros [|b s]; cbn; try discriminate; try lia.
  intros H. apply andb_true_iff in H. destruct H as [_ H].
  specialize (IH s H). lia.
Qed.

Lemma join_cons_char (sep : str) (c : char) (f : str) (fs : list str) :
  join sep ((c :: f) :: fs) = c :: join sep (f :: fs).
Proof. cbn. destruct fs; reflexivity. Qed.

Lemma join_empty_first (sep : str) (l : list str) :
  l <> [] -> join sep ([] :: l) = sep ++ join sep l.
Proof. destruct l; [congruence|reflexivity]. Qed.

Lemma join_split_from (sep s : str) :
  sep <> [] ->
  forall k, k <= length s -> join sep (split_from sep k s) = skipn k s.
Proof.
  intros N. induction s as [|c s IH]; intros k Hk.
  - cbn in Hk. assert (k = 0) by lia. subst. reflexivity.
  - destruct k as [|k].
    + cbn [split_from skipn]. destruct (startswith sep (c :: s)) eqn:E.
      * pose proof (startswith_length _ _ E) as Le.
        pose proof (startswith_app _ _ E) as A.
        destruct sep as [|a sep]; [congruence|].
        replace (length (a :: sep) - 1) with (length sep) by (cbn [length]; lia).
        cbn [length] in *.
        rewrite join_empty_first by apply split_from_nonempty.
        rewrite IH by lia.
        cbn [skipn] in A. symmetry. exact A.
      * pose proof (@split_from_nonempty sep s 0) as NE.
        destruct (split_from sep 0 s) as [|f fs] eqn:F; [congruence|].
        rewrite join_cons_char, <- F, IH by lia. reflexivity.
    + cbn [split_from skipn]. apply IH. cbn in Hk. lia.
Qed.

(** X18.  [split] loses no text: the fragments of a text, joined with the
    separator, give the text back, for every non-empty separator. *)
Theorem split_loses_no_text (sep s : str) :
  sep <> [] -> join sep (split sep s) = s.
Proof.
  intros N. unfold split. rewrite join_split_from by (assumption || lia).
  reflexivity.
Qed.

Lemma replace_from_join (old new s : str) :
  forall k, replace_from old new k s = join new (split_from old k s).
Proof.
  induction s as [|c s IH]; intros k; [reflexivity|].
  cbn [replace_from split_from]. destruct k as [|k]; [|apply IH].
  destruct (startswith old (c :: s)).
  - rewrite IH. symmetry. apply join_empty_first, split_from_nonempty.
  - rewrite IH.
    pose proof (@split_from_nonempty old s 0) as NE.
    destruct (split_from old 0 s) as [|f fs]; [congruence|].
    now rewrite join_cons_char.
Qed.

(** X19.  [replace] agrees with [split]: replacing a non-empty pattern in a
    text gives the fragments of the split at the pattern, joined with the
    replacement. *)
Theorem replace_joins_the_fragments_of_split (old new s : str) :
  old <> [] -> replace old new s = join new (split old s).
Proof. intros _. apply replace_from_join. Qed.

Lemma lstrip_spec (s : str) :
  exists l, s = l ++ lstrip s /\ forallb isspace l = true
            /\ match lstrip s with [] => True | c :: _ => isspace c = false end.
Proof.
  induction s as [|c s (l & E & F & H)].
  - exists []. cbn. auto.
  - cbn [lstrip]. destruct (isspace c) eqn:W.
    + exists (c :: l). cbn. rewrite W, F. repeat split; auto. now rewrite <- E.
    + exists []. cbn. auto.
Qed.

Lemma lstrip_fixed (s : str) :
  match s with [] => True | c :: _ => isspace c = false end -> lstrip s = s.
Proof. destruct s as [|c s]; cbn; auto. now intros ->. Qed.

Lemma last_app_nonempty A (l l' : list A) (d : A) :
  l' <> [] -> last (l ++ l') d = last l' d.
Proof.
  intros N. induction l as [|x l IH]; auto.
  cbn [app]. rewrite <- IH. cbn. destruct (l ++ l') eqn:E; auto.
  apply app_eq_nil in E. destruct E; congruence.
Qed.

(** X20.  [strip] removes white space at the two ends only: the text is the
    stripped text between two runs of white space, the stripped text
    neither begins nor ends with white space, and stripping it again
    changes nothing. *)
Theorem strip_removes_white_space_at_both_ends_only (s : str) :
  exists l t,
    s = l ++ strip s ++ t
    /\ forallb isspace l = true /\ forallb isspace t = true
    /\ match strip s with
       | [] => True
       | c :: _ => isspace c = false /\ isspace (last (strip s) c) = false
       end
    /\ strip (strip s) = strip s.
Proof.
  unfold strip.
  destruct (lstrip_spec s) as (l & E & F & H).
  destruct (lstrip_spec (rev (lstrip s))) as (t & E' & F' & H').
  set (m := lstrip (rev (lstrip s))) in *.
  assert (Em : lstrip s = rev m ++ rev t).
  { rewrite <- (rev_involutive (lstrip s)), E', rev_app_distr. reflexivity. }
  assert (Hd : match rev m with [] => True | c :: _ => isspace c = false end).
  { destruct (rev m) as [|c r] eqn:R; [exact I|].
    rewrite Em in H. exact H. }
  assert (Fix : lstrip (rev m) = rev m) by now apply lstrip_fixed.
  exists l, (rev t). repeat split.
  - now rewrite <- Em.
  - assumption.
  - rewrite forallb_forall in *. intros x Hx. apply F'. now apply in_rev.
  - destruct (rev m) as [|c r] eqn:R; [exact I|]. split; [exact Hd|].
    destruct m as [|x m'] eqn:M.
    + discriminate R.
    + rewrite <- R. cbn [rev]. rewrite last_last. exact H'.
  - rewrite Fix, rev_involutive. fold m. now rewrite lstrip_fixed.
Qed.

(** * Birth texts of the usual form *)

Lemma startswith_self_app (p s : str) : startswith p (p ++ s) = true.
Proof.
  induction p as [|a p IH]; cbn; [now destruct s|]. now rewrite N.eqb_refl.
Qed.

Lemma split_from_skip (sep p s : str) :
  split_from sep (length p) (p ++ s) = split_from sep 0 s.
Proof.
  induction p as [|a p IH]; [reflexivity|]. cbn [length app split_from]. exact IH.
Qed.

(** A separator that matches nowhere before the end of [a] cuts [a] off. *)
Lemma split_app_sep (sep a b : str) :
  sep <> [] ->
  (forall k, k < length a -> startswith sep (skipn k a ++ sep ++ b) = false) ->
  split sep (a ++ sep ++ b) = a :: split sep b.
Proof.
  intros N. unfold split. induction a as [|c a IH]; intros H.
  - destruct sep as [|h t]; [congruence|].
    cbn [app]. change (h :: t ++ b) with ((h :: t) ++ b).
    change (split_from (h :: t) 0 ((h :: t) ++ b))
      with (if startswith (h :: t) ((h :: t) ++ b)
            then [] :: split_from (h :: t) (length (h :: t) - 1) (t ++ b)
            else match split_from (h :: t) 0 (t ++ b) with
                 | f :: fs => (h :: f) :: fs
                 | [] => [[h]]
                 end).
    rewrite startswith_self_app.
    replace (length (h :: t) - 1) with (length t) by (cbn [length]; lia).
    now rewrite split_from_skip.
  - assert (H0 : startswith sep (c :: a ++ sep ++ b) = false)
      by (apply (H 0); cbn; lia).
    cbn [app split_from]. rewrite H0.
    rewrite IH; [reflexivity|].
    intros k Hk. apply (H (S k)). cbn. lia.
Qed.

(** Characters that differ from the first character of the pattern are
    passed over. *)
Lemma startswith_other (h : char) (t s : str) (c : char) :
  (h =? c)%N = false -> startswith (h :: t) (c :: s) = false.
Proof. intros E. cbn. now rewrite E. Qed.

Lemma replace_from_pass (h : char) (t new a b : str) :
  Forall (fun c => (h =? c)%N = false) a ->
  replace_from (h :: t) new 0 (a ++ b) = a ++ replace_from (h :: t) new 0 b.
Proof.
  induction 1 as [|c a E F IH]; [reflexivity|].
  cbn [app replace_from]. rewrite (@startswith_other _ _ _ _ E). now rewrite IH.
Qed.

Lemma contains_pass (h : char) (t a b : str) :
  b <> [] ->
  Forall (fun c => (h =? c)%N = false) a ->
  contains (h :: t) (a ++ b) = contains (h :: t) b.
Proof.
  intros N. induction 1 as [|c a E F IH]; [reflexivity|].
  cbn [app contains]. rewrite (@startswith_other _ _ _ _ E). exact IH.
Qed.

Lemma matchless_pass (h : char) (t a tail : str) :
  Forall (fun c => (h =? c)%N = false) a -> matchless (h :: t) a tail.
Proof.
  intros F. induction F as [|c a E F IH]; intros k Hk; [cbn in Hk; lia|].
  destruct k as [|k].
  - cbn [skipn app]. now apply startswith_other.
  - cbn [skipn]. apply IH. cbn in Hk. lia.
Qed.

Lemma matchless_cons (sep : str) (c : char) (a tail : str) :
  startswith sep (c :: a ++ tail) = false ->
  matchless sep a tail -> matchless sep (c :: a) tail.
Proof.
  intros H M [|k] Hk; [exact H|]. cbn [skipn]. apply M. cbn in Hk. lia.
Qed.

Lemma matchless_nil (sep tail : str) : matchless sep [] tail.
Proof. intros k Hk. cbn in Hk. lia. Qed.

Lemma matchless_app (sep a b tail : str) :
  matchless sep a (b ++ tail) -> matchless sep b tail ->
  matchless sep (a ++ b) tail.
Proof.
  intros Ma Mb. induction a as [|c a IH]; [exact Mb|].
  cbn [app]. apply matchless_cons.
  - specialize (Ma 0). cbn [skipn length app] in Ma. rewrite <- app_assoc.
    apply Ma. lia.
  - apply IH. intros k Hk. apply (Ma (S k)). cbn. lia.
Qed.

Lemma isdigit_differs (h c : char) :
  isdigit c = true -> ((h <? 48) || (57 <? h))%N = true -> (h =? c)%N = false.
Proof.
  unfold isdigit. intros D H. apply andb_true_iff in D. destruct D as [D1 D2].
  apply N.leb_le in D1, D2. apply N.eqb_neq. intros ->.
  apply orb_true_iff in H. destruct H as [H|H]; apply N.ltb_lt in H; lia.
Qed.

Lemma digits_differ (h : char) (d : str) :
  forallb isdigit d = true -> ((h <? 48) || (57 <? h))%N = true ->
  Forall (fun c => (h =? c)%N = false) d.
Proof.
  intros D H. apply Forall_forall. intros c I.
  rewrite forallb_forall in D. apply isdigit_differs; auto.
Qed.

Lemma born_text_parts (d : str) (m : nat) (y city region country : str) :
  born_text d m y city region country
  = date_part d m y ++ u "in" ++ place_part city region country.
Proof.
  unfold born_text, date_part, place_part.
  change (u " ") with [SPACE]. change (u " in ") with (SPACE :: u "in" ++ [SPACE]).
  change (u ", ") with [COMMA; SPACE]. change (u " (") with [SPACE; LPAREN].
  change (u ")") with [RPAREN].
  repeat (rewrite <- ?app_assoc; cbn [app]). reflexivity.
Qed.

Ltac month_cases m H :=
  let E := fresh "E" in
  assert (E : m = 1 \/ m = 2 \/ m = 3 \/ m = 4 \/ m = 5 \/ m = 6 \/ m = 7
              \/ m = 8 \/ m = 9 \/ m = 10 \/ m = 11 \/ m = 12) by lia;
  clear H;
  repeat (destruct E as [E|E]; [subst m|]); try subst m.

Lemma date_part_matchless (d : str) (m : nat) (y tail : str) :
  1 <= m <= 12 ->
  forallb isdigit d = true -> forallb isdigit y = true ->
  matchless (u "in") (date_part d m y) (u "in" ++ tail).
Proof.
  intros Hm Hd Hy. unfold date_part.
  change (u "in") with [105; 110]%N.
  apply matchless_app; [apply matchless_pass, digits_differ; auto|].
  month_cases m Hm.
  all: match goal with
       | |- context [month_name ?k] =>
           let v := eval vm_compute in (month_name k) in
           change (month_name k) with v
       end.
  all: cbn [app].
  all: repeat (apply matchless_cons; [reflexivity|]).
  all: apply matchless_app; [apply matchless_pass, digits_differ; auto|].
  all: apply matchless_cons; [reflexivity|apply matchless_nil].
Qed.

Lemma contains_app_char (a b c : char) (x z : str) :
  contains [a; b] x = false -> contains [a; b] (c :: z) = false ->
  (b =? c)%N = false ->
  contains [a; b] (x ++ c :: z) = false.
Proof.
  intros Hx Hz Hc. induction x as [|e x IH]; [exact Hz|].
  cbn [contains] in Hx. apply orb_false_iff in Hx. destruct Hx as [H1 H2].
  cbn [app contains]. rewrite (IH H2), orb_false_r.
  destruct x as [|f x]; cbn in *.
  - rewrite Hc. cbn. apply andb_false_r.
  - exact H1.
Qed.

Lemma contains_step (sep : str) (c : char) (s : str) :
  startswith sep (c :: s) = false -> contains sep s = false ->
  contains sep (c :: s) = false.
Proof. intros H1 H2. cbn [contains]. now rewrite H1, H2. Qed.

Lemma place_part_has_no_in (city region country : str) :
  contains (u "in") city = false -> contains (u "in") region = false ->
  contains (u "in") country = false ->
  contains (u "in") (place_part city region country) = false.
Proof.
  change (u "in") with [105; 110]%N. intros Hc Hr Hk. unfold place_part.
  apply contains_step; [reflexivity|].
  apply contains_app_char; [assumption| |reflexivity].
  apply contains_step; [reflexivity|].
  apply contains_step; [reflexivity|].
  apply contains_app_char; [assumption| |reflexivity].
  apply contains_step; [reflexivity|].
  apply contains_step; [reflexivity|].
  apply contains_app_char; [assumption|reflexivity|reflexivity].
Qed.

Lemma born_text_split (d : str) (m : nat) (y city region country : str) :
  1 <= m <= 12 ->
  forallb isdigit d = true -> forallb isdigit y = true ->
  contains (u "in") city = false -> contains (u "in") region = false ->
  contains (u "in") country = false ->
  split (u "in") (born_text d m y city region country)
  = [date_part d m y; place_part city region country].
Proof.
  intros Hm Hd Hy Hc Hr Hk. rewrite born_text_parts.
  rewrite split_app_sep.
  - now rewrite (split_without_separator _ _ (place_part_has_no_in _ _ _ Hc Hr Hk)).
  - discriminate.
  - now apply date_part_matchless.
Qed.

Lemma replace_pass (h : char) (t new a b : str) :
  Forall (fun c => (h =? c)%N = false) a ->
  replace (h :: t) new (a ++ b) = a ++ replace (h :: t) new b.
Proof. apply replace_from_pass. Qed.

Lemma replace_from_skip (old new p s : str) :
  replace_from old new (length p) (p ++ s) = replace_from old new 0 s.
Proof.
  induction p as [|a p IH]; [reflexivity|]. cbn [length app replace_from]. exact IH.
Qed.

Lemma replace_match (old new rest : str) :
  old <> [] -> replace old new (old ++ rest) = new ++ replace old new rest.
Proof.
  intros N. destruct old as [|h t]; [congruence|]. unfold replace.
  change (replace_from (h :: t) new 0 ((h :: t) ++ rest))
    with (if startswith (h :: t) ((h :: t) ++ rest)
          then new ++ replace_from (h :: t) new (length (h :: t) - 1) (t ++ rest)
          else h :: replace_from (h :: t) new 0 (t ++ rest)).
  rewrite startswith_self_app.
  replace (length (h :: t) - 1) with (length t) by (cbn [length]; lia).
  now rewrite replace_from_skip.
Qed.

Lemma replace_step_yes (h : char) (t new : str) (c : char) (s : str) :
  startswith (h :: t) (c :: s) = true ->
  replace (h :: t) new (c :: s)
  = new ++ replace (h :: t) new (skipn (length (h :: t)) (c :: s)).
Proof.
  intros H. pose proof (startswith_app _ _ H) as E.
  rewrite E at 1. apply replace_match. discriminate.
Qed.

Lemma replace_step_no (old new : str) (c : char) (s : str) :
  startswith old (c :: s) = false ->
  replace old new (c :: s) = c :: replace old new s.
Proof. intros H. unfold replace. cbn [replace_from]. now rewrite H. Qed.

Lemma replace_nil (old new : str) : replace old new [] = [].
Proof. reflexivity. Qed.

Ltac pass_digits d Hd :=
  rewrite (@replace_pass _ _ _ d _) by (apply digits_differ; [exact Hd|reflexivity]).

Ltac replace_month d y Hd Hy :=
  pass_digits d Hd;
  repeat first [ rewrite replace_step_no by reflexivity
               | rewrite replace_step_yes by reflexivity; cbn [length skipn app] ];
  pass_digits y Hy;
  rewrite replace_step_no by reflexivity; rewrite replace_nil.

Lemma months_are_coded (d : str) (m : nat) (y : str) :
  1 <= m <= 12 ->
  forallb isdigit d = true -> forallb isdigit y = true ->
  fold_left (fun acc p => replace (fst p) (snd p) acc) month_codes (date_part d m y)
  = d ++ SPACE :: month_code m ++ SPACE :: y ++ [SPACE].
Proof.
  intros Hm Hd Hy. unfold date_part.
  month_cases m Hm.
  all: match goal with
       | |- context [month_name ?k] =>
           let v := eval vm_compute in (month_name k) in
           change (month_name k) with v;
           let w := eval vm_compute in (month_code k) in
           change (month_code k) with w
       end.
  all: let v := eval vm_compute in month_codes in change month_codes with v.
  all: cbn [fold_left fst snd app].
  all: do 12 replace_month d y Hd Hy.
  all: reflexivity.
Qed.

Lemma lstrip_spaces_app (l s : str) :
  forallb isspace l = true -> lstrip (l ++ s) = lstrip s.
Proof.
  induction l as [|c l IH]; [reflexivity|]. cbn [forallb app lstrip].
  intros H. apply andb_true_iff in H. destruct H as [H1 H2]. now rewrite H1, IH.
Qed.

Lemma lstrip_spaces (l : str) : forallb isspace l = true -> lstrip l = [].
Proof.
  intros H. rewrite <- (app_nil_r l). now rewrite lstrip_spaces_app.
Qed.

(** [strip] cuts exactly the white space around a text that neither begins
    nor ends with white space. *)
Lemma strip_sandwich (l mid t : str) :
  forallb isspace l = true -> forallb isspace t = true ->
  no_leading_space mid -> no_leading_space (rev mid) ->
  strip (l ++ mid ++ t) = mid.
Proof.
  intros Hl Ht Hm Hr. unfold strip. rewrite lstrip_spaces_app by assumption.
  destruct mid as [|c mid].
  - cbn [app]. rewrite (@lstrip_spaces t Ht). reflexivity.
  - rewrite (lstrip_fixed ((c :: mid) ++ t)) by exact Hm.
    rewrite rev_app_distr, lstrip_spaces_app.
    + rewrite lstrip_fixed by exact Hr. apply rev_involutive.
    + rewrite forallb_forall in *. intros x Hx. apply Ht. now apply in_rev.
Qed.

Lemma isdigit_not_space (c : char) : isdigit c = true -> isspace c = false.
Proof.
  unfold isdigit, isspace. intros D. apply andb_true_iff in D. destruct D as [D1 D2].
  apply N.leb_le in D1, D2.
  repeat match goal with
         | |- context [(?a <=? c)%N] => destruct (N.leb_spec a c); try lia
         | |- context [(c <=? ?a)%N] => destruct (N.leb_spec c a); try lia
         | |- context [(c =? ?a)%N] => destruct (N.eqb_spec c a); try lia
         end.
  all: reflexivity.
Qed.

Lemma no_leading_space_digits (d s : str) :
  d <> [] -> forallb isdigit d = true -> no_leading_space (d ++ s).
Proof.
  destruct d as [|c d]; [congruence|]. cbn. intros _ H.
  apply andb_true_iff in H. now apply isdigit_not_space.
Qed.

Lemma forallb_rev A (f : A -> bool) (l : list A) :
  forallb f (rev l) = forallb f l.
Proof.
  induction l as [|x l IH]; [reflexivity|]. cbn.
  rewrite forallb_app, IH. cbn. rewrite andb_true_r. apply andb_comm.
Qed.

Lemma split_char_app (c : char) (a b : str) :
  ~ In c a -> split [c] (a ++ c :: b) = a :: split [c] b.
Proof.
  intros H. change (a ++ c :: b) with (a ++ [c] ++ b).
  apply split_app_sep; [discriminate|].
  apply matchless_pass. apply Forall_forall. intros x Hx.
  apply N.eqb_neq. intros ->. contradiction.
Qed.

Lemma without_app (c : char) (a b : str) :
  without c (a ++ b) = without c a ++ without c b.
Proof. apply filter_app. Qed.

Lemma without_absent (c : char) (s : str) : ~ In c s -> without c s = s.
Proof.
  unfold without. induction s as [|x s IH]; [reflexivity|]. cbn. intros H.
  destruct (N.eqb_spec x c) as [->|N]; [tauto|]. cbn. rewrite IH; tauto.
Qed.

Lemma digit_absent (c : char) (d : str) :
  forallb isdigit d = true -> ((c <? 48) || (57 <? c))%N = true -> ~ In c d.
Proof.
  intros D H I. pose proof (@digits_differ _ _ D H) as F.
  rewrite Forall_forall in F. specialize (F c I). now rewrite N.eqb_refl in F.
Qed.

Lemma replace_whole_other (old new v : value) :
  v <> old -> replace_whole old new v = v.
Proof. intros N. unfold replace_whole. now destruct (value_eq_dec v old). Qed.

Lemma day_field_nonempty (d : str) (dd : Z) : day_field d = Some dd -> d <> [].
Proof. destruct d; discriminate. Qed.

Lemma year_field_digits (y : str) (yy : Z) :
  year_field y = Some yy -> forallb isdigit y = true /\ y <> [].
Proof.
  unfold year_field. destruct y as [|a [|b [|c [|e [|? ?]]]]]; try discriminate.
  destruct (forallb isdigit [a; b; c; e]); [split; [reflexivity|discriminate]|discriminate].
Qed.

Lemma born_date_of_text (d : str) (m : nat) (y city region country : str) (dd yy : Z) :
  1 <= m <= 12 ->
  forallb isdigit d = true -> day_field d = Some dd -> year_field y = Some yy ->
  valid_date (mkDate yy (Z.of_nat m) dd) && in_bounds (mkDate yy (Z.of_nat m) dd) = true ->
  contains (u "in") city = false -> contains (u "in") region = false ->
  contains (u "in") country = false ->
  born_date_text (Str (born_text d m y city region country))
  = Str (d ++ month_code m ++ y)
  /\ born_date (Str (born_text d m y city region country))
     = Date (mkDate yy (Z.of_nat m) dd).
Proof.
  intros Hm Hd Dd Yy V Hc Hr Hk.
  destruct (@year_field_digits _ _ Yy) as [Hy Ny].
  pose proof (@day_field_nonempty _ _ Dd) as Nd.
  assert (T : born_date_text (Str (born_text d m y city region country))
              = Str (d ++ month_code m ++ y)).
  { unfold born_date_text, parts_of. rewrite born_text_split by assumption.
    unfold part. cbn [nth_error]. unfold replace_each.
    rewrite months_are_coded by assumption.
    unfold strip_in, str_map.
    replace (strip (d ++ SPACE :: month_code m ++ SPACE :: y ++ [SPACE]))
      with (d ++ SPACE :: month_code m ++ SPACE :: y).
    2:{ symmetry.
        replace (d ++ SPACE :: month_code m ++ SPACE :: y ++ [SPACE])
          with ([] ++ (d ++ SPACE :: month_code m ++ SPACE :: y) ++ [SPACE])
          by (cbn [app]; rewrite <- !app_assoc; cbn [app];
              rewrite <- !app_assoc; reflexivity).
        apply strip_sandwich; try reflexivity.
        - now apply no_leading_space_digits.
        - replace (rev (d ++ SPACE :: month_code m ++ SPACE :: y))
            with (rev y ++ rev (d ++ SPACE :: month_code m ++ [SPACE])).
          + apply no_leading_space_digits.
            * intros E. apply (f_equal (@rev char)) in E.
              rewrite rev_involutive in E. now apply Ny.
            * now rewrite forallb_rev.
          + rewrite <- rev_app_distr. f_equal.
            rewrite <- !app_assoc. cbn [app]. rewrite <- !app_assoc. reflexivity. }
    rewrite replace_whole_other.
    2:{ intros E. injection E as E. apply (f_equal (@length char)) in E.
        change (u " ") with [SPACE] in E.
        rewrite length_app in E. cbn [length] in E. destruct d; [congruence|].
        cbn [length] in E. lia. }
    unfold replace_in, str_map. change (u " ") with [SPACE].
    rewrite replace_char_removed. fold (without SPACE (d ++ SPACE :: month_code m ++ SPACE :: y)).
    rewrite without_app, (@without_absent SPACE d)
      by (apply digit_absent; [assumption|reflexivity]).
    f_equal. f_equal.
    month_cases m Hm.
    all: match goal with
         | |- context [month_code ?k] =>
             let w := eval vm_compute in (month_code k) in
             change (month_code k) with w
         end.
    all: cbn [app]; unfold without; cbn; fold (without SPACE y).
    all: now rewrite (@without_absent SPACE y)
           by (apply digit_absent; [assumption|reflexivity]). }
  split; [exact T|].
  unfold born_date. rewrite T. unfold to_datetime_value, to_datetime_str.
  assert (Ad : ~ In DASH d) by (apply digit_absent; [assumption|reflexivity]).
  assert (Ay : ~ In DASH y) by (apply digit_absent; [assumption|reflexivity]).
  month_cases m Hm.
  all: match goal with
       | |- context [month_code ?k] =>
           let w := eval vm_compute in (month_code k) in
           change (month_code k) with w
       end.
  all: match goal with
       | |- context [Z.of_nat ?k] =>
           let w := eval vm_compute in (Z.of_nat k) in
           change (Z.of_nat k) with w in *
       end.
  all: cbn [app].
  all: match goal with
       | |- context [split [DASH] (?d0 ++ _ :: ?a :: ?b :: _ :: ?y0)] =>
           change (split [DASH] (d0 ++ 45%N :: a :: b :: 45%N :: y0))
             with (split [DASH] (d0 ++ DASH :: [a; b] ++ DASH :: y0))
       end.
  all: rewrite (@split_char_app DASH d _ Ad).
  all: rewrite split_char_app by (cbn; intuition discriminate).
  all: rewrite (@split_char_absent DASH y Ay).
  all: rewrite Dd, Yy.
  all: cbn [month_field].
  all: cbn -[valid_date in_bounds].
  all: now rewrite V.
Qed.

Lemma without_keeps_absent (c x : char) (s : str) :
  ~ In x s -> ~ In x (without c s).
Proof. unfold without. intros H I. apply filter_In in I. tauto. Qed.

Lemma born_location_of_place (born before city region country : str) :
  split (u "in") born = [before; place_part city region country] ->
  no_leading_space city ->
  born_location (Str born)
  = Str (without SPACE city ++ COMMA :: without SPACE region
           ++ LPAREN :: without SPACE country ++ [RPAREN]).
Proof.
  intros Sp Lc.
  unfold born_location, parts_of. rewrite Sp.
  unfold part. cbn [nth_error]. unfold strip_in, str_map.
  set (loc := city ++ COMMA :: SPACE :: region ++ SPACE :: LPAREN :: country ++ [RPAREN]).
  replace (strip (place_part city region country)) with loc.
  2:{ symmetry. unfold place_part.
      change (SPACE :: city ++ COMMA :: SPACE :: region ++ SPACE :: LPAREN :: country ++ [RPAREN])
        with ([SPACE] ++ loc).
      rewrite <- (app_nil_r loc) at 1.
      apply strip_sandwich; try reflexivity.
      - unfold loc. destruct city; [reflexivity|exact Lc].
      - unfold loc.
        replace (city ++ COMMA :: SPACE :: region ++ SPACE :: LPAREN :: country ++ [RPAREN])
          with ((city ++ COMMA :: SPACE :: region ++ SPACE :: LPAREN :: country) ++ [RPAREN])
          by (rewrite <- !app_assoc; cbn [app]; rewrite <- !app_assoc; reflexivity).
        rewrite rev_unit. reflexivity. }
  rewrite replace_whole_other.
  2:{ intros E. injection E as E. change (u " ") with [SPACE] in E.
      assert (I : In COMMA loc) by (unfold loc; apply in_or_app; right; now left).
      rewrite E in I. cbn in I. intuition discriminate. }
  unfold replace_in, str_map. change (u " ") with [SPACE].
  rewrite replace_char_removed. fold (without SPACE loc). unfold loc.
  f_equal. rewrite without_app. f_equal.
  unfold without at 1. cbn [filter N.eqb Pos.eqb negb COMMA SPACE].
  fold (without SPACE (region ++ SPACE :: LPAREN :: country ++ [RPAREN])).
  f_equal. rewrite without_app. f_equal.
  unfold without at 1. cbn [filter N.eqb Pos.eqb negb LPAREN SPACE].
  fold (without SPACE (country ++ [RPAREN])).
  f_equal. rewrite without_app. reflexivity.
Qed.

Lemma born_place_of_place (text before city region country : str) :
  split (u "in") text = [before; place_part city region country] ->
  no_leading_space city ->
  ~ In COMMA city -> ~ In COMMA region -> ~ In COMMA country ->
  ~ In LPAREN region -> ~ In LPAREN country ->
  let born := Str text in
  born_city born = Str (without SPACE city)
  /\ born_region born = Str (without SPACE region)
  /\ born_country born = Str (without RPAREN (without SPACE country)).
Proof.
  intros Sp Lc Cc Cr Ck Pr Pk born.
  assert (RC : born_region_country born
               = Str (without SPACE region ++ LPAREN :: without SPACE country ++ [RPAREN])).
  { unfold born_region_country, born. rewrite (@born_location_of_place _ _ _ _ _ Sp Lc).
    unfold parts_of. change (u ",") with [COMMA].
    rewrite split_char_app by now apply without_keeps_absent.
    rewrite split_char_absent; [reflexivity|].
    intros I. apply in_app_or in I. destruct I as [I|[I|I]].
    - revert I. now apply without_keeps_absent.
    - discriminate I.
    - apply in_app_or in I. destruct I as [I|[I|[]]].
      + revert I. now apply without_keeps_absent.
      + discriminate I. }
  assert (S0 : split [LPAREN] (without SPACE region ++ LPAREN :: without SPACE country ++ [RPAREN])
               = [without SPACE region; without SPACE country ++ [RPAREN]]).
  { rewrite split_char_app by now apply without_keeps_absent.
    rewrite split_char_absent; [reflexivity|].
    intros I. apply in_app_or in I. destruct I as [I|[I|[]]].
    - revert I. now apply without_keeps_absent.
    - discriminate I. }
  repeat split.
  - unfold born_city, born. rewrite (@born_location_of_place _ _ _ _ _ Sp Lc).
    unfold parts_of. change (u ",") with [COMMA].
    rewrite split_char_app by now apply without_keeps_absent. reflexivity.
  - unfold born_region. rewrite RC. unfold parts_of. change (u "(") with [LPAREN].
    rewrite S0. reflexivity.
  - unfold born_country. rewrite RC. unfold parts_of. change (u "(") with [LPAREN].
    rewrite S0. unfold part. cbn [nth_error]. unfold replace_in, str_map.
    change (u ")") with [RPAREN]. rewrite replace_char_removed.
    fold (without RPAREN (without SPACE country ++ [RPAREN])).
    rewrite without_app. unfold without at 2. cbn. now rewrite app_nil_r.
Qed.

(** X21.  Birth texts of the usual form.  For every table on which the
    notebook produces an output and every surviving row whose Born text is
    "<day> <Month> <year> in <city>, <region> (<country>)", where the day
    is a numeral that [%d] accepts, the month is the English name of month
    [m], the year has four digits, the three make a calendar date a
    Timestamp can hold, the city, the region and the country hold neither
    the letters "in" nor a comma, the region and the country hold no
    opening parenthesis and the city does not begin with white space: the
    output has that date as birth_date, the city without its spaces as
    City, the region without its spaces as Region, and the country without
    its spaces and closing parentheses as Country. *)
Theorem birth_texts_of_the_usual_form_are_parsed
    (dataset out : DataFrame) (d : str) (m : nat) (y city region country : str)
    (dd yy : Z) :
  rectangular dataset ->
  pipeline dataset = Ok out ->
  1 <= m <= 12 ->
  forallb isdigit d = true -> day_field d = Some dd -> year_field y = Some yy ->
  valid_date (mkDate yy (Z.of_nat m) dd) && in_bounds (mkDate yy (Z.of_nat m) dd) = true ->
  contains (u "in") city = false -> contains (u "in") region = false ->
  contains (u "in") country = false ->
  no_leading_space city ->
  ~ In COMMA city -> ~ In COMMA region -> ~ In COMMA country ->
  ~ In LPAREN region -> ~ In LPAREN country ->
  exists b bd ci re co,
    getcol dataset "Born" = Ok b /\ getcol out "birth_date" = Ok bd
    /\ getcol out "City" = Ok ci /\ getcol out "Region" = Ok re
    /\ getcol out "Country" = Ok co
    /\ forall i,
         nth_error (surviving dataset (values b)) i
         = Some (Str (born_text d m y city region country)) ->
         nth_error (values bd) i = Some (Date (mkDate yy (Z.of_nat m) dd))
         /\ nth_error (values ci) i = Some (Str (without SPACE city))
         /\ nth_error (values re) i = Some (Str (without SPACE region))
         /\ nth_error (values co) i
            = Some (Str (without RPAREN (without SPACE country))).
Proof.
  intros R H Hm Hd Dd Yy V Hc Hr Hk Lc Cc Cr Ck Pr Pk.
  destruct (pipeline_output R H)
    as (a & un & sx & b & noc & ms & r & af & a' & sx' & noc' & r' & af' & mh & mw
        & Ha & Hun & Hsx & Hb & Hnoc & Hms & Hr' & Haf & Tun & Tb & Tms
        & -> & Mh & Mw & Ia & Isx & Ir & Vnoc & Nnoc & Vaf).
  destruct (@year_field_digits _ _ Yy) as [Hy _].
  destruct (@born_date_of_text d m y city region country dd yy
              Hm Hd Dd Yy V Hc Hr Hk) as [_ BD].
  destruct (@born_place_of_place _ _ city region country
              (@born_text_split d m y city region country Hm Hd Hy Hc Hr Hk)
              Lc Cc Cr Ck Pr Pk) as (BC & BR & BK).
  eexists b, _, _, _, _. cbn [frame12 getcol String.eqb Ascii.eqb Bool.eqb].
  repeat (split; [reflexivity || assumption|]). cbn [values].
  intros i Hi.
  repeat split;
    match goal with
    | |- nth_error (map ?f _) _ = _ => rewrite (map_nth_error f _ _ Hi)
    end; f_equal.
  - now rewrite BD.
  - now rewrite BC.
  - now rewrite BR.
  - now rewrite BK.
Qed.

Lemma birth_texts_of_the_usual_form_are_parsed_witness :
  born_text (u "4") 7 (u "1976") (u "New York") (u "New York") (u "USA")
  = u "4 July 1976 in New York, New York (USA)"
  /\ exists bd ci re co,
       getcol new_york_output "birth_date" = Ok bd
       /\ getcol new_york_output "City" = Ok ci
       /\ getcol new_york_output "Region" = Ok re
       /\ getcol new_york_output "Country" = Ok co
       /\ nth_error (values bd) 0 = Some (Date (mkDate 1976 7 4))
       /\ nth_error (values ci) 0 = Some (Str (u "NewYork"))
       /\ nth_error (values re) 0 = Some (Str (u "NewYork"))
       /\ nth_error (values co) 0 = Some (Str (u "USA")).
Proof.
  split; [reflexivity|].
  assert (R : rectangular new_york_table) by apply rectangular_dataset_of.
  assert (H : pipeline new_york_table = Ok new_york_output) by (vm_compute; reflexivity).
  assert (Hm : 1 <= 7 <= 12) by lia.
  destruct (@birth_texts_of_the_usual_form_are_parsed
              new_york_table new_york_output (u "4") 7 (u "1976")
              (u "New York") (u "New York") (u "USA") 4 1976 R H Hm)
    as (b & bd & ci & re & co & Hb & Hbd & Hci & Hre & Hco & A).
  1-7: vm_compute; reflexivity.
  1-6: vm_compute; intuition discriminate.
  exists bd, ci, re, co. repeat (split; [assumption|]).
  apply (A 0). vm_compute in Hb. injection Hb as <-. vm_compute. reflexivity.
Defined.

(** * Measurements of the usual form *)

Lemma numeral_digits (s : str) : numeral s -> forallb isdigit s = true /\ s <> [].
Proof. unfold numeral, all_digits. destruct s; [discriminate|]. split; [assumption|discriminate]. Qed.

Lemma isdigit_not_space_ascii (c : char) : isdigit c = true -> isspace_ascii c = false.
Proof.
  unfold isdigit, isspace_ascii. intros D. apply andb_true_iff in D. destruct D as [D1 D2].
  apply N.leb_le in D1, D2.
  destruct (N.eqb_spec c 32); [lia|].
  destruct (N.leb_spec c 13); [lia|]. cbn. apply andb_false_r.
Qed.

Lemma lstrip_ascii_fixed (s : str) :
  match s with [] => True | c :: _ => isspace_ascii c = false end ->
  lstrip_ascii s = s.
Proof. destruct s as [|c s]; cbn; auto. now intros ->. Qed.

Lemma strip_ascii_fixed (s : str) :
  match s with [] => True | c :: _ => isspace_ascii c = false end ->
  match rev s with [] => True | c :: _ => isspace_ascii c = false end ->
  strip_ascii s = s.
Proof.
  intros H1 H2. unfold strip_ascii.
  rewrite (lstrip_ascii_fixed s H1), (lstrip_ascii_fixed (rev s) H2).
  apply rev_involutive.
Qed.

Lemma head_digit (s t : str) :
  s <> [] -> forallb isdigit s = true ->
  match s ++ t with [] => True | c :: _ => isspace_ascii c = false end.
Proof.
  destruct s as [|c s]; [congruence|]. cbn. intros _ H.
  apply andb_true_iff in H. now apply isdigit_not_space_ascii.
Qed.

Lemma rev_nonempty A (s : list A) : s <> [] -> rev s <> [].
Proof.
  intros N E. apply (f_equal (@rev A)) in E. rewrite rev_involutive in E. now apply N.
Qed.

Lemma to_numeric_numeral (s : str) :
  numeral s -> to_numeric_str s = Num (digits_val s # 1).
Proof.
  intros Hs. destruct (@numeral_digits s Hs) as [D N].
  unfold to_numeric_str. rewrite strip_ascii_fixed.
  - unfold parse_decimal. destruct s as [|c r]; [congruence|].
    assert (Dc : isdigit c = true)
      by (cbn in D; apply andb_true_iff in D; tauto).
    rewrite N.eqb_sym, (@isdigit_differs DASH c Dc eq_refl).
    rewrite N.eqb_sym, (@isdigit_differs PLUS c Dc eq_refl).
    unfold parse_unsigned.
    rewrite (@split_char_absent DOT (c :: r))
      by (apply digit_absent; [assumption|reflexivity]).
    unfold numeral in Hs. rewrite Hs.
    unfold inject_Z. now rewrite Qred_integer.
  - rewrite <- (app_nil_r s). now apply head_digit.
  - rewrite <- (app_nil_r (rev s)). apply head_digit.
    + now apply rev_nonempty.
    + now rewrite forallb_rev.
Qed.

Lemma no_slash_in_numeral (s : str) : numeral s -> ~ In SLASH s.
Proof.
  intros H. destruct (@numeral_digits s H) as [D _].
  apply digit_absent; [assumption|reflexivity].
Qed.

Lemma strip_numeral_unit (l h unit t : str) :
  numeral h -> forallb isspace l = true -> forallb isspace t = true ->
  no_leading_space (rev unit) -> unit <> [] ->
  strip (l ++ (h ++ unit) ++ t) = h ++ unit.
Proof.
  intros H Hl Ht Hu Nu. destruct (@numeral_digits h H) as [D N].
  apply strip_sandwich; auto.
  - now apply no_leading_space_digits.
  - rewrite rev_app_distr. destruct (rev unit) as [|c r] eqn:E.
    + apply (f_equal (@rev char)) in E. rewrite rev_involutive in E. contradiction.
    + exact Hu.
Qed.

Lemma replace_unit (h unit : str) (c : char) :
  numeral h -> ((c <? 48) || (57 <? c))%N = true ->
  replace (c :: unit) [] (h ++ c :: unit) = h.
Proof.
  intros H Hc. destruct (@numeral_digits h H) as [D _].
  rewrite replace_pass by now apply digits_differ.
  assert (N : c :: unit <> []) by discriminate.
  pose proof (@replace_match (c :: unit) [] [] N) as E.
  rewrite app_nil_r in E. rewrite E. cbn. apply app_nil_r.
Qed.

Lemma contains_unit (pat h unit : str) :
  numeral h -> unit <> [] ->
  match pat with
  | c :: _ => ((c <? 48) || (57 <? c))%N = true
  | [] => False
  end ->
  contains pat (h ++ unit) = contains pat unit.
Proof.
  intros H Nu Hp. destruct (@numeral_digits h H) as [D _].
  destruct pat as [|c t]; [contradiction|].
  apply contains_pass; [assumption|]. now apply digits_differ.
Qed.

Lemma measures_of_both (h w : str) :
  numeral h -> numeral w ->
  measured_height (Str (both_text h w)) = Num (digits_val h # 1)
  /\ measured_weight (Str (both_text h w)) = Num (digits_val w # 1).
Proof.
  intros Hh Hw.
  assert (S0 : split [SLASH] (both_text h w)
               = [h ++ u " cm" ++ [SPACE]; SPACE :: w ++ u " kg"]).
  { unfold both_text.
    replace (h ++ u " cm / " ++ w ++ u " kg")
      with ((h ++ u " cm" ++ [SPACE]) ++ SLASH :: (SPACE :: w ++ u " kg"))
      by (rewrite <- !app_assoc; reflexivity).
    rewrite split_char_app.
    - rewrite split_char_absent; [reflexivity|].
      intros [I|I]; [discriminate I|]. apply in_app_or in I.
      destruct I as [I|I]; [now apply (no_slash_in_numeral Hw)|].
      vm_compute in I. intuition discriminate.
    - intros I. apply in_app_or in I.
      destruct I as [I|I]; [now apply (no_slash_in_numeral Hh)|].
      vm_compute in I. intuition discriminate. }
  assert (M0 : measure0 (Str (both_text h w)) = Str (h ++ u " cm")).
  { unfold measure0, parts_of. change (u "/") with [SLASH]. rewrite S0.
    unfold part. cbn [nth_error]. unfold strip_in, str_map. f_equal.
    replace (h ++ u " cm" ++ [SPACE]) with ([] ++ (h ++ u " cm") ++ [SPACE])
      by (rewrite <- !app_assoc; reflexivity).
    apply strip_numeral_unit; try reflexivity; auto. discriminate. }
  assert (M1 : measure1 (Str (both_text h w)) = Str (w ++ u " kg")).
  { unfold measure1, parts_of. change (u "/") with [SLASH]. rewrite S0.
    unfold part. cbn [nth_error]. unfold strip_in, str_map. f_equal.
    replace (SPACE :: w ++ u " kg") with ([SPACE] ++ (w ++ u " kg") ++ [])
      by (rewrite app_nil_r; reflexivity).
    apply strip_numeral_unit; try reflexivity; auto. discriminate. }
  unfold measured_height, measured_weight. rewrite M0, M1.
  unfold height_text, weight_text. cbn [isna].
  change (u " cm") with (SPACE :: u "cm"). change (u " kg") with (SPACE :: u "kg").
  rewrite !replace_unit by (assumption || reflexivity).
  unfold to_numeric_value. now rewrite !to_numeric_numeral.
Qed.

Lemma measures_of_height_only (h : str) :
  numeral h ->
  measured_height (Str (height_only_text h)) = Num (digits_val h # 1)
  /\ measured_weight (Str (height_only_text h)) = NA.
Proof.
  intros Hh.
  assert (S0 : split [SLASH] (height_only_text h) = [h ++ u " cm"]).
  { apply split_char_absent. unfold height_only_text. intros I. apply in_app_or in I.
    destruct I as [I|I]; [now apply (no_slash_in_numeral Hh)|].
    vm_compute in I. intuition discriminate. }
  assert (M0 : measure0 (Str (height_only_text h)) = Str (h ++ u " cm")).
  { unfold measure0, parts_of. change (u "/") with [SLASH]. rewrite S0.
    unfold part. cbn [nth_error]. unfold strip_in, str_map. f_equal.
    replace (h ++ u " cm") with ([] ++ (h ++ u " cm") ++ []) at 1
      by (rewrite app_nil_r; reflexivity).
    apply strip_numeral_unit; try reflexivity; auto. discriminate. }
  assert (M1 : measure1 (Str (height_only_text h)) = NA).
  { unfold measure1, parts_of. change (u "/") with [SLASH]. rewrite S0. reflexivity. }
  assert (C : contains (u "cm") (h ++ u " cm") = true).
  { rewrite contains_unit; [reflexivity|assumption|discriminate|reflexivity]. }
  unfold measured_height, measured_weight. rewrite M0, M1.
  unfold height_text, weight_text. cbn [isna]. rewrite C.
  change (u " cm") with (SPACE :: u "cm").
  rewrite replace_unit by (assumption || reflexivity).
  unfold to_numeric_value. now rewrite to_numeric_numeral.
Qed.

Lemma measures_of_weight_only (w : str) :
  numeral w ->
  measured_height (Str (weight_only_text w)) = NA
  /\ measured_weight (Str (weight_only_text w)) = Num (digits_val w # 1).
Proof.
  intros Hw.
  assert (S0 : split [SLASH] (weight_only_text w) = [w ++ u " kg"]).
  { apply split_char_absent. unfold weight_only_text. intros I. apply in_app_or in I.
    destruct I as [I|I]; [now apply (no_slash_in_numeral Hw)|].
    vm_compute in I. intuition discriminate. }
  assert (M0 : measure0 (Str (weight_only_text w)) = Str (w ++ u " kg")).
  { unfold measure0, parts_of. change (u "/") with [SLASH]. rewrite S0.
    unfold part. cbn [nth_error]. unfold strip_in, str_map. f_equal.
    replace (w ++ u " kg") with ([] ++ (w ++ u " kg") ++ []) at 1
      by (rewrite app_nil_r; reflexivity).
    apply strip_numeral_unit; try reflexivity; auto. discriminate. }
  assert (M1 : measure1 (Str (weight_only_text w)) = NA).
  { unfold measure1, parts_of. change (u "/") with [SLASH]. rewrite S0. reflexivity. }
  assert (C : contains (u "cm") (w ++ u " kg") = false).
  { rewrite contains_unit; [reflexivity|assumption|discriminate|reflexivity]. }
  assert (K : contains (u "kg") (w ++ u " kg") = true).
  { rewrite contains_unit; [reflexivity|assumption|discriminate|reflexivity]. }
  unfold measured_height, measured_weight. rewrite M0, M1.
  unfold height_text, weight_text. cbn [isna]. rewrite C, K.
  change (u " kg") with (SPACE :: u "kg").
  rewrite replace_unit by (assumption || reflexivity).
  unfold to_numeric_value. now rewrite to_numeric_numeral.
Qed.

Lemma measures_of_weight_range (h w1 w2 : str) :
  numeral h -> numeral w1 -> numeral w2 ->
  measured_height (Str (weight_range_text h w1 w2)) = Num (digits_val h # 1)
  /\ measured_weight (Str (weight_range_text h w1 w2)) = NA.
Proof.
  intros Hh H1 H2.
  destruct (@numeral_digits w1 H1) as [D1 N1].
  destruct (@numeral_digits w2 H2) as [D2 N2].
  assert (S0 : split [SLASH] (weight_range_text h w1 w2)
               = [h ++ u " cm" ++ [SPACE]; SPACE :: w1 ++ DASH :: w2 ++ u " kg"]).
  { unfold weight_range_text.
    replace (h ++ u " cm / " ++ w1 ++ u "-" ++ w2 ++ u " kg")
      with ((h ++ u " cm" ++ [SPACE]) ++ SLASH :: (SPACE :: w1 ++ DASH :: w2 ++ u " kg"))
      by (rewrite <- !app_assoc; reflexivity).
    rewrite split_char_app.
    - rewrite split_char_absent; [reflexivity|].
      intros [I|I]; [discriminate I|]. apply in_app_or in I.
      destruct I as [I|[I|I]]; [now apply (no_slash_in_numeral H1)|discriminate I|].
      apply in_app_or in I.
      destruct I as [I|I]; [now apply (no_slash_in_numeral H2)|].
      vm_compute in I. intuition discriminate.
    - intros I. apply in_app_or in I.
      destruct I as [I|I]; [now apply (no_slash_in_numeral Hh)|].
      vm_compute in I. intuition discriminate. }
  assert (M0 : measure0 (Str (weight_range_text h w1 w2)) = Str (h ++ u " cm")).
  { unfold measure0, parts_of. change (u "/") with [SLASH]. rewrite S0.
    unfold part. cbn [nth_error]. unfold strip_in, str_map. f_equal.
    replace (h ++ u " cm" ++ [SPACE]) with ([] ++ (h ++ u " cm") ++ [SPACE])
      by (rewrite <- !app_assoc; reflexivity).
    apply strip_numeral_unit; try reflexivity; auto. discriminate. }
  assert (M1 : measure1 (Str (weight_range_text h w1 w2))
               = Str (w1 ++ DASH :: w2 ++ u " kg")).
  { unfold measure1, parts_of. change (u "/") with [SLASH]. rewrite S0.
    unfold part. cbn [nth_error]. unfold strip_in, str_map. f_equal.
    replace (SPACE :: w1 ++ DASH :: w2 ++ u " kg")
      with ([SPACE] ++ (w1 ++ (DASH :: w2 ++ u " kg")) ++ [])
      by (rewrite app_nil_r; reflexivity).
    apply strip_numeral_unit; try reflexivity; auto; [|discriminate].
    replace (DASH :: w2 ++ u " kg") with ((DASH :: w2) ++ u " kg") by reflexivity.
    rewrite rev_app_distr. reflexivity. }
  unfold measured_height, measured_weight. rewrite M0, M1.
  unfold height_text, weight_text. cbn [isna].
  change (u " cm") with (SPACE :: u "cm"). change (u " kg") with (SPACE :: u "kg").
  rewrite replace_unit by (assumption || reflexivity).
  rewrite replace_pass by (apply digits_differ; [assumption|reflexivity]).
  rewrite replace_step_no by reflexivity.
  rewrite replace_unit by (assumption || reflexivity).
  unfold to_numeric_value. rewrite to_numeric_numeral by assumption.
  split; [reflexivity|].
  unfold to_numeric_str. rewrite strip_ascii_fixed.
  - unfold parse_decimal. destruct w1 as [|c r]; [congruence|].
    assert (Dc : isdigit c = true)
      by (cbn in D1; apply andb_true_iff in D1; tauto).
    cbn [app]. rewrite N.eqb_sym, (@isdigit_differs DASH c Dc eq_refl).
    rewrite N.eqb_sym, (@isdigit_differs PLUS c Dc eq_refl).
    unfold parse_unsigned.
    rewrite (@split_char_absent DOT (c :: r ++ DASH :: w2)).
    + replace (all_digits (c :: r ++ DASH :: w2)) with false; [reflexivity|].
      symmetry. change (c :: r ++ DASH :: w2) with ((c :: r) ++ DASH :: w2).
      unfold all_digits. cbn [app]. change (c :: r ++ DASH :: w2) with ((c :: r) ++ DASH :: w2).
      rewrite forallb_app. cbn [forallb]. change (isdigit DASH) with false.
      cbn. apply andb_false_r.
    + change (c :: r ++ DASH :: w2) with ((c :: r) ++ DASH :: w2).
      intros I. apply in_app_or in I.
      destruct I as [I|[I|I]]; [|discriminate I|].
      * revert I. apply digit_absent; [assumption|reflexivity].
      * revert I. apply digit_absent; [assumption|reflexivity].
  - now apply head_digit.
  - replace (w1 ++ DASH :: w2) with ((w1 ++ [DASH]) ++ w2)
      by (rewrite <- app_assoc; reflexivity).
    rewrite rev_app_distr. apply head_digit.
    + now apply rev_nonempty.
    + now rewrite forallb_rev.
Qed.

(** X22.  Measurements of the usual form.  For every table whose
    Measurements are missing or written with digits, spaces, dashes, slashes
    and the letters of "cm" and "kg", no run of digits longer than 14, and
    on which the notebook produces an output, and for numerals [h] and [w] of
    at most 14 digits: a surviving row with "<h> cm / <w> kg" has height [h]
    and weight [w] in the output; a row with "<h> cm" has height [h] and the
    weight the imputer fills in, rounded; a row with "<w> kg" has weight [w]
    and the height the imputer fills in, rounded. *)
Theorem measurements_of_the_usual_form_are_read
    (dataset out : DataFrame) (ms : Series) (h w : str) :
  rectangular dataset ->
  pipeline dataset = Ok out ->
  getcol dataset "Measurements" = Ok ms ->
  forallb plain_measurement (values ms) = true ->
  short_numeral h -> short_numeral w ->
  exists hc wc mh mw,
    getcol out "height_cm" = Ok hc /\ getcol out "weight_kg" = Ok wc
    /\ most_frequent (observed (map measured_height (surviving dataset (values ms))))
       = Some mh
    /\ most_frequent (observed (map measured_weight (surviving dataset (values ms))))
       = Some mw
    /\ forall i,
         let text := nth_error (surviving dataset (values ms)) i in
         let height := nth_error (values hc) i in
         let weight := nth_error (values wc) i in
         (text = Some (Str (both_text h w)) ->
            height = Some (Num (digits_val h # 1))
            /\ weight = Some (Num (digits_val w # 1)))
         /\ (text = Some (Str (height_only_text h)) ->
               height = Some (Num (digits_val h # 1))
               /\ weight = Some (Num (round1 mw)))
         /\ (text = Some (Str (weight_only_text w)) ->
               height = Some (Num (round1 mh))
               /\ weight = Some (Num (digits_val w # 1))).
Proof.
  intros R H G _ [Hh _] [Hw _].
  destruct (pipeline_output R H)
    as (a & un & sx & b & noc & ms0 & r & af & a' & sx' & noc' & r' & af' & mh & mw
        & Ha & Hun & Hsx & Hb & Hnoc & Hms & Hr' & Haf & Tun & Tb & Tms
        & -> & Mh & Mw & Ia & Isx & Ir & Vnoc & Nnoc & Vaf).
  assert (E : ms0 = ms) by congruence. subst ms0.
  destruct (measures_of_both Hh Hw) as [B0 B1].
  destruct (measures_of_height_only Hh) as [H0 H1].
  destruct (measures_of_weight_only Hw) as [W0 W1].
  eexists _, _. exists mh, mw.
  cbn [frame12 getcol String.eqb Ascii.eqb Bool.eqb].
  repeat (split; [reflexivity || assumption|]). cbn [values].
  intros i. cbv zeta.
  split; [|split]; intros Hi; split;
    match goal with
    | |- nth_error (map ?f _) _ = _ => rewrite (map_nth_error f _ _ Hi)
    end; f_equal;
    rewrite ?B0, ?B1, ?H0, ?H1, ?W0, ?W1; unfold fill, round_value; cbn [isna];
    rewrite ?round1_integer; reflexivity.
Qed.

Lemma measurements_of_the_usual_form_are_read_witness :
  both_text (u "178") (u "75") = u "178 cm / 75 kg"
  /\ short_numeral (u "178") /\ short_numeral (u "75")
  /\ getcol paris_table "Measurements" = Ok (text b_measurements [athlete_paris])
  /\ forallb plain_measurement (values (text b_measurements [athlete_paris])) = true
  /\ exists hc wc,
       getcol paris_output "height_cm" = Ok hc
       /\ getcol paris_output "weight_kg" = Ok wc
       /\ nth_error (values hc) 0 = Some (Num (178 # 1))
       /\ nth_error (values wc) 0 = Some (Num (75 # 1)).
Proof.
  split; [reflexivity|].
  assert (Hh : short_numeral (u "178")) by (split; [reflexivity|vm_compute; lia]).
  assert (Hw : short_numeral (u "75")) by (split; [reflexivity|vm_compute; lia]).
  split; [exact Hh|]. split; [exact Hw|].
  assert (R : rectangular paris_table) by apply rectangular_dataset_of.
  assert (H : pipeline paris_table = Ok paris_output) by (vm_compute; reflexivity).
  assert (G : getcol paris_table "Measurements"
              = Ok (text b_measurements [athlete_paris])) by reflexivity.
  assert (P : forallb plain_measurement (values (text b_measurements [athlete_paris]))
              = true) by reflexivity.
  split; [exact G|]. split; [exact P|].
  destruct (@measurements_of_the_usual_form_are_read
              paris_table paris_output _ (u "178") (u "75") R H G P Hh Hw)
    as (hc & wc & mh & mw & Hhc & Hwc & _ & _ & A).
  exists hc, wc. split; [exact Hhc|]. split; [exact Hwc|].
  apply (proj1 (A 0)). vm_compute. reflexivity.
Defined.

(** X23.  A weight given as a range is not read.  For numerals [h], [w1]
    and [w2], the text "<h> cm / <w1>-<w2> kg" yields no weight.  So, for
    every table whose Measurements are missing or written with digits,
    spaces, dashes, slashes and the letters of "cm" and "kg", no run of
    digits longer than 14, and on which the notebook produces an output: a
    surviving row with that text, [h] of at most 14 digits, has height [h]
    and the weight the imputer fills in, rounded. *)
Theorem a_weight_range_is_not_read
    (dataset out : DataFrame) (ms : Series) (h w1 w2 : str) :
  rectangular dataset ->
  pipeline dataset = Ok out ->
  getcol dataset "Measurements" = Ok ms ->
  forallb plain_measurement (values ms) = true ->
  short_numeral h -> numeral w1 -> numeral w2 ->
  measured_weight (Str (weight_range_text h w1 w2)) = NA
  /\ exists hc wc mw,
       getcol out "height_cm" = Ok hc /\ getcol out "weight_kg" = Ok wc
       /\ most_frequent (observed (map measured_weight (surviving dataset (values ms))))
          = Some mw
       /\ forall i,
            nth_error (surviving dataset (values ms)) i
            = Some (Str (weight_range_text h w1 w2)) ->
            nth_error (values hc) i = Some (Num (digits_val h # 1))
            /\ nth_error (values wc) i = Some (Num (round1 mw)).
Proof.
  intros R H G _ [Hh _] H1 H2.
  destruct (measures_of_weight_range Hh H1 H2) as [M0 M1].
  split; [exact M1|].
  destruct (pipeline_output R H)
    as (a & un & sx & b & noc & ms0 & r & af & a' & sx' & noc' & r' & af' & mh & mw
        & Ha & Hun & Hsx & Hb & Hnoc & Hms & Hr' & Haf & Tun & Tb & Tms
        & -> & Mh & Mw & Ia & Isx & Ir & Vnoc & Nnoc & Vaf).
  assert (E : ms0 = ms) by congruence. subst ms0.
  eexists _, _. exists mw.
  cbn [frame12 getcol String.eqb Ascii.eqb Bool.eqb].
  repeat (split; [reflexivity || assumption|]). cbn [values].
  intros i Hi.
  split;
    match goal with
    | |- nth_error (map ?f _) _ = _ => rewrite (map_nth_error f _ _ Hi)
    end; f_equal;
    rewrite ?M0, ?M1; unfold fill, round_value; cbn [isna];
    rewrite ?round1_integer; reflexivity.
Qed.

Lemma a_weight_range_is_not_read_witness :
  weight_range_text (u "180") (u "64") (u "67") = u "180 cm / 64-67 kg"
  /\ getcol range_table "Measurements"
     = Ok (text b_measurements [athlete_paris; athlete_range])
  /\ forallb plain_measurement
       (values (text b_measurements [athlete_paris; athlete_range])) = true
  /\ exists hc wc,
       getcol range_output "height_cm" = Ok hc
       /\ getcol range_output "weight_kg" = Ok wc
       /\ nth_error (values hc) 1 = Some (Num (180 # 1))
       /\ nth_error (values wc) 1 = Some (Num (75 # 1)).
Proof.
  split; [reflexivity|].
  assert (Hh : short_numeral (u "180")) by (split; [reflexivity|vm_compute; lia]).
  assert (H1 : numeral (u "64")) by reflexivity.
  assert (H2 : numeral (u "67")) by reflexivity.
  assert (R : rectangular range_table) by apply rectangular_dataset_of.
  assert (H : pipeline range_table = Ok range_output) by (vm_compute; reflexivity).
  assert (G : getcol range_table "Measurements"
              = Ok (text b_measurements [athlete_paris; athlete_range])) by reflexivity.
  assert (P : forallb plain_measurement
                (values (text b_measurements [athlete_paris; athlete_range])) = true)
    by reflexivity.
  split; [exact G|]. split; [exact P|].
  destruct (@a_weight_range_is_not_read
              range_table range_output _ (u "180") (u "64") (u "67") R H G P Hh H1 H2)
    as (_ & hc & wc & mw & Hhc & Hwc & Mw & A).
  exists hc, wc. split; [exact Hhc|]. split; [exact Hwc|].
  assert (E : mw = (75 # 1)%Q) by (vm_compute in Mw; now injection Mw).
  subst mw. change (Num (75 # 1)) with (Num (round1 (75 # 1))).
  apply (A 1). vm_compute. reflexivity.
Defined.

(** * The rows of the output are rows of the input *)









(** * Dates *)

Lemma to_datetime_str_cases (s : str) :
  to_datetime_str s = NA
  \/ exists d, to_datetime_str s = Date d
               /\ valid_date d = true /\ in_bounds d = true.
Proof.
  unfold to_datetime_str.
  destruct (split [DASH] s) as [|f0 [|f1 [|f2 [|f3 l]]]]; auto.
  destruct (day_field f0), (month_field f1), (year_field f2); auto.
  match goal with
  | |- context [valid_date ?d && in_bounds ?d] =>
      destruct (valid_date d && in_bounds d) eqn:V; [|now left];
      apply andb_true_iff in V; right; exists d; tauto
  end.
Qed.

Lemma born_date_cases (v : value) :
  born_date v = NA
  \/ exists d, born_date v = Date d /\ valid_date d = true /\ in_bounds d = true.
Proof.
  unfold born_date, born_date_text, replace_in, str_map.
  match goal with
  | |- context [match ?x with Str _ => _ | _ => _ end] => destruct x; auto
  end.
  unfold to_datetime_value. apply to_datetime_str_cases.
Qed.

(** X25.  For every table on which the notebook produces an output, the
    column birth_date of the output has dtype datetime64 and every value in
    it is a calendar date between 1677-09-22 and 2262-04-11, the days a
    Timestamp can hold; none is missing. *)
Theorem output_birth_dates_are_calendar_dates (dataset out : DataFrame) :
  rectangular dataset ->
  pipeline dataset = Ok out ->
  exists bd,
    getcol out "birth_date" = Ok bd /\ dtype_of bd = datetime64
    /\ Forall (fun v => exists d, v = Date d /\ valid_date d = true
                                  /\ in_bounds d = true)
         (values bd).
Proof.
  intros R H. destruct (pipeline_output R H)
    as (a & un & sx & b & noc & ms & r & af & a' & sx' & noc' & r' & af' & mh & mw
        & Ha & Hun & Hsx & Hb & Hnoc & Hms & Hr & Haf & Tun & Tb & Tms
        & -> & Mh & Mw & Ia & Isx & Ir & Vnoc & Nnoc & Vaf).
  eexists. cbn [frame12 getcol String.eqb Ascii.eqb Bool.eqb].
  split; [reflexivity|]. split; [reflexivity|]. cbn [values].
  apply Forall_map, Forall_forall. intros v _.
  destruct (born_date_cases v) as [E|(d & E & V & B)]; rewrite E; unfold fill; cbn [isna].
  - exists sentinel_date. repeat split; reflexivity.
  - exists d. auto.
Qed.

Lemma output_birth_dates_are_calendar_dates_witness :
  exists bd,
    getcol mixed_output "birth_date" = Ok bd
    /\ Forall (fun v => exists d, v = Date d /\ valid_date d = true
                                  /\ in_bounds d = true)
         (values bd).
Proof.
  assert (R : rectangular mixed_table) by apply rectangular_dataset_of.
  assert (H : pipeline mixed_table = Ok mixed_output) by (vm_compute; reflexivity).
  destruct (@output_birth_dates_are_calendar_dates _ _ R H) as (bd & A & _ & B).
  exists bd. split; assumption.
Defined.

Lemma year_only_split (y city region country : str) :
  numeral y ->
  contains (u "in") city = false -> contains (u "in") region = false ->
  contains (u "in") country = false ->
  split (u "in") (year_only_text y city region country)
  = [y ++ [SPACE]; place_part city region country].
Proof.
  intros Hy Hc Hr Hk. destruct (@numeral_digits y Hy) as [D _].
  replace (year_only_text y city region country)
    with ((y ++ [SPACE]) ++ u "in" ++ place_part city region country).
  - rewrite split_app_sep.
    + now rewrite (split_without_separator _ _ (place_part_has_no_in _ _ _ Hc Hr Hk)).
    + discriminate.
    + change (u "in") with [105; 110]%N.
      apply matchless_app; [apply matchless_pass, digits_differ; auto|].
      apply matchless_cons; [reflexivity|apply matchless_nil].
  - unfold year_only_text, place_part.
    change (u " in ") with (SPACE :: u "in" ++ [SPACE]).
    change (u ", ") with [COMMA; SPACE]. change (u " (") with [SPACE; LPAREN].
    change (u ")") with [RPAREN].
    repeat (rewrite <- ?app_assoc; cbn [app]). reflexivity.
Qed.

Lemma year_only_date (y city region country : str) :
  numeral y ->
  contains (u "in") city = false -> contains (u "in") region = false ->
  contains (u "in") country = false ->
  born_date_text (Str (year_only_text y city region country)) = Str y
  /\ born_date (Str (year_only_text y city region country)) = NA.
Proof.
  intros Hy Hc Hr Hk. destruct (@numeral_digits y Hy) as [D N].
  assert (T : born_date_text (Str (year_only_text y city region country)) = Str y).
  { unfold born_date_text, parts_of. rewrite year_only_split by assumption.
    unfold part. cbn [nth_error]. unfold replace_each.
    let v := eval vm_compute in month_codes in change month_codes with v.
    cbn [fold_left fst snd].
    repeat (rewrite (@replace_pass _ _ _ y _)
              by (apply digits_differ; [exact D|reflexivity]);
            rewrite replace_step_no by reflexivity; rewrite replace_nil).
    unfold strip_in, str_map.
    replace (strip (y ++ [SPACE])) with y.
    2:{ symmetry. rewrite <- (app_nil_r y) at 2.
        replace (y ++ [SPACE]) with ([] ++ y ++ [SPACE]) by reflexivity.
        rewrite app_nil_r.
        apply strip_sandwich; try reflexivity.
        - rewrite <- (app_nil_r y). now apply no_leading_space_digits.
        - rewrite <- (app_nil_r (rev y)). apply no_leading_space_digits.
          + now apply rev_nonempty.
          + now rewrite forallb_rev. }
    rewrite replace_whole_other.
    2:{ intros E. injection E as E. change (u " ") with [SPACE] in E.
        rewrite E in D. discriminate D. }
    unfold replace_in, str_map. change (u " ") with [SPACE].
    rewrite replace_char_removed. fold (without SPACE y).
    now rewrite (@without_absent SPACE y) by (apply digit_absent; [assumption|reflexivity]). }
  split; [exact T|].
  unfold born_date. rewrite T. unfold to_datetime_value, to_datetime_str.
  rewrite (@split_char_absent DASH y) by (apply digit_absent; [assumption|reflexivity]).
  reflexivity.
Qed.

(** X26.  A birth text with a year only gets the default date.  For every
    table on which the notebook produces an output and every surviving row
    whose Born text is "<year> in <city>, <region> (<country>)", with a
    numeral for the year and a place as in X21: the birth_date of the
    output is 1975-01-01, whatever the year, and City, Region and Country
    are parsed as in X21. *)
Theorem a_birth_text_with_a_year_only_gets_the_default_date
    (dataset out : DataFrame) (y city region country : str) :
  rectangular dataset ->
  pipeline dataset = Ok out ->
  numeral y ->
  contains (u "in") city = false -> contains (u "in") region = false ->
  contains (u "in") country = false ->
  no_leading_space city ->
  ~ In COMMA city -> ~ In COMMA region -> ~ In COMMA country ->
  ~ In LPAREN region -> ~ In LPAREN country ->
  exists b bd ci re co,
    getcol dataset "Born" = Ok b /\ getcol out "birth_date" = Ok bd
    /\ getcol out "City" = Ok ci /\ getcol out "Region" = Ok re
    /\ getcol out "Country" = Ok co
    /\ forall i,
         nth_error (surviving dataset (values b)) i
         = Some (Str (year_only_text y city region country)) ->
         nth_error (values bd) i = Some (Date (mkDate 1975 1 1))
         /\ nth_error (values ci) i = Some (Str (without SPACE city))
         /\ nth_error (values re) i = Some (Str (without SPACE region))
         /\ nth_error (values co) i
            = Some (Str (without RPAREN (without SPACE country))).
Proof.
  intros R H Hy Hc Hr Hk Lc Cc Cr Ck Pr Pk.
  destruct (pipeline_output R H)
    as (a & un & sx & b & noc & ms & r & af & a' & sx' & noc' & r' & af' & mh & mw
        & Ha & Hun & Hsx & Hb & Hnoc & Hms & Hr' & Haf & Tun & Tb & Tms
        & -> & Mh & Mw & Ia & Isx & Ir & Vnoc & Nnoc & Vaf).
  destruct (@year_only_date y city region country Hy Hc Hr Hk) as [_ BD].
  destruct (@born_place_of_place _ _ city region country
              (@year_only_split y city region country Hy Hc Hr Hk)
              Lc Cc Cr Ck Pr Pk) as (BC & BR & BK).
  eexists b, _, _, _, _. cbn [frame12 getcol String.eqb Ascii.eqb Bool.eqb].
  repeat (split; [reflexivity || assumption|]). cbn [values].
  intros i Hi.
  repeat split;
    match goal with
    | |- nth_error (map ?f _) _ = _ => rewrite (map_nth_error f _ _ Hi)
    end; f_equal.
  - now rewrite BD.
  - now rewrite BC.
  - now rewrite BR.
  - now rewrite BK.
Qed.

Lemma a_birth_text_with_a_year_only_gets_the_default_date_witness :
  year_only_text (u "1884") (u "Lyon") (u "Rhone") (u "FRA")
  = u "1884 in Lyon, Rhone (FRA)"
  /\ exists bd ci re co,
       getcol year_only_output "birth_date" = Ok bd
       /\ getcol year_only_output "City" = Ok ci
       /\ getcol year_only_output "Region" = Ok re
       /\ getcol year_only_output "Country" = Ok co
       /\ nth_error (values bd) 0 = Some (Date (mkDate 1975 1 1))
       /\ nth_error (values ci) 0 = Some (Str (u "Lyon"))
       /\ nth_error (values re) 0 = Some (Str (u "Rhone"))
       /\ nth_error (values co) 0 = Some (Str (u "FRA")).
Proof.
  split; [reflexivity|].
  assert (R : rectangular year_only_table) by apply rectangular_dataset_of.
  assert (H : pipeline year_only_table = Ok year_only_output) by (vm_compute; reflexivity).
  assert (Hy : numeral (u "1884")) by reflexivity.
  destruct (@a_birth_text_with_a_year_only_gets_the_default_date
              year_only_table year_only_output
              (u "1884") (u "Lyon") (u "Rhone") (u "FRA") R H Hy)
    as (b & bd & ci & re & co & Hb & Hbd & Hci & Hre & Hco & A).
  1-3: vm_compute; reflexivity.
  1-6: vm_compute; intuition discriminate.
  exists bd, ci, re, co. repeat (split; [assumption|]).
  apply (A 0). vm_compute in Hb. injection Hb as <-. vm_compute. reflexivity.
Defined.

Lemma to_numeric_with_unit (h unit : str) :
  numeral h ->
  ~ In DOT unit -> forallb isdigit unit = false ->
  match rev unit with [] => False | c :: _ => isspace_ascii c = false end ->
  to_numeric_str (h ++ unit) = NA.
Proof.
  intros Hh Nd Nu Lu. destruct (@numeral_digits h Hh) as [D N].
  unfold to_numeric_str. rewrite strip_ascii_fixed.
  - unfold parse_decimal. destruct h as [|c r]; [congruence|].
    assert (Dc : isdigit c = true)
      by (cbn in D; apply andb_true_iff in D; tauto).
    cbn [app]. rewrite N.eqb_sym, (@isdigit_differs DASH c Dc eq_refl).
    rewrite N.eqb_sym, (@isdigit_differs PLUS c Dc eq_refl).
    unfold parse_unsigned.
    change (c :: r ++ unit) with ((c :: r) ++ unit).
    rewrite (@split_char_absent DOT ((c :: r) ++ unit)).
    + replace (all_digits ((c :: r) ++ unit)) with false; [reflexivity|].
      symmetry. unfold all_digits. cbn [app].
      change (c :: r ++ unit) with ((c :: r) ++ unit).
      rewrite forallb_app, Nu. apply andb_false_r.
    + intros I. apply in_app_or in I. destruct I as [I|I]; [|contradiction].
      revert I. apply digit_absent; [assumption|reflexivity].
  - now apply head_digit.
  - rewrite rev_app_distr. destruct (rev unit); [contradiction|exact Lu].
Qed.




(** * The assignment of the measurements *)

Lemma replace_leaves_other_unit (c : char) (unit other n : str) :
  numeral n -> ((c <? 48) || (57 <? c))%N = true ->
  replace (c :: unit) [] other = other ->
  replace (c :: unit) [] (n ++ other) = n ++ other.
Proof.
  intros H Hc E. destruct (@numeral_digits n H) as [D _].
  rewrite replace_pass by now apply digits_differ. now rewrite E.
Qed.

Lemma unit_is_no_number (n unit : str) :
  numeral n ->
  In unit [u "cm"; u "kg"; u " cm"; u " kg"] ->
  to_numeric_str (n ++ unit) = NA.
Proof.
  intros H I. apply to_numeric_with_unit; [assumption| | |];
    cbn in I; repeat (destruct I as [<-|I]; [vm_compute; intuition discriminate|]);
    contradiction.
Qed.

(** C4, as amended.  On a frame as it stands before section 9 (the id
    column as long as the measurements column), when the section produces a
    result, the row of a Measurements text [s] is assigned as follows.
    Without "/" in [s], the stripped text [f] is tested for "cm" first: if
    it holds "cm" the weight is missing, if it does not the height is
    missing, and if it holds neither "cm" nor "kg" both are missing.  The
    text "<n> cm", for a numeral [n] of at most 14 digits, gives the height
    [n], and "<n> kg" gives the weight [n]; a unit written without the
    space, "<n>cm" or "<n>kg", gives no number: the height, respectively
    the weight, is missing as well.  With at least two fragments the first
    is read as the height and the second as the weight, by position only: a
    first fragment "<n> cm" gives the height [n] and a second "<n> kg" the
    weight [n], while a first fragment "<n> kg" gives a missing height and
    a second "<n> cm" a missing weight.  In particular "178 cm" gives height
    178 and no weight, "75 kg" gives weight 75 and no height, and
    "178 cm / 75 kg" gives height 178 and weight 75. *)
Theorem measurements_are_assigned_by_position
    (a nm sx bd ci re co noc ms r af : Series) (df : DataFrame) :
  length (values a) = length (values ms) ->
  parse_measurements (frame11 a nm sx bd ci re co noc ms r af) = Ok df ->
  exists h w,
    getcol df "height_cm" = Ok h /\ getcol df "weight_kg" = Ok w
    /\ forall i s,
         nth_error (values ms) i = Some (Str s) ->
         let height := nth_error (values h) i in
         let weight := nth_error (values w) i in
         (~ In SLASH s ->
            let f := strip s in
            (contains (u "cm") f = true -> weight = Some NA)
            /\ (contains (u "cm") f = false -> height = Some NA)
            /\ (contains (u "cm") f = false -> contains (u "kg") f = false ->
                  weight = Some NA)
            /\ (forall n, short_numeral n -> f = n ++ u " cm" ->
                  height = Some (Num (digits_val n # 1)))
            /\ (forall n, short_numeral n -> f = n ++ u " kg" ->
                  weight = Some (Num (digits_val n # 1)))
            /\ (forall n, numeral n -> f = n ++ u "cm" -> height = Some NA)
            /\ (forall n, numeral n -> f = n ++ u "kg" -> weight = Some NA))
         /\ (forall f0 f1 rest,
               split (u "/") s = f0 :: f1 :: rest ->
               (forall n, short_numeral n -> strip f0 = n ++ u " cm" ->
                  height = Some (Num (digits_val n # 1)))
               /\ (forall n, short_numeral n -> strip f1 = n ++ u " kg" ->
                     weight = Some (Num (digits_val n # 1)))
               /\ (forall n, numeral n -> strip f0 = n ++ u " kg" ->
                     height = Some NA)
               /\ (forall n, numeral n -> strip f1 = n ++ u " cm" ->
                     weight = Some NA))
         /\ (s = u "178 cm" -> height = Some (Num (178 # 1)) /\ weight = Some NA)
         /\ (s = u "75 kg" -> height = Some NA /\ weight = Some (Num (75 # 1)))
         /\ (s = u "178 cm / 75 kg" ->
               height = Some (Num (178 # 1)) /\ weight = Some (Num (75 # 1))).
Proof.
  intros L H. apply parse_measurements_frame in H; [|exact L].
  destruct H as (T & _ & ->).
  eexists _, _. cbn [frame12 getcol String.eqb Ascii.eqb Bool.eqb].
  split; [reflexivity|]. split; [reflexivity|]. cbn [values].
  intros i s Hi. cbv zeta.
  rewrite (map_nth_error measured_height _ _ Hi),
          (map_nth_error measured_weight _ _ Hi).
  unfold measured_height, measured_weight.
  assert (Ccm : forall n, numeral n -> contains (u "cm") (n ++ u " cm") = true)
    by (intros n Hn; rewrite contains_unit;
        [reflexivity|assumption|discriminate|reflexivity]).
  assert (Ckg : forall n, numeral n -> contains (u "cm") (n ++ u " kg") = false
                                       /\ contains (u "kg") (n ++ u " kg") = true)
    by (intros n Hn; rewrite !contains_unit;
        try (split; reflexivity); try assumption; try discriminate; reflexivity).
  assert (Ucm : forall n, numeral n -> contains (u "cm") (n ++ u "cm") = true)
    by (intros n Hn; rewrite contains_unit;
        [reflexivity|assumption|discriminate|reflexivity]).
  assert (Ukg : forall n, numeral n -> contains (u "cm") (n ++ u "kg") = false
                                       /\ contains (u "kg") (n ++ u "kg") = true)
    by (intros n Hn; rewrite !contains_unit;
        try (split; reflexivity); try assumption; try discriminate; reflexivity).
  split; [|split; [|split; [|split]]].
  - intros NS. destruct (measure_single _ NS) as [-> ->].
    unfold height_text, weight_text, to_numeric_value. cbn [isna].
    change (u " cm") with (SPACE :: u "cm"). change (u " kg") with (SPACE :: u "kg").
    repeat split.
    + intros E. now rewrite E.
    + intros E. now rewrite E.
    + intros E1 E2. now rewrite E1, E2.
    + intros n [Hn _] E. rewrite E.
      change (SPACE :: u "cm") with (u " cm"). rewrite (Ccm n Hn).
      change (u " cm") with (SPACE :: u "cm").
      rewrite replace_unit by (assumption || reflexivity).
      now rewrite to_numeric_numeral.
    + intros n [Hn _] E. rewrite E.
      change (SPACE :: u "kg") with (u " kg").
      destruct (Ckg n Hn) as [-> ->].
      change (u " kg") with (SPACE :: u "kg").
      rewrite replace_unit by (assumption || reflexivity).
      now rewrite to_numeric_numeral.
    + intros n Hn E. rewrite E, (Ucm n Hn).
      rewrite (@replace_leaves_other_unit SPACE (u "cm") (u "cm") n Hn eq_refl eq_refl).
      apply f_equal, unit_is_no_number; [assumption|cbn; tauto].
    + intros n Hn E. rewrite E. destruct (Ukg n Hn) as [-> ->].
      rewrite (@replace_leaves_other_unit SPACE (u "kg") (u "kg") n Hn eq_refl eq_refl).
      apply f_equal, unit_is_no_number; [assumption|cbn; tauto].
  - intros f0 f1 rest E. destruct (measure_pair _ E) as [-> ->].
    unfold height_text, weight_text, to_numeric_value. cbn [isna].
    change (u " cm") with (SPACE :: u "cm"). change (u " kg") with (SPACE :: u "kg").
    repeat split.
    + intros n [Hn _] E0. rewrite E0.
      rewrite replace_unit by (assumption || reflexivity).
      now rewrite to_numeric_numeral.
    + intros n [Hn _] E1. rewrite E1.
      rewrite replace_unit by (assumption || reflexivity).
      now rewrite to_numeric_numeral.
    + intros n Hn E0. rewrite E0.
      rewrite (@replace_leaves_other_unit SPACE (u "cm") (SPACE :: u "kg") n Hn eq_refl eq_refl).
      apply f_equal, unit_is_no_number; [assumption|cbn; tauto].
    + intros n Hn E1. rewrite E1.
      rewrite (@replace_leaves_other_unit SPACE (u "kg") (SPACE :: u "cm") n Hn eq_refl eq_refl).
      apply f_equal, unit_is_no_number; [assumption|cbn; tauto].
  - intros ->. vm_compute. split; reflexivity.
  - intros ->. vm_compute. split; reflexivity.
  - intros ->. vm_compute. split; reflexivity.
Qed.

(** Section 9 on [measured_frame]: the three measurements of C4. *)
Lemma measurements_are_assigned_by_position_witness :
  parse_measurements measured_frame = Ok measured_output
  /\ short_numeral (u "178") /\ short_numeral (u "75")
  /\ exists h w,
       getcol measured_output "height_cm" = Ok h
       /\ getcol measured_output "weight_kg" = Ok w
       /\ nth_error (values h) 0 = Some (Num (178 # 1))
       /\ nth_error (values w) 0 = Some (Num (75 # 1))
       /\ nth_error (values h) 1 = Some (Num (178 # 1))
       /\ nth_error (values w) 1 = Some NA
       /\ nth_error (values h) 2 = Some NA
       /\ nth_error (values w) 2 = Some (Num (75 # 1)).
Proof.
  assert (H : parse_measurements measured_frame = Ok measured_output)
    by (vm_compute; reflexivity).
  assert (Hh : short_numeral (u "178")) by (split; [reflexivity|vm_compute; lia]).
  assert (Hw : short_numeral (u "75")) by (split; [reflexivity|vm_compute; lia]).
  split; [exact H|]. split; [exact Hh|]. split; [exact Hw|].
  destruct (@measurements_are_assigned_by_position
              sample_ids sample_text sample_text sample_text sample_text
              sample_text sample_text sample_text sample_measurements
              sample_text sample_text _ eq_refl H)
    as (h & w & Gh & Gw & A).
  exists h, w. split; [exact Gh|]. split; [exact Gw|].
  destruct (A 0 (u "178 cm / 75 kg") eq_refl) as (_ & P & _).
  destruct (P (u "178 cm ") (u " 75 kg") [] eq_refl) as (P0 & P1 & _).
  destruct (A 1 (u "178 cm") eq_refl) as (S1 & _).
  destruct (S1 ltac:(vm_compute; intuition discriminate)) as (S1w & _ & _ & S1h & _).
  destruct (A 2 (u "75 kg") eq_refl) as (S2 & _).
  destruct (S2 ltac:(vm_compute; intuition discriminate)) as (_ & S2h & _ & _ & S2w & _).
  split; [exact (P0 (u "178") Hh eq_refl)|].
  split; [exact (P1 (u "75") Hw eq_refl)|].
  split; [exact (S1h (u "178") Hh eq_refl)|].
  split; [exact (S1w eq_refl)|].
  split; [exact (S2h eq_refl)|].
  exact (S2w (u "75") Hw eq_refl).
Defined.

(** Section 9 on [unspaced_frame]: "178cm" holds the marker "cm" and
    "75kg" the marker "kg", and neither a height nor a weight is read from
    them. *)
Lemma a_unit_without_a_space_is_not_read :
  parse_measurements unspaced_frame = Ok unspaced_output
  /\ nth_error (values unspaced_measurements) 1 = Some (Str (u "178cm"))
  /\ ~ In SLASH (u "178cm") /\ contains (u "cm") (strip (u "178cm")) = true
  /\ nth_error (values unspaced_measurements) 2 = Some (Str (u "75kg"))
  /\ ~ In SLASH (u "75kg") /\ contains (u "kg") (strip (u "75kg")) = true
  /\ exists h w,
       getcol unspaced_output "height_cm" = Ok h
       /\ getcol unspaced_output "weight_kg" = Ok w
       /\ nth_error (values h) 1 = Some NA
       /\ nth_error (values w) 2 = Some NA.
Proof.
  split; [vm_compute; reflexivity|].
  split; [reflexivity|].
  split; [vm_compute; intuition discriminate|].
  split; [vm_compute; reflexivity|].
  split; [reflexivity|].
  split; [vm_compute; intuition discriminate|].
  split; [vm_compute; reflexivity|].
  eexists _, _. repeat split; vm_compute; reflexivity.
Qed.

(** * The properties on the example tables *)

Lemma output_measures_are_rounded_numbers_witness :
  rectangular paris_table /\ pipeline paris_table = Ok paris_output
  /\ getcol paris_table "Measurements" = Ok (text b_measurements [athlete_paris])
  /\ forallb plain_measurement (values (text b_measurements [athlete_paris])) = true
  /\ exists h w,
       getcol paris_output "height_cm" = Ok h /\ getcol paris_output "weight_kg" = Ok w
       /\ Forall (fun v => exists n : Z, v = Num (Qred (n # 10))) (values h ++ values w).
Proof.
  assert (R : rectangular paris_table) by apply rectangular_dataset_of.
  assert (H : pipeline paris_table = Ok paris_output) by (vm_compute; reflexivity).
  assert (G : getcol paris_table "Measurements"
              = Ok (text b_measurements [athlete_paris])) by reflexivity.
  assert (P : forallb plain_measurement (values (text b_measurements [athlete_paris]))
              = true) by reflexivity.
  split; [exact R|]. split; [exact H|]. split; [exact G|]. split; [exact P|].
  exact (@output_measures_are_rounded_numbers _ _ _ R H G P).
Defined.


Lemma output_names_hold_no_bullet_witness :
  rectangular paris_table /\ pipeline paris_table = Ok paris_output
  /\ exists nm,
       getcol paris_output "name" = Ok nm
       /\ forall s, In (Str s) (values nm) -> ~ In BULLET s.
Proof.
  assert (R : rectangular paris_table) by apply rectangular_dataset_of.
  assert (H : pipeline paris_table = Ok paris_output) by (vm_compute; reflexivity).
  split; [exact R|]. split; [exact H|].
  destruct (@output_names_hold_no_bullet _ _ R H) as (un & nm & _ & A & _ & B & _).
  exists nm. split; assumption.
Defined.

Lemma output_has_no_more_rows_than_the_input_witness :
  rectangular mixed_table /\ pipeline mixed_table = Ok mixed_output
  /\ nrows mixed_table = 4 /\ nrows mixed_output = 2
  /\ nrows mixed_output <= nrows (drop_duplicates mixed_table)
  /\ nrows (drop_duplicates mixed_table) <= nrows mixed_table.
Proof.
  assert (R : rectangular mixed_table) by apply rectangular_dataset_of.
  assert (H : pipeline mixed_table = Ok mixed_output) by (vm_compute; reflexivity).
  split; [exact R|]. split; [exact H|]. split; [reflexivity|]. split; [reflexivity|].
  exact (@output_has_no_more_rows_than_the_input _ _ R H).
Defined.

Lemma delimiters_do_not_reach_the_output_witness :
  rectangular new_york_table /\ pipeline new_york_table = Ok new_york_output
  /\ exists ci re co,
       getcol new_york_output "City" = Ok ci /\ getcol new_york_output "Region" = Ok re
       /\ getcol new_york_output "Country" = Ok co
       /\ Forall (lacks COMMA) (values ci)
       /\ Forall (fun v => lacks COMMA v /\ lacks LPAREN v) (values re)
       /\ Forall (fun v => lacks COMMA v /\ lacks LPAREN v /\ lacks RPAREN v) (values co).
Proof.
  assert (R : rectangular new_york_table) by apply rectangular_dataset_of.
  assert (H : pipeline new_york_table = Ok new_york_output) by (vm_compute; reflexivity).
  split; [exact R|]. split; [exact H|].
  exact (@delimiters_do_not_reach_the_output _ _ R H).
Defined.

Lemma deduplicating_first_changes_nothing_witness :
  rectangular twins_table
  /\ nrows twins_table = 2 /\ nrows (drop_duplicates twins_table) = 1
  /\ pipeline (drop_duplicates twins_table) = pipeline twins_table.
Proof.
  assert (R : rectangular twins_table) by apply rectangular_dataset_of.
  split; [exact R|]. split; [reflexivity|]. split; [vm_compute; reflexivity|].
  exact (@deduplicating_first_changes_nothing _ R).
Defined.

Lemma duplicated_sum_counts_the_dropped_rows_witness :
  rectangular mixed_table
  /\ duplicated_sum mixed_table = 1
  /\ nrows (drop_duplicates mixed_table) + duplicated_sum mixed_table = nrows mixed_table
  /\ duplicated_sum (drop_duplicates mixed_table) = 0.
Proof.
  assert (R : rectangular mixed_table) by apply rectangular_dataset_of.
  split; [exact R|]. split; [vm_compute; reflexivity|].
  exact (@duplicated_sum_counts_the_dropped_rows _ R).
Defined.

Lemma missing_column_raises_key_error_witness :
  has_col table_without_roles "Roles" = false
  /\ pipeline table_without_roles = Raise KeyError.
Proof.
  assert (A : has_col table_without_roles "Roles" = false) by (vm_compute; reflexivity).
  split; [exact A|].
  apply (@missing_column_raises_key_error table_without_roles "Roles"); [|exact A].
  vm_compute. tauto.
Defined.

Lemma text_columns_must_have_dtype_object_witness :
  getcol numeric_names_table "Used name" = Ok (mkSeries float64 [NA])
  /\ pipeline numeric_names_table = Raise AttributeError.
Proof.
  assert (A : getcol numeric_names_table "Used name" = Ok (mkSeries float64 [NA]))
    by (vm_compute; reflexivity).
  split; [exact A|].
  apply (@text_columns_must_have_dtype_object numeric_names_table _ eq_refl A).
  discriminate.
Defined.

Lemma output_cannot_be_cleaned_again_witness :
  rectangular paris_table /\ pipeline paris_table = Ok paris_output
  /\ pipeline paris_output = Raise KeyError.
Proof.
  assert (R : rectangular paris_table) by apply rectangular_dataset_of.
  assert (H : pipeline paris_table = Ok paris_output) by (vm_compute; reflexivity).
  split; [exact R|]. split; [exact H|].
  exact (@output_cannot_be_cleaned_again _ _ R H).
Defined.

Lemma final_check_shows_no_missing_value_witness :
  rectangular mixed_table /\ pipeline mixed_table = Ok mixed_output
  /\ map fst (isna_sum mixed_output) = final_columns
  /\ In ("birth_date", 0) (isna_sum mixed_output)
  /\ In ("Affiliations", 0) (isna_sum mixed_output).
Proof.
  assert (R : rectangular mixed_table) by apply rectangular_dataset_of.
  assert (H : pipeline mixed_table = Ok mixed_output) by (vm_compute; reflexivity).
  split; [exact R|]. split; [exact H|].
  destruct (@final_check_shows_no_missing_value _ _ R H) as (A & B & _).
  split; [exact A|]. split; apply B; cbn; tauto.
Defined.

Lemma parse_measurements_returns_exactly_when_the_split_has_two_columns_witness :
  length (values sample_ids) = length (values sample_measurements)
  /\ exists df, parse_measurements measured_frame = Ok df.
Proof.
  assert (L : length (values sample_ids) = length (values sample_measurements))
    by reflexivity.
  split; [exact L|].
  apply (proj2 (@parse_measurements_returns_exactly_when_the_split_has_two_columns
                  sample_ids sample_text sample_text sample_text sample_text
                  sample_text sample_text sample_text sample_measurements
                  sample_text sample_text L)).
  split; [reflexivity|]. right. exists (u "178 cm / 75 kg").
  split; [now left|reflexivity].
Defined.

Lemma column_order_of_the_input_does_not_matter_witness :
  rectangular paris_table /\ NoDup (columns paris_table)
  /\ pipeline (rev paris_table) = Ok paris_output.
Proof.
  assert (R : rectangular paris_table) by apply rectangular_dataset_of.
  assert (H : pipeline paris_table = Ok paris_output) by (vm_compute; reflexivity).
  assert (N : NoDup (columns paris_table)).
  { repeat (constructor; [cbn; intuition discriminate|]). constructor. }
  split; [exact R|]. split; [exact N|].
  rewrite <- H.
  exact (@column_order_of_the_input_does_not_matter _ _ R N (Permutation_rev _)).
Defined.

Lemma unread_columns_matter_through_duplicates_only_witness :
  getcol paris_died_table "Died" <> getcol paris_table "Died"
  /\ pipeline paris_died_table = Ok paris_output.
Proof.
  split; [vm_compute; discriminate|].
  assert (H : pipeline paris_table = Ok paris_output) by (vm_compute; reflexivity).
  rewrite <- H.
  apply (@unread_columns_matter_through_duplicates_only paris_table paris_died_table).
  - intros c Hc. cbn in Hc.
    repeat (destruct Hc as [<-|Hc]; [vm_compute; reflexivity|]). contradiction.
  - intros c Hc. cbn in Hc.
    repeat (destruct Hc as [<-|Hc]; [vm_compute; reflexivity|]). contradiction.
  - vm_compute. reflexivity.
Defined.

Lemma insert_loop_puts_the_new_columns_behind_the_source_column_witness :
  insert_after [("athlete_id", sample_ids); ("Born", born_only); ("NOC", sample_text)]
    "Born" 0 new_cols1 two_fragments
  = Ok ([("athlete_id", sample_ids); ("Born", born_only)]
        ++ combine new_cols1 two_new_columns ++ [("NOC", sample_text)]).
Proof.
  apply (@insert_loop_puts_the_new_columns_behind_the_source_column
           [("athlete_id", sample_ids)] [("NOC", sample_text)] "Born" born_only
           two_fragments new_cols1 two_new_columns).
  - reflexivity.
  - repeat (constructor; [cbn; intuition discriminate|]). constructor.
  - reflexivity.
  - intros n Hn. cbn in Hn.
    repeat (destruct Hn as [<-|Hn]; [vm_compute; reflexivity|]). contradiction.
  - intros [|[|j]] v Hv; cbn in Hv; try (injection Hv as <-; reflexivity).
    destruct j; discriminate Hv.
Defined.

Lemma insert_loop_cannot_run_twice_witness :
  insert_after
    ([("athlete_id", sample_ids); ("Born", born_only)]
     ++ combine new_cols1 two_new_columns ++ [("NOC", sample_text)])
    "Born" 0 new_cols1 two_fragments
  = Raise ValueError.
Proof.
  apply (@insert_loop_cannot_run_twice
           [("athlete_id", sample_ids)] [("NOC", sample_text)] "Born" born_only
           two_fragments new_cols1 two_new_columns).
  - reflexivity.
  - discriminate.
  - reflexivity.
  - intros [|[|j]] v Hv; cbn in Hv; try (injection Hv as <-; reflexivity).
    destruct j; discriminate Hv.
Defined.

Lemma replace_joins_the_fragments_of_split_witness :
  replace (u " ") [] (u "New York, New York (USA)") = u "NewYork,NewYork(USA)"
  /\ split (u " ") (u "New York, New York (USA)")
     = [u "New"; u "York,"; u "New"; u "York"; u "(USA)"]
  /\ replace (u " ") [] (u "New York, New York (USA)")
     = join [] (split (u " ") (u "New York, New York (USA)")).
Proof.
  split; [vm_compute; reflexivity|]. split; [vm_compute; reflexivity|].
  apply replace_joins_the_fragments_of_split. discriminate.
Defined.

Lemma split_loses_no_text_witness :
  split (u "in") born_berlin = [u "1 May 1980 "; u " Berl"; u ", Berl"; u " (GER)"]
  /\ join (u "in") (split (u "in") born_berlin) = born_berlin.
Proof.
  split; [vm_compute; reflexivity|].
  apply split_loses_no_text. discriminate.
Defined.
